(** * mcp-agentify: endpoint extraction and MCP server generation

    A shallow embedding of the analyzers ([RESTAnalyzer], [NodeJSAnalyzer],
    [OpenAPIAnalyzer], [ProjectAnalyzer]), of the identifier helpers of
    [TemplateManager] and of the [MCPGenerator] pipeline, together with the
    properties that the specification states about them.

    JavaScript strings are modelled as ASCII strings; regular expressions
    are kept as data and run by a small backtracking matcher that follows
    the ECMAScript priorities (leftmost start, first alternative first,
    greedy repetition). *)

From Stdlib Require Import String Ascii List Bool Arith Lia Sorted.
From stdpp Require Import base gmap strings list.

Import ListNotations.
Local Open Scope string_scope.
Local Open Scope list_scope.
Local Open Scope nat_scope.

(** ** JavaScript string primitives *)

Module Js.

Definition chars (s : string) : list ascii := list_ascii_of_string s.
Definition str (l : list ascii) : string := string_of_list_ascii l.

Definition code (c : ascii) : nat := nat_of_ascii c.

Definition dquote : ascii := "034"%char.
Definition backslash : ascii := "092"%char.
Definition newline : ascii := "010"%char.

Definition is_upper (c : ascii) : bool := (65 <=? code c) && (code c <=? 90).
Definition is_lower (c : ascii) : bool := (97 <=? code c) && (code c <=? 122).
Definition is_digit (c : ascii) : bool := (48 <=? code c) && (code c <=? 57).

Definition upper_char (c : ascii) : ascii :=
  if is_lower c then ascii_of_nat (code c - 32) else c.
Definition lower_char (c : ascii) : ascii :=
  if is_upper c then ascii_of_nat (code c + 32) else c.

(** [String.prototype.toUpperCase] / [toLowerCase]. *)
Fixpoint toUpperCase (s : string) : string :=
  match s with
  | EmptyString => EmptyString
  | String c s' => String (upper_char c) (toUpperCase s')
  end.

Fixpoint toLowerCase (s : string) : string :=
  match s with
  | EmptyString => EmptyString
  | String c s' => String (lower_char c) (toLowerCase s')
  end.

(** White space of [\s] and of [trim], restricted to ASCII. *)
Definition is_space (c : ascii) : bool :=
  let n := code c in (n =? 32) || ((9 <=? n) && (n <=? 13)).

(** Line terminators, which [.] does not match without the [s] flag. *)
Definition is_line_terminator (c : ascii) : bool :=
  let n := code c in (n =? 10) || (n =? 13).

Definition is_word (c : ascii) : bool :=
  is_upper c || is_lower c || is_digit c || (code c =? 95).

Fixpoint trimStart (s : string) : string :=
  match s with
  | EmptyString => EmptyString
  | String c s' => if is_space c then trimStart s' else s
  end.

Definition rev_string (s : string) : string := str (rev (chars s)).

(** [String.prototype.trim]. *)
Definition trim (s : string) : string :=
  rev_string (trimStart (rev_string (trimStart s))).

(** [s.startsWith(p)]. *)
Fixpoint startsWith (p s : string) : bool :=
  match p, s with
  | EmptyString, _ => true
  | String a p', String b s' => if Ascii.eqb a b then startsWith p' s' else false
  | String _ _, EmptyString => false
  end.

(** [s.includes(p)]: [p] occurs as a substring of [s]. *)
Fixpoint includes (p s : string) : bool :=
  startsWith p s ||
  match s with
  | EmptyString => false
  | String _ s' => includes p s'
  end.

(** [s.split(sep)] for a one-character separator; the result is never
    empty (the empty string splits into one empty piece). *)
Fixpoint split (sep : ascii) (s : string) : list string :=
  match s with
  | EmptyString => [EmptyString]
  | String c s' =>
      if Ascii.eqb c sep then EmptyString :: split sep s'
      else match split sep s' with
           | [] => [String c EmptyString]
           | p :: ps => String c p :: ps
           end
  end.

(** [parts.join(sep)]. *)
Fixpoint join (sep : string) (parts : list string) : string :=
  match parts with
  | [] => EmptyString
  | [p] => p
  | p :: ps => p +:+ sep +:+ join sep ps
  end.

(** [s.charAt(0).toUpperCase() + s.slice(1).toLowerCase()]. *)
Definition capitalize (s : string) : string :=
  match s with
  | EmptyString => EmptyString
  | String c s' => String (upper_char c) (toLowerCase s')
  end.

(** [s.substring(a, b)] for [a <= b]. *)
Definition substring (a b : nat) (s : string) : string :=
  String.substring a (b - a) s.

(** [s.replace(/[...]/g, '')]: every character of the class is dropped. *)
Fixpoint remove_chars (p : ascii -> bool) (s : string) : string :=
  match s with
  | EmptyString => EmptyString
  | String c s' => if p c then remove_chars p s' else String c (remove_chars p s')
  end.

(** [xs.includes(x)] on an array of strings. *)
Definition array_includes (x : string) (xs : list string) : bool :=
  existsb (String.eqb x) xs.

(** Truthiness of a string: the empty string is falsy. *)
Definition truthy (s : string) : bool :=
  match s with EmptyString => false | _ => true end.

End Js.

(** ** Regular expressions *)

Module Regex.

Inductive regex : Type :=
| Eps
| Chr (p : ascii -> bool)
| Cat (r1 r2 : regex)
| Alt (r1 r2 : regex)
| Star (r : regex)
| Grp (n : nat) (r : regex)
| Eos.

(** Capture groups recorded so far, most recent first. *)
Definition captures := list (nat * list ascii).

Fixpoint capture (n : nat) (cs : captures) : option string :=
  match cs with
  | [] => None
  | (m, v) :: cs' => if Nat.eqb n m then Some (Js.str v) else capture n cs'
  end.

Section Matcher.
Context {A : Type}.

(** The iterations of a greedy star: [step] matches the body once. An
    iteration that consumes nothing is refused, as in ECMAScript; the
    fuel, one more than the length of the input, is never exhausted. *)
Fixpoint star_loop
         (step : list ascii -> captures ->
                 (list ascii -> captures -> option A) -> option A)
         (k : list ascii -> captures -> option A)
         (fuel : nat) (s : list ascii) (cs : captures) : option A :=
  match fuel with
  | 0 => k s cs
  | S fuel' =>
      match step s cs
              (fun s' cs' =>
                 if List.length s' <? List.length s
                 then star_loop step k fuel' s' cs' else None) with
      | Some x => Some x
      | None => k s cs
      end
  end.

(** Backtracking matcher in continuation-passing style: [k] receives the
    rest of the input and the captures; [None] makes the matcher try the
    next choice. *)
Fixpoint rmatch (r : regex) (s : list ascii) (cs : captures)
         (k : list ascii -> captures -> option A) {struct r} : option A :=
  match r with
  | Eps => k s cs
  | Chr p =>
      match s with
      | c :: s' => if p c then k s' cs else None
      | [] => None
      end
  | Cat r1 r2 => rmatch r1 s cs (fun s' cs' => rmatch r2 s' cs' k)
  | Alt r1 r2 =>
      match rmatch r1 s cs k with
      | Some x => Some x
      | None => rmatch r2 s cs k
      end
  | Star r1 => star_loop (rmatch r1) k (S (List.length s)) s cs
  | Grp n r1 =>
      rmatch r1 s cs
        (fun s' cs' =>
           k s' ((n, firstn (List.length s - List.length s') s) :: cs'))
  | Eos =>
      match s with
      | [] => k s cs
      | _ :: _ => None
      end
  end.
End Matcher.

(** A successful match: [index] and [text] are [match.index] and
    [match[0]]; [rest] is the input after the match. *)
Record rmatch_result : Type := MkMatch {
  index : nat;
  text : string;
  groups : captures;
  rest : list ascii
}.

Definition group (n : nat) (m : rmatch_result) : option string :=
  capture n (groups m).

(** Match [r] at the head of [s]. *)
Definition match_here (r : regex) (s : list ascii) (i : nat) : option rmatch_result :=
  rmatch r s [] (fun s' cs =>
    Some (MkMatch i (Js.str (firstn (List.length s - List.length s') s)) cs s')).

(** Leftmost match at or after the head of [s], which is at offset [i]. *)
Fixpoint search (r : regex) (s : list ascii) (i : nat) : option rmatch_result :=
  match match_here r s i with
  | Some m => Some m
  | None =>
      match s with
      | [] => None
      | _ :: s' => search r s' (S i)
      end
  end.

(** The loop [while ((m = re.exec(s)) !== null)] of a global pattern, and
    [s.match(re)] with the [g] flag: all matches from left to right, each
    search resuming where the previous match ended.  (After an empty match
    the search resumes one character further; no pattern of the analyzers
    can match the empty string.) *)
Fixpoint exec_loop (fuel : nat) (r : regex) (s : list ascii) (i : nat)
  : list rmatch_result :=
  match fuel with
  | 0 => []
  | S fuel' =>
      match search r s i with
      | None => []
      | Some m =>
          let stop := index m + String.length (text m) in
          match text m, rest m with
          | EmptyString, [] => [m]
          | EmptyString, _ :: s' => m :: exec_loop fuel' r s' (S stop)
          | _, s' => m :: exec_loop fuel' r s' stop
          end
      end
  end.

Definition exec_all (r : regex) (s : string) : list rmatch_result :=
  exec_loop (S (String.length s)) r (Js.chars s) 0.

(** [s.match(re)] without the [g] flag: the first match. *)
Definition exec_first (r : regex) (s : string) : option rmatch_result :=
  search r (Js.chars s) 0.

(** [s.replace(re, f)] without the [g] flag, [f] computing the replacement
    from the match. *)
Definition replace_first (r : regex) (f : rmatch_result -> string) (s : string) : string :=
  match exec_first r s with
  | None => s
  | Some m => String.substring 0 (index m) s +:+ f m +:+ Js.str (rest m)
  end.

(** [s.replace(re, f)] with the [g] flag. *)
Fixpoint replace_loop (ms : list rmatch_result) (s : string) (pos : nat)
         (f : rmatch_result -> string) : string :=
  match ms with
  | [] => String.substring pos (String.length s - pos) s
  | m :: ms' =>
      String.substring pos (index m - pos) s +:+ f m +:+
      replace_loop ms' s (index m + String.length (text m)) f
  end.

Definition replace_all (r : regex) (f : rmatch_result -> string) (s : string) : string :=
  replace_loop (exec_all r s) s 0 f.

(** *** Pattern syntax *)

Fixpoint seq (rs : list regex) : regex :=
  match rs with
  | [] => Eps
  | [r] => r
  | r :: rs' => Cat r (seq rs')
  end.

Fixpoint alts (rs : list regex) : regex :=
  match rs with
  | [] => Chr (fun _ => false)
  | [r] => r
  | r :: rs' => Alt r (alts rs')
  end.

Definition plus (r : regex) : regex := Cat r (Star r).
Definition opt (r : regex) : regex := Alt r Eps.

Definition chr (c : ascii) : regex := Chr (Ascii.eqb c).
(** A character under the [i] flag. *)
Definition ichr (c : ascii) : regex :=
  Chr (fun d => Ascii.eqb (Js.lower_char d) (Js.lower_char c)).

Definition lit (s : string) : regex := seq (map chr (Js.chars s)).
Definition ilit (s : string) : regex := seq (map ichr (Js.chars s)).

Definition one_of (cs : list ascii) : regex :=
  Chr (fun d => existsb (Ascii.eqb d) cs).
Definition none_of (cs : list ascii) : regex :=
  Chr (fun d => negb (existsb (Ascii.eqb d) cs)).

Definition ws : regex := Chr Js.is_space.
Definition word : regex := Chr Js.is_word.
Definition dot : regex := Chr (fun d => negb (Js.is_line_terminator d)).

(** The quote class of the sources: single quote, double quote, backtick. *)
Definition quotes : list ascii := ["'"%char; Js.dquote; "`"%char].
Definition quote : regex := one_of quotes.
(** A quoted literal whose contents (one or more non-quote characters) are
    captured as group [n]. *)
Definition quoted (n : nat) : regex :=
  seq [quote; Grp n (plus (none_of quotes)); quote].

(** *** Two static readings of a pattern *)

(** The characters that some character class of [r] accepts: only these
    can occur in a text matched by [r]. *)
Fixpoint accepts (r : regex) (c : ascii) : bool :=
  match r with
  | Eps | Eos => false
  | Chr p => p c
  | Cat r1 r2 | Alt r1 r2 => accepts r1 c || accepts r2 c
  | Star r1 | Grp _ r1 => accepts r1 c
  end.

Definition all_ascii : list ascii := map ascii_of_nat (List.seq 0 256).

(** [requires p r]: every way through [r] passes a character class all
    of whose characters satisfy [p]. *)
Fixpoint requires (p : ascii -> bool) (r : regex) : bool :=
  match r with
  | Eps | Eos | Star _ => false
  | Chr q => forallb (fun c => implb (q c) (p c)) all_ascii
  | Cat r1 r2 => requires p r1 || requires p r2
  | Alt r1 r2 => requires p r1 && requires p r2
  | Grp _ r1 => requires p r1
  end.

End Regex.

(** ** Data model ([types]) *)

Inductive ParameterIn : Type := InQuery | InPath | InHeader | InBody.

Module Param.
Record t : Type := Build {
  name : string;
  type : string;
  required : bool;
  description : option string;
  in_ : option ParameterIn
}.
End Param.

Module EndpointInfo.
Record t : Type := Build {
  path : string;
  method : string;
  description : option string;
  parameters : option (list Param.t)
}.
End EndpointInfo.

Inductive ProjectType : Type := RestApi | NodeJs | OpenApi.

Module ProjectInfo.
Record t : Type := Build {
  name : string;
  type : ProjectType;
  rootPath : string;
  endpoints : list EndpointInfo.t;
  baseUrl : option string;
  version : option string;
  description : option string
}.
End ProjectInfo.

Inductive OutputFormat : Type := typescript | javascript.

Module MCPConfig.
Record t : Type := Build {
  serverName : string;
  description : string;
  version : string;
  outputFormat : OutputFormat;
  includeTests : bool;
  includeDocumentation : bool;
  excludeEndpoints : option (list string)
}.
End MCPConfig.

(** The key [`${endpoint.method}:${endpoint.path}`] used by both
    deduplication and exclusion. *)
Definition endpointKey (e : EndpointInfo.t) : string :=
  EndpointInfo.method e +:+ ":" +:+ EndpointInfo.path e.

(** [deduplicateEndpoints], identical in [RESTAnalyzer] and
    [NodeJSAnalyzer]: a filter whose predicate consults and updates the
    set [seen] of keys. *)
Fixpoint dedup_from (seen : gset string) (endpoints : list EndpointInfo.t)
  : list EndpointInfo.t :=
  match endpoints with
  | [] => []
  | endpoint :: more =>
      let key := endpointKey endpoint in
      if decide (key ∈ seen) then dedup_from seen more
      else endpoint :: dedup_from ({[key]} ∪ seen) more
  end.

Definition deduplicateEndpoints (endpoints : list EndpointInfo.t)
  : list EndpointInfo.t :=
  dedup_from ∅ endpoints.

Definition http_methods : list string :=
  ["GET"; "POST"; "PUT"; "PATCH"; "DELETE"; "OPTIONS"; "HEAD"].

Definition http_verbs : list string :=
  ["get"; "post"; "put"; "patch"; "delete"; "options"; "head"].

(** ** RESTAnalyzer *)

Module RESTAnalyzer.
Import Regex.

(** [/[{:]([^}/:]+)[}]?/g] *)
Definition re_path_param : regex :=
  seq [one_of ["{"; ":"]%char; Grp 1 (plus (none_of ["}"; "/"; ":"]%char));
       opt (chr "}")].

Definition is_brace_or_colon (c : ascii) : bool :=
  existsb (Ascii.eqb c) ["{"; "}"; ":"]%char.

Definition extractParametersFromPath (path : string) : list Param.t :=
  map (fun m =>
         let paramName := Js.remove_chars is_brace_or_colon (text m) in
         Param.Build paramName "string" true
           (Some ("Path parameter: " +:+ paramName)) (Some InPath))
      (exec_all re_path_param path).

(** [/(?:pages|src\/pages)\/api\/(.+)\.[jt]sx?$/] *)
Definition re_next_file : regex :=
  seq [alts [lit "pages"; lit "src/pages"]; lit "/api/"; Grp 1 (plus dot);
       chr "."; one_of ["j"; "t"]%char; chr "s"; opt (chr "x"); Eos].

(** [/\[([^\]]+)\]/g] *)
Definition re_bracket : regex :=
  seq [chr "["; Grp 1 (plus (none_of ["]"%char])); chr "]"].

(** [/\/index$/] *)
Definition re_index_suffix : regex := seq [lit "/index"; Eos].

Definition braced (m : rmatch_result) : string :=
  "{" +:+ default "" (group 1 m) +:+ "}".

Definition inferNextJsApiPath (filename : string) : string :=
  match exec_first re_next_file filename with
  | Some apiMatch =>
      let apiPath :=
        "/api/" +:+
        replace_first re_index_suffix (fun _ => "")
          (replace_all re_bracket braced (default "" (group 1 apiMatch))) in
      if String.eqb apiPath "/api/" then "/api" else apiPath
  | None => "/api/unknown"
  end.

(** [/req\.method\s*===?\s*['"](GET|POST|PUT|PATCH|DELETE|OPTIONS|HEAD)["']/gi] *)
Definition re_method_check : regex :=
  seq [ilit "req.method"; Star ws; lit "=="; opt (chr "="); Star ws;
       one_of ["'"%char; Js.dquote]; Grp 1 (alts (map ilit http_methods));
       one_of [Js.dquote; "'"%char]].

(** The pattern written [/['\"](\\w+)['\"]/i] in the source: between the
    quotes it asks for a backslash followed by one or more letters w. *)
Definition re_quoted_word : regex :=
  seq [one_of ["'"%char; Js.dquote];
       Grp 1 (seq [chr Js.backslash; plus (ichr "w")]);
       one_of ["'"%char; Js.dquote]].

Definition extractMethodsFromNextJsHandler (functionBody : string) : list string :=
  let methodChecks := exec_all re_method_check functionBody in
  let methods :=
    flat_map (fun check =>
                match exec_first re_quoted_word (text check) with
                | Some methodMatch =>
                    [Js.toUpperCase (default "" (group 1 methodMatch))]
                | None => []
                end) methodChecks in
  match methods with
  | [] => ["GET"; "POST"]
  | _ => methods
  end.

Definition extractMethodFromMatch (matchStr : string) : string :=
  let upperMatch := Js.toUpperCase matchStr in
  default "GET" (find (fun method => Js.includes method upperMatch) http_methods).

(** The four patterns of [extractJavaScriptEndpoints], in source order. *)
Definition re_js_express : regex :=
  seq [alts [lit "app"; lit "router"; lit "server"]; chr ".";
       alts (map lit http_verbs); Star ws; chr "("; Star ws; quoted 1].

Definition re_js_nest : regex :=
  seq [chr "@"; alts (map ilit ["Get"; "Post"; "Put"; "Patch"; "Delete"; "Options"; "Head"]);
       Star ws; chr "("; Star ws; quoted 1].

Definition re_js_hapi : regex :=
  seq [lit "server.route"; Star ws; chr "("; Star ws; chr "{"; Star ws;
       lit "method:"; Star ws; quoted 1; Star (none_of ["}"%char]);
       lit "path:"; Star ws; quoted 2].

Definition re_js_next : regex :=
  seq [lit "export"; plus ws; opt (seq [lit "default"; plus ws]);
       opt (seq [lit "async"; plus ws]); lit "function"; plus ws;
       alts [lit "handler"; plus word]; Star ws; chr "(";
       Star (none_of [")"%char]); lit "req"; Star (none_of [")"%char]); chr ")"].

Definition mkEndpoint (path method description : string) : EndpointInfo.t :=
  EndpointInfo.Build path method (Some description)
    (Some (extractParametersFromPath path)).

Definition extractJavaScriptEndpoints (content filename : string)
  : list EndpointInfo.t :=
  let generic m :=
    let method := extractMethodFromMatch (text m) in
    let path := default "" (group 1 m) in
    [mkEndpoint path (if Js.truthy method then method else "GET")
       ("Endpoint from " +:+ filename)] in
  let hapi m :=
    let method := Js.toUpperCase (default "" (group 1 m)) in
    let path := default "" (group 2 m) in
    [mkEndpoint path method ("Hapi.js endpoint from " +:+ filename)] in
  let next (_ : rmatch_result) :=
    let apiPath := inferNextJsApiPath filename in
    let methods := extractMethodsFromNextJsHandler content in
    map (fun method =>
           mkEndpoint apiPath method ("Next.js API route from " +:+ filename))
        methods in
  flat_map generic (exec_all re_js_express content) ++
  flat_map generic (exec_all re_js_nest content) ++
  flat_map hapi (exec_all re_js_hapi content) ++
  flat_map next (exec_all re_js_next content).

(** [normalizeDjangoPath]: four global replacements in sequence. *)
Definition re_django_named : regex :=
  seq [lit "(?P<"; Grp 1 (plus (none_of [">"%char])); chr ">";
       plus (none_of [")"%char]); chr ")"].
Definition re_django_digits : regex := seq [chr Js.backslash; chr "d"; chr "+"].
Definition re_django_anchor : regex := alts [chr "^"; chr "$"].
Definition re_slashes : regex := plus (chr "/").

Definition normalizeDjangoPath (path : string) : string :=
  replace_all re_slashes (fun _ => "/")
    (replace_all re_django_anchor (fun _ => "")
       (replace_all re_django_digits (fun _ => "{id}")
          (replace_all re_django_named braced path))).

(** The four patterns of [extractPythonEndpoints], in source order. *)
Definition re_py_flask : regex :=
  seq [lit "@app.route"; Star ws; chr "("; Star ws; quoted 1;
       opt (seq [chr ","; Star ws; lit "methods"; Star ws; chr "="; Star ws;
                 chr "["; Grp 2 (plus (none_of ["]"%char])); chr "]"]);
       chr ")"].

Definition re_py_django : regex :=
  seq [alts [lit "path"; lit "url"; lit "re_path"]; Star ws; chr "("; Star ws;
       opt (chr "r"); quoted 1].

Definition re_py_fastapi : regex :=
  seq [chr "@"; opt (ilit "app."); Grp 1 (alts (map ilit http_verbs));
       Star ws; chr "("; Star ws; quoted 2].

Definition re_py_drf : regex :=
  seq [lit "class"; plus ws;
       Grp 1 (alts [seq [plus word; lit "ViewSet"]; seq [plus word; lit "View"]]);
       Star ws; chr "("; Star (none_of [")"%char]); chr ")"; chr ":"].

(** [/ViewSet|View/i], replaced once. *)
Definition re_view_suffix : regex := alts [ilit "ViewSet"; ilit "View"].

Definition is_quote_or_space (c : ascii) : bool :=
  Ascii.eqb c "'" || Ascii.eqb c Js.dquote || Js.is_space c.

(** The Django REST Framework branch: six CRUD endpoints per class match. *)
Definition drfEndpoints (viewName : string) : list EndpointInfo.t :=
  let basePath :=
    "/" +:+ Js.toLowerCase (replace_first re_view_suffix (fun _ => "") viewName) +:+ "/" in
  let crudEndpoints :=
    [("GET", basePath, "List");
     ("POST", basePath, "Create");
     ("GET", basePath +:+ "{id}/", "Retrieve");
     ("PUT", basePath +:+ "{id}/", "Update");
     ("PATCH", basePath +:+ "{id}/", "Partial Update");
     ("DELETE", basePath +:+ "{id}/", "Delete")] in
  map (fun '(method, path, description) =>
         mkEndpoint path method ("DRF " +:+ viewName +:+ " - " +:+ description))
      crudEndpoints.

Definition extractPythonEndpoints (content filename : string)
  : list EndpointInfo.t :=
  let flask m :=
    let path := default "" (group 1 m) in
    let methods :=
      match group 2 m with
      | Some methodsStr =>
          if Js.truthy methodsStr
          then Js.split "," (Js.remove_chars is_quote_or_space methodsStr)
          else ["GET"]
      | None => ["GET"]
      end in
    map (fun method =>
           mkEndpoint path (Js.toUpperCase (Js.trim method))
             ("Flask endpoint from " +:+ filename)) methods in
  let django m :=
    let path := normalizeDjangoPath (default "" (group 1 m)) in
    [mkEndpoint path "GET" ("Django endpoint from " +:+ filename)] in
  let fastapi m :=
    let method := Js.toUpperCase (default "" (group 1 m)) in
    let path := default "" (group 2 m) in
    [mkEndpoint path method ("FastAPI endpoint from " +:+ filename)] in
  let drf m := drfEndpoints (default "" (group 1 m)) in
  flat_map flask (exec_all re_py_flask content) ++
  flat_map django (exec_all re_py_django content) ++
  flat_map fastapi (exec_all re_py_fastapi content) ++
  flat_map drf (exec_all re_py_drf content).

(** Go, PHP and Ruby: one pattern each, all under the [gi] flags, the
    method being read off the matched text. *)
Definition re_go : regex :=
  seq [alts [ilit "router"; ilit "r"; ilit "e"]; chr ".";
       alts (map ilit http_methods); Star ws; chr "("; Star ws; quoted 1].

Definition re_php : regex :=
  seq [ilit "Route::"; alts (map ilit http_verbs); Star ws; chr "("; Star ws;
       quoted 1].

Definition re_ruby : regex :=
  seq [alts (map ilit http_verbs); plus ws; quoted 1].

Definition extractByMatchedText (r : regex) (label content filename : string)
  : list EndpointInfo.t :=
  map (fun m =>
         let method := extractMethodFromMatch (text m) in
         mkEndpoint (default "" (group 1 m))
           (if Js.truthy method then method else "GET")
           (label +:+ " endpoint from " +:+ filename))
      (exec_all r content).

Definition extractGoEndpoints : string -> string -> list EndpointInfo.t :=
  extractByMatchedText re_go "Go".
Definition extractPHPEndpoints : string -> string -> list EndpointInfo.t :=
  extractByMatchedText re_php "PHP".
Definition extractRubyEndpoints : string -> string -> list EndpointInfo.t :=
  extractByMatchedText re_ruby "Rails".

(** Java: one pattern over the Spring mapping annotations; the method
    is looked up from the annotation text by [extractMethodFromAnnotation],
    whose [mapping] entries are tried in order. *)
Definition annotationMapping : list (string * string) :=
  [("GetMapping", "GET"); ("PostMapping", "POST"); ("PutMapping", "PUT");
   ("PatchMapping", "PATCH"); ("DeleteMapping", "DELETE")].

Definition extractMethodFromAnnotation (annotation : string) : string :=
  default "GET"
    (snd <$> List.find (fun entry => Js.includes (fst entry) annotation)
                       annotationMapping).

Definition re_java : regex :=
  seq [chr "@";
       alts (map lit ["RequestMapping"; "GetMapping"; "PostMapping";
                      "PutMapping"; "PatchMapping"; "DeleteMapping"]);
       Star ws; chr "("; Star ws;
       opt (seq [lit "value"; Star ws; chr "="; Star ws]); quoted 1].

Definition extractJavaEndpoints (content filename : string)
  : list EndpointInfo.t :=
  map (fun m =>
         let method := extractMethodFromAnnotation (text m) in
         mkEndpoint (default "" (group 1 m))
           (if Js.truthy method then method else "GET")
           ("Spring Boot endpoint from " +:+ filename))
      (exec_all re_java content).

(** C#: controller actions (a Route attribute followed, before any
    opening brace, by an Http attribute) and minimal API calls. *)
Definition csVerbs : list string := ["Get"; "Post"; "Put"; "Patch"; "Delete"].

Definition dquoted (n : nat) : regex :=
  seq [chr Js.dquote; Grp n (plus (none_of [Js.dquote])); chr Js.dquote].

Definition re_cs_controller : regex :=
  seq [lit "[Route("; dquoted 1; lit ")]"; Star (none_of ["{"%char]);
       lit "[Http"; Grp 2 (alts (map lit csVerbs));
       opt (seq [chr "("; dquoted 3; chr ")"]); chr "]"].

Definition re_cs_minimal : regex :=
  seq [ilit "app."; Grp 1 (alts (map ilit csVerbs)); chr "("; dquoted 2].

Definition extractCSharpEndpoints (content filename : string)
  : list EndpointInfo.t :=
  let controller m :=
    let basePath := default "" (group 1 m) in
    let method := Js.toUpperCase (default "" (group 2 m)) in
    let actionPath := default "" (group 3 m) in
    let fullPath := basePath +:+ actionPath in
    EndpointInfo.Build
      (if Js.startsWith "/" fullPath then fullPath else "/" +:+ fullPath)
      method (Some ("ASP.NET Core endpoint from " +:+ filename))
      (Some (extractParametersFromPath fullPath)) in
  let minimal m :=
    mkEndpoint (default "" (group 2 m)) (Js.toUpperCase (default "" (group 1 m)))
      ("Minimal API endpoint from " +:+ filename) in
  map controller (exec_all re_cs_controller content) ++
  map minimal (exec_all re_cs_minimal content).

(** Rust: Rocket route attributes, and Actix method guards, which are all
    given the path /api and no parameter. *)
Definition rustVerbs : list string := ["get"; "post"; "put"; "patch"; "delete"].

Definition re_rocket : regex :=
  seq [lit "#["; Grp 1 (alts (map ilit rustVerbs)); chr "("; dquoted 2; lit ")]"].

Definition re_actix : regex :=
  seq [ilit "web::"; Grp 1 (alts (map ilit rustVerbs)); lit "()"].

Definition extractRustEndpoints (content filename : string)
  : list EndpointInfo.t :=
  let rocket m :=
    mkEndpoint (default "" (group 2 m)) (Js.toUpperCase (default "" (group 1 m)))
      ("Rocket endpoint from " +:+ filename) in
  let actix m :=
    EndpointInfo.Build "/api" (Js.toUpperCase (default "" (group 1 m)))
      (Some ("Actix Web endpoint from " +:+ filename)) (Some []) in
  map rocket (exec_all re_rocket content) ++
  map actix (exec_all re_actix content).

End RESTAnalyzer.

(** ** NodeJSAnalyzer *)

Module NodeJSAnalyzer.
Import Regex.

Definition verb : regex := alts (map lit http_verbs).

(** [expressPatterns], [fastifyPatterns] and [koaPatterns], concatenated
    as in [allPatterns]. *)
Definition re_express_call : regex :=
  seq [alts [lit "app"; lit "router"]; chr "."; Grp 1 verb; Star ws; chr "(";
       Star ws; quoted 2].
Definition re_express_route : regex :=
  seq [lit ".route"; Star ws; chr "("; Star ws; quoted 1; Star ws; chr ")"].
Definition re_fastify_call : regex :=
  seq [lit "fastify."; Grp 1 verb; Star ws; chr "("; Star ws; quoted 2].
Definition re_fastify_url : regex :=
  seq [lit "url"; Star ws; chr ":"; Star ws; quoted 1].
Definition re_koa_call : regex :=
  seq [lit "router."; Grp 1 verb; Star ws; chr "("; Star ws; quoted 2].

Definition allPatterns : list regex :=
  [re_express_call; re_express_route; re_fastify_call; re_fastify_url; re_koa_call].

Definition is_ident_start (c : ascii) : bool :=
  Js.is_lower c || Js.is_upper c || Ascii.eqb c "_" || Ascii.eqb c "$".
Definition is_ident_char (c : ascii) : bool :=
  is_ident_start c || Js.is_digit c.
(** An identifier: a letter, underscore or dollar sign, then any number of
    letters, digits, underscores and dollar signs. *)
Definition ident : regex := seq [Chr is_ident_start; Star (Chr is_ident_char)].

(** A colon followed by an identifier, which is captured. *)
Definition re_colon_param : regex := seq [chr ":"; Grp 1 ident].

(** The two [queryPatterns] as the source writes them: each doubled
    backslash of the literal asks for a backslash character, and the dot
    after it for any character but a line terminator. *)
Definition re_req_query : regex :=
  seq [lit "req"; chr Js.backslash; dot; lit "query"; chr Js.backslash; dot;
       Grp 1 ident].
Definition re_query : regex :=
  seq [lit "query"; chr Js.backslash; dot; Grp 1 ident].

Definition queryPatterns : list regex := [re_req_query; re_query].

Definition normalizePath (path : string) : string :=
  replace_all re_colon_param RESTAnalyzer.braced path.

(** The push guarded by [parameters.find(p => p.name === match[1])]. *)
Definition pushQuery (parameters : list Param.t) (m : rmatch_result)
  : list Param.t :=
  let k := default "" (group 1 m) in
  if existsb (fun p => String.eqb (Param.name p) k) parameters then parameters
  else parameters ++ [Param.Build k "string" false None (Some InQuery)].

Definition extractParameters (path content : string) (position : nat)
  : list Param.t :=
  let pathParams :=
    map (fun m =>
           Param.Build (Js.substring 1 (String.length (text m)) (text m))
             "string" true None (Some InPath))
        (exec_all re_colon_param path) in
  let contextStart := Nat.max 0 (position - 500) in
  let contextEnd := Nat.min (String.length content) (position + 500) in
  let context := Js.substring contextStart contextEnd content in
  fold_left (fun parameters pattern =>
               fold_left pushQuery (exec_all pattern context) parameters)
            queryPatterns pathParams.

Definition parseEndpointsFromFile (content filename : string)
  : list EndpointInfo.t :=
  flat_map (fun pattern =>
    flat_map (fun m =>
      let g1 := default "" (group 1 m) in
      let g2 := default "" (group 2 m) in
      let method := if Js.truthy g1 then g1 else "get" in
      let path := if Js.truthy g2 then g2 else g1 in
      if Js.array_includes (Js.toLowerCase method) http_verbs
      then [EndpointInfo.Build (normalizePath path) (Js.toUpperCase method)
              (Some ("Endpoint from " +:+ filename))
              (Some (extractParameters path content (index m)))]
      else [])
      (exec_all pattern content))
    allPatterns.

(** [extractEndpoints]: the route files and then the application files,
    as the two calls of [glob] enumerate them, each with its content. *)
Definition extractEndpoints (routeFiles appFiles : list (string * string))
  : list EndpointInfo.t :=
  let allFiles := routeFiles ++ appFiles in
  deduplicateEndpoints
    (flat_map (fun f => parseEndpointsFromFile (snd f) (fst f)) allFiles).

End NodeJSAnalyzer.

(** ** TemplateManager: the identifier helpers registered with Handlebars *)

Module TemplateManager.

Definition is_brace_or_colon := RESTAnalyzer.is_brace_or_colon.

Definition nonEmpty (part : string) : bool := negb (String.eqb part "").

Definition safeFileName (method path : string) : string :=
  if negb (Js.truthy method) || negb (Js.truthy path) then "unknownTool"
  else
    let pathParts :=
      List.filter (fun part => Js.truthy part && nonEmpty (Js.trim part))
        (Js.split "/" path) in
    let cleanParts :=
      List.filter nonEmpty
        (map (fun part =>
                let cleanPart := Js.trim (Js.remove_chars is_brace_or_colon part) in
                if negb (Js.truthy cleanPart) then "" else Js.capitalize cleanPart)
             pathParts) in
    let methodPart := Js.toLowerCase method in
    methodPart +:+ Js.join "" cleanParts.

Definition toolName (method path : string) : string :=
  let pathParts :=
    List.filter (fun part => Js.truthy part && nonEmpty part) (Js.split "/" path) in
  let cleanParts :=
    map (fun part => Js.toLowerCase (Js.remove_chars is_brace_or_colon part))
        pathParts in
  Js.toLowerCase method +:+ "_" +:+ Js.join "_" cleanParts.

Definition methodName (method path : string) : string :=
  let pathParts :=
    List.filter (fun part => Js.truthy part && nonEmpty part) (Js.split "/" path) in
  let cleanParts :=
    map (fun part => Js.capitalize (Js.remove_chars is_brace_or_colon part))
        pathParts in
  "handle" +:+ Js.capitalize method +:+ Js.join "" cleanParts.


Definition escapeChar (c : ascii) : string :=
  if Ascii.eqb c "&" then "&amp;"
  else if Ascii.eqb c "<" then "&lt;"
  else if Ascii.eqb c ">" then "&gt;"
  else if Ascii.eqb c Js.dquote then "&quot;"
  else if Ascii.eqb c "'" then "&#x27;"
  else if Ascii.eqb c "`" then "&#x60;"
  else if Ascii.eqb c "=" then "&#x3D;"
  else String c "".

Fixpoint escapeExpression (s : string) : string :=
  match s with
  | EmptyString => EmptyString
  | String c s' => escapeChar c +:+ escapeExpression s'
  end.

(** The names under which [getBuiltinTemplate] has a template. *)
Definition builtinTemplates : list string :=
  ["server.ts"; "package.json"; "tsconfig.json"; "tool.ts"; "tools-index.ts";
   "test-setup.ts"; "tool-test.ts"; "docs.md"; "README.md"].

(** The [kebabCase] helper: every capital letter becomes a hyphen and
    its lowercase form. *)
Fixpoint kebabCase (str : string) : string :=
  match str with
  | EmptyString => EmptyString
  | String c str' =>
      if Js.is_upper c then String "-" (String (Js.lower_char c) (kebabCase str'))
      else String c (kebabCase str')
  end.

End TemplateManager.

(** ** MCPGenerator *)

Module MCPGenerator.

(** The object handed to a compiled template. *)
Record TemplateData : Type := Data {
  config : option MCPConfig.t;
  projectInfo : option ProjectInfo.t;
  endpoints : option (list EndpointInfo.t);
  endpoint : option EndpointInfo.t
}.

(** File contents stay symbolic: a Handlebars template applied to its
    data, or a string built by the generator itself. *)
Inductive FileContent : Type :=
| Rendered (templateName : string) (data : TemplateData)
| Literal (s : string).

Inductive LogLine : Type :=
| Generating (name : string)
| DryRunMode
| WouldCreateDirectory (dirPath : string)
| WouldCreateFile (relativePath : string)
| Created (relativePath : string)
| GeneratedAt (outputPath : string)
| NextSteps
| Step (s : string).

(** What a run does to the outside world, in order. *)
Inductive Event : Type :=
| EnsureDir (dirPath : string)
| WriteFile (filePath : string) (content : FileContent)
| ConsoleLog (line : LogLine).

Record GenerationOptions : Type := Options {
  dryRun : bool;
  outputPath : string
}.

Definition generateToolName (e : EndpointInfo.t) : string :=
  let pathParts :=
    List.filter (fun part => Js.truthy part && TemplateManager.nonEmpty part)
      (Js.split "/" (EndpointInfo.path e)) in
  let cleanParts :=
    map (fun part =>
           Js.capitalize (Js.remove_chars TemplateManager.is_brace_or_colon part))
        pathParts in
  Js.toLowerCase (EndpointInfo.method e) +:+ Js.join "" cleanParts.

(** The source writes each line break of this file as a backslash
    followed by the letter n inside a quoted string. *)
Definition bn : string := String Js.backslash "n".

Definition generateEnvFile (pi : ProjectInfo.t) : string :=
  let content := "# Environment Configuration" +:+ bn +:+ bn in
  let content :=
    match ProjectInfo.baseUrl pi with
    | Some baseUrl =>
        if Js.truthy baseUrl then content +:+ "API_BASE_URL=" +:+ baseUrl +:+ bn
        else content
    | None => content
    end in
  content +:+ "API_KEY=your_api_key_here" +:+ bn +:+ "PORT=3000" +:+ bn
  +:+ "LOG_LEVEL=info" +:+ bn.

Section Pipeline.
(** Node's [path] module. *)
Variable path_join : list string -> string.
Variable path_relative : string -> string -> string.
Variable path_dirname : string -> string.
Variable path_resolve : string -> string.

(** [this.config] *)
Variable cfg : MCPConfig.t.

Definition writeFile (filePath : string) (content : FileContent)
           (options : GenerationOptions) : list Event :=
  if dryRun options then
    [ConsoleLog (WouldCreateFile (path_relative (outputPath options) filePath))]
  else
    [EnsureDir (path_dirname filePath);
     WriteFile filePath content;
     ConsoleLog (Created (path_relative (outputPath options) filePath))].

Definition createDirectoryStructure (options : GenerationOptions) : list Event :=
  let dirs :=
    ["src"; "src/tools"; "src/types"; "src/utils"; "dist"]
    ++ (if MCPConfig.includeTests cfg then ["tests"; "tests/tools"] else [])
    ++ (if MCPConfig.includeDocumentation cfg then ["docs"] else []) in
  map (fun dir =>
         let dirPath := path_join [outputPath options; dir] in
         if negb (dryRun options) then EnsureDir dirPath
         else ConsoleLog (WouldCreateDirectory dirPath))
      dirs.

Definition generateServerFiles (pi : ProjectInfo.t) (options : GenerationOptions)
  : list Event :=
  writeFile (path_join [outputPath options; "src"; "index.ts"])
    (Rendered "server.ts"
       (Data (Some cfg) (Some pi) (Some (ProjectInfo.endpoints pi)) None))
    options
  ++ writeFile (path_join [outputPath options; "package.json"])
       (Rendered "package.json" (Data (Some cfg) (Some pi) None None))
       options
  ++ match MCPConfig.outputFormat cfg with
     | typescript =>
         writeFile (path_join [outputPath options; "tsconfig.json"])
           (Rendered "tsconfig.json" (Data (Some cfg) None None None))
           options
     | javascript => []
     end.

(** [!this.config.excludeEndpoints?.includes(endpointKey)]: with no
    exclusion list the test is [!undefined], which keeps the endpoint. *)
Definition notExcluded (e : EndpointInfo.t) : bool :=
  match MCPConfig.excludeEndpoints cfg with
  | Some excluded => negb (Js.array_includes (endpointKey e) excluded)
  | None => true
  end.

Definition filteredEndpoints (pi : ProjectInfo.t) : list EndpointInfo.t :=
  List.filter notExcluded (ProjectInfo.endpoints pi).

Definition generateToolFiles (pi : ProjectInfo.t) (options : GenerationOptions)
  : list Event :=
  flat_map (fun e =>
              let toolName := generateToolName e in
              let toolFile := toolName +:+ ".ts" in
              writeFile (path_join [outputPath options; "src"; "tools"; toolFile])
                (Rendered "tool.ts" (Data (Some cfg) (Some pi) None (Some e)))
                options)
           (filteredEndpoints pi)
  ++ writeFile (path_join [outputPath options; "src"; "tools"; "index.ts"])
       (Rendered "tools-index.ts"
          (Data (Some cfg) None (Some (filteredEndpoints pi)) None))
       options.

Definition generateConfigFiles (pi : ProjectInfo.t) (options : GenerationOptions)
  : list Event :=
  writeFile (path_join [outputPath options; ".env.example"])
    (Literal (generateEnvFile pi)) options
  ++ writeFile (path_join [outputPath options; "README.md"])
       (Rendered "README.md"
          (Data (Some cfg) (Some pi) (Some (ProjectInfo.endpoints pi)) None))
       options.

Definition generateTestFiles (pi : ProjectInfo.t) (options : GenerationOptions)
  : list Event :=
  writeFile (path_join [outputPath options; "tests"; "setup.ts"])
    (Rendered "test-setup.ts" (Data (Some cfg) (Some pi) None None)) options
  ++ flat_map (fun e =>
                 let toolName := generateToolName e in
                 let testFile := toolName +:+ ".test.ts" in
                 writeFile
                   (path_join [outputPath options; "tests"; "tools"; testFile])
                   (Rendered "tool-test.ts" (Data (Some cfg) None None (Some e)))
                   options)
              (ProjectInfo.endpoints pi).

Definition generateDocumentation (pi : ProjectInfo.t) (options : GenerationOptions)
  : list Event :=
  writeFile (path_join [outputPath options; "docs"; "API.md"])
    (Rendered "docs.md"
       (Data (Some cfg) (Some pi) (Some (ProjectInfo.endpoints pi)) None))
    options.

Definition generate (pi : ProjectInfo.t) (outputPath_ : string) (dryRun_ : bool)
  : list Event :=
  let options := Options dryRun_ (path_resolve outputPath_) in
  [ConsoleLog (Generating (ProjectInfo.name pi))]
  ++ (if dryRun_ then [ConsoleLog DryRunMode] else [])
  ++ createDirectoryStructure options
  ++ generateServerFiles pi options
  ++ generateToolFiles pi options
  ++ generateConfigFiles pi options
  ++ (if MCPConfig.includeTests cfg then generateTestFiles pi options else [])
  ++ (if MCPConfig.includeDocumentation cfg
      then generateDocumentation pi options else [])
  ++ (if negb dryRun_ then
        [ConsoleLog (GeneratedAt outputPath_);
         ConsoleLog NextSteps;
         ConsoleLog (Step ("  1. cd " +:+ outputPath_));
         ConsoleLog (Step "  2. npm install");
         ConsoleLog (Step "  3. npm run build");
         ConsoleLog (Step "  4. npm start")]
      else []).
End Pipeline.

(** Reading a run: the files it wrote, the files a dry run announced,
    and everything that changes the file system. *)
Definition writtenPaths (evs : list Event) : list string :=
  flat_map (fun ev => match ev with WriteFile p _ => [p] | _ => [] end) evs.

Definition writtenFiles (evs : list Event) : list (string * FileContent) :=
  flat_map (fun ev => match ev with WriteFile p c => [(p, c)] | _ => [] end) evs.

Definition reportedPaths (evs : list Event) : list string :=
  flat_map (fun ev =>
              match ev with
              | ConsoleLog (WouldCreateFile p) => [p]
              | _ => []
              end) evs.

Definition createdPaths (evs : list Event) : list string :=
  flat_map (fun ev =>
              match ev with
              | ConsoleLog (Created p) => [p]
              | _ => []
              end) evs.

Definition isMutation (ev : Event) : bool :=
  match ev with
  | EnsureDir _ | WriteFile _ _ => true
  | ConsoleLog _ => false
  end.

Definition mutations (evs : list Event) : list Event := List.filter isMutation evs.

(** An endpoint appears in a file when the data its template was applied
    to holds that endpoint. *)
Definition mentions (e : EndpointInfo.t) (c : FileContent) : Prop :=
  match c with
  | Rendered _ d =>
      endpoint d = Some e \/ exists es, endpoints d = Some es /\ In e es
  | Literal _ => False
  end.

(** Replaying a run on a file system, whatever [fs-extra] does for
    [ensureDir] and [writeFile]; the console is not part of it. *)
Section FileSystem.
Variable FS : Type.
Variable fs_ensureDir : string -> FS -> FS.
Variable fs_writeFile : string -> FileContent -> FS -> FS.

Definition applyEvent (fs : FS) (ev : Event) : FS :=
  match ev with
  | EnsureDir p => fs_ensureDir p fs
  | WriteFile p c => fs_writeFile p c fs
  | ConsoleLog _ => fs
  end.

Definition replay (fs : FS) (evs : list Event) : FS :=
  fold_left applyEvent evs fs.
End FileSystem.

End MCPGenerator.

(** ** Paths, project trees and results *)

Module Path.

(** [path.join(dir, rel)] for a resolved directory and a relative file
    name that needs no normalisation. *)
Definition join (dir rel : string) : string := dir +:+ "/" +:+ rel.

(** A path without the slashes it ends in, which [path.basename] and
    [path.extname] skip before they look at the last component. *)
Fixpoint withoutTrailingSlashes (p : string) : string :=
  match p with
  | EmptyString => EmptyString
  | String c p' =>
      match withoutTrailingSlashes p' with
      | EmptyString => if Ascii.eqb c "/" then EmptyString else String c EmptyString
      | rest => String c rest
      end
  end.

Definition basename (p : string) : string :=
  List.last (Js.split "/" (withoutTrailingSlashes p)) "".

(** The part of [base] from its last dot on, if there is a dot. *)
Fixpoint fromLastDot (base : string) : option string :=
  match base with
  | EmptyString => None
  | String c base' =>
      match fromLastDot base' with
      | Some ext => Some ext
      | None => if Ascii.eqb c "." then Some base else None
      end
  end.

(** [path.extname]: the last component from its last dot on; empty when
    the component has no dot, or when its only dot is its first
    character, or when it is [..]. *)
Definition extname (p : string) : string :=
  match basename p with
  | EmptyString => ""
  | String c base' =>
      if String.eqb (String c base') ".." then ""
      else default "" (fromLastDot base')
  end.

(** The other functions of the module, for absolute paths and relative
    names that are already normalised: [path.join] of several segments,
    [path.relative], [path.dirname] and [path.resolve]. *)
Definition joinAll (parts : list string) : string := Js.join "/" parts.

Definition relative (from to : string) : string :=
  if Js.startsWith (from +:+ "/") to
  then String.substring (String.length from + 1)
         (String.length to - (String.length from + 1)) to
  else to.

Definition dirname (p : string) : string :=
  Js.join "/" (removelast (Js.split "/" p)).

Definition resolve (p : string) : string := p.

End Path.

Inductive result (A : Type) : Type :=
| Ok (a : A)
| Error (message : string).
Arguments Ok {A} a.
Arguments Error {A} message.

(** What a path names: a regular file with its content, or a directory. *)
Inductive Entry : Type :=
| File (content : string)
| Directory.

(** A project directory: what lies below it, as paths relative to the
    root, in the order in which [glob] walks the tree.  The directories
    that a listed path goes through exist with it and need not be
    listed. *)
Definition Listing : Type := list (string * Entry).

(** The file system as the analyzers see it: the listing of a directory,
    or nothing when the path does not exist. *)
Definition FileSystem : Type := string -> option Listing.

(** The rejection of [fs.readFile] on a directory. *)
Definition EISDIR : string := "EISDIR: illegal operation on a directory, read".

Module Glob.

Definition segments (rel : string) : list string := Js.split "/" rel.

(** The names on a path, from the root down. *)
Definition names (rel : string) : list string :=
  List.filter Js.truthy (segments rel).

(** The directories that a path, given by its names, goes through, the
    outermost first, below the directory [above]. *)
Fixpoint parents (above : list string) (path : list string) : list string :=
  match path with
  | [] => []
  | name :: below =>
      match below with
      | [] => []
      | _ :: _ =>
          Js.join "/" (above ++ [name]) :: parents (above ++ [name]) below
      end
  end.

(** Everything that exists below the root, as the walk meets it: every
    listed entry, after the directories it lies in. *)
Definition entries (listing : Listing) : list (string * Entry) :=
  flat_map (fun entry =>
              map (fun dir => (dir, Directory)) (parents [] (names (fst entry)))
              ++ [(Js.join "/" (names (fst entry)), snd entry)])
           listing.

(** [fs.stat]: what a relative path names, if anything. *)
Definition stat (listing : Listing) (rel : string) : option Entry :=
  snd <$> List.find (fun entry => String.eqb (fst entry) rel) (entries listing).

(** The paths of a walk, each one once. *)
Fixpoint distinct (seen : list string) (paths : list string) : list string :=
  match paths with
  | [] => []
  | p :: rest =>
      if Js.array_includes p seen then distinct seen rest
      else p :: distinct (p :: seen) rest
  end.

(** [glob] does not descend into, or match, names that start with a dot. *)
Definition visible (rel : string) : bool :=
  forallb (fun seg => negb (Js.startsWith "." seg)) (segments rel).

(** [ignore: ['node_modules/**']]: the directory and all below it. *)
Definition ignored (rel : string) : bool :=
  match segments rel with
  | dir :: _ => String.eqb dir "node_modules"
  | [] => false
  end.

Definition lastSegment (rel : string) : string := List.last (segments rel) "".

Definition endsWith (suffix s : string) : bool :=
  Js.startsWith (Js.rev_string suffix) (Js.rev_string s).

Definition hasExtension (exts : list string) (rel : string) : bool :=
  existsb (fun ext => endsWith ("." +:+ ext) (lastSegment rel)) exts.

(** [**/{swagger,openapi}.{json,yaml,yml}] *)
Definition openApiPattern (rel : string) : bool :=
  visible rel && negb (ignored rel) &&
  Js.array_includes (lastSegment rel)
    ["swagger.json"; "swagger.yaml"; "swagger.yml";
     "openapi.json"; "openapi.yaml"; "openapi.yml"].

(** [**/{api,routes,controllers}/**/*.{js,ts,py,java}] *)
Definition apiPattern (rel : string) : bool :=
  visible rel && negb (ignored rel) &&
  existsb (fun dir => Js.array_includes dir ["api"; "routes"; "controllers"])
          (removelast (segments rel)) &&
  hasExtension ["js"; "ts"; "py"; "java"] rel.

(** [**/*.{js,ts}] *)
Definition codePattern (rel : string) : bool :=
  visible rel && negb (ignored rel) && hasExtension ["js"; "ts"] rel.

(** [glob(pattern, { cwd, ignore })], without [nodir]: the matching
    paths, of files and of directories alike. *)
Definition glob (pattern : string -> bool) (listing : Listing) : list string :=
  distinct [] (List.filter pattern (map fst (entries listing))).

End Glob.

(** [fs.readFile(path.join(projectPath, rel), 'utf8')] *)
Definition readFile (listing : Listing) (projectPath rel : string)
  : result string :=
  match Glob.stat listing rel with
  | Some (File content) => Ok content
  | Some Directory => Error EISDIR
  | None =>
      Error ("ENOENT: no such file or directory, open '"
             +:+ Path.join projectPath rel +:+ "'")
  end.

(** [fs.pathExists(path.join(projectPath, rel))] *)
Definition pathExists (listing : Listing) (rel : string) : bool :=
  match Glob.stat listing rel with
  | Some _ => true
  | None => false
  end.

(** ** OpenAPIAnalyzer and ProjectAnalyzer *)

Module ProjectAnalyzer.

Section Analyzers.
(** Parsed JSON, [JSON.parse] (an error standing for the exception it
    throws), and the construction of the [ProjectInfo] from a parsed
    specification ([extractEndpointsFromSpec], [extractBaseUrl] and the
    reading of [spec.info]), which throws a [TypeError] on a [null]
    specification or path item. *)
Variable json : Type.
Variable JSON_parse : string -> result json.
Variable projectInfoOfSpec : string -> json -> result ProjectInfo.t.

(** [path.resolve], and the two analyzers of the other project types. *)
Variable path_resolve : string -> string.
Variable nodeAnalyze : Listing -> string -> result ProjectInfo.t.
Variable restAnalyze : Listing -> string -> result ProjectInfo.t.

(** [OpenAPIAnalyzer.parseOpenAPISpec]; [content] is the outcome of
    reading [filePath], which comes first. *)
Definition parseOpenAPISpec (content : result string) (filePath : string)
  : result json :=
  match content with
  | Error message => Error message
  | Ok content =>
      let ext := Js.toLowerCase (Path.extname filePath) in
      if String.eqb ext ".json" then JSON_parse content
      else if String.eqb ext ".yaml" || String.eqb ext ".yml" then
        Error "YAML parsing not implemented. Please convert to JSON format."
      else Error ("Unsupported file format: " +:+ ext)
  end.

(** [OpenAPIAnalyzer.analyze] *)
Definition openApiAnalyze (listing : Listing) (projectPath : string)
  : result ProjectInfo.t :=
  match Glob.glob Glob.openApiPattern listing with
  | [] => Error "No OpenAPI/Swagger files found"
  | specFile :: _ =>
      let specPath := Path.join projectPath specFile in
      match parseOpenAPISpec (readFile listing projectPath specFile) specPath with
      | Ok spec => projectInfoOfSpec projectPath spec
      | Error msg => Error msg
      end
  end.

Definition detectProjectType (listing : Listing) : string :=
  match Glob.glob Glob.openApiPattern listing with
  | _ :: _ => "openapi"
  | [] =>
      if pathExists listing "package.json"
      then "nodejs"
      else
        match Glob.glob Glob.apiPattern listing with
        | _ :: _ => "rest-api"
        | [] =>
            match Glob.glob Glob.codePattern listing with
            | _ :: _ => "nodejs"
            | [] => "rest-api"
            end
        end
  end.

Definition analyze (fs : FileSystem) (projectPath type : string)
  : result ProjectInfo.t :=
  let fullPath := path_resolve projectPath in
  match fs fullPath with
  | None => Error ("Project path does not exist: " +:+ fullPath)
  | Some listing =>
      let detectedType :=
        if String.eqb type "auto" then detectProjectType listing else type in
      if String.eqb detectedType "openapi" then openApiAnalyze listing fullPath
      else if String.eqb detectedType "nodejs" then nodeAnalyze listing fullPath
      else if String.eqb detectedType "rest-api" then restAnalyze listing fullPath
      else Error ("Unsupported project type: " +:+ detectedType)
  end.
End Analyzers.

End ProjectAnalyzer.

(** ** RESTAnalyzer: dispatch on the extension, and the scan *)

Module RESTScan.
Import RESTAnalyzer.

Definition extractEndpointsFromFile (content filename : string)
  : list EndpointInfo.t :=
  let ext := Path.extname filename in
  if Js.array_includes ext [".js"; ".ts"; ".jsx"; ".tsx"]
  then extractJavaScriptEndpoints content filename
  else if String.eqb ext ".py" then extractPythonEndpoints content filename
  else if Js.array_includes ext [".java"; ".kt"]
  then extractJavaEndpoints content filename
  else if String.eqb ext ".go" then extractGoEndpoints content filename
  else if String.eqb ext ".php" then extractPHPEndpoints content filename
  else if String.eqb ext ".rb" then extractRubyEndpoints content filename
  else if String.eqb ext ".cs" then extractCSharpEndpoints content filename
  else if String.eqb ext ".rs" then extractRustEndpoints content filename
  else [].

(** The candidates of a sequence of files, each with its content, and
    their aggregation. *)
Definition candidates (files : list (string * string)) : list EndpointInfo.t :=
  flat_map (fun f => extractEndpointsFromFile (snd f) (fst f)) files.

Definition scanFiles (files : list (string * string)) : list EndpointInfo.t :=
  deduplicateEndpoints (candidates files).

(** The glob patterns of [scanForEndpoints], in source order. *)
Definition patterns : list string :=
  ["**/{api,routes,controllers,handlers,endpoints}/**/*.{js,ts,jsx,tsx}";
   "**/*{api,route,controller,handler,endpoint,server}*.{js,ts,jsx,tsx}";
   "**/pages/api/**/*.{js,ts,jsx,tsx}";
   "**/src/pages/api/**/*.{js,ts,jsx,tsx}";
   "**/views.py"; "**/urls.py"; "**/urlpatterns.py";
   "**/*{view,api,endpoint,resource}*.py";
   "**/app.py"; "**/main.py";
   "**/*{Controller,Resource,Service,Handler}.{java,kt}";
   "**/controller/**/*.{java,kt}"; "**/resource/**/*.{java,kt}";
   "**/rest/**/*.{java,kt}";
   "**/{handler,controller,api,route}*.go"; "**/main.go";
   "**/{api,routes,controllers}/**/*.php"; "**/routes.php"; "**/web.php";
   "**/routes.rb"; "**/config/routes.rb"; "**/*_controller.rb";
   "**/*Controller.cs"; "**/Controllers/**/*.cs";
   "**/main.rs"; "**/lib.rs"; "**/routes.rs"].

(** The paths that the loops of [scanForEndpoints] visit: the matches of
    every pattern in turn, as [glob] (the library, a parameter)
    enumerates them in the project. *)
Definition visited (glob : string -> Listing -> list string) (listing : Listing)
  : list string :=
  flat_map (fun pattern => glob pattern listing) patterns.

(** The reading of the visited paths, in order; the first rejection of
    [fs.readFile] ends the scan. *)
Fixpoint readAll (listing : Listing) (projectPath : string) (files : list string)
  : result (list (string * string)) :=
  match files with
  | [] => Ok []
  | file :: rest =>
      match readFile listing projectPath file with
      | Error message => Error message
      | Ok content =>
          match readAll listing projectPath rest with
          | Error message => Error message
          | Ok others => Ok ((file, content) :: others)
          end
      end
  end.

(** The two loops of [scanForEndpoints] over the visited paths, and the
    aggregation that ends it. *)
Definition scanPaths (listing : Listing) (projectPath : string)
           (paths : list string) : result (list EndpointInfo.t) :=
  match readAll listing projectPath paths with
  | Ok files => Ok (scanFiles files)
  | Error message => Error message
  end.

(** [scanForEndpoints] *)
Definition scanForEndpoints
           (glob : string -> Listing -> list string)
           (listing : Listing) (projectPath : string)
  : result (list EndpointInfo.t) :=
  scanPaths listing projectPath (visited glob listing).

End RESTScan.

(** ** TemplateManager: the template cache *)

Module TemplateCache.

(** What indexing the template table gives: the text of one of its
    entries, or, the table being a plain object, a member inherited from
    [Object.prototype], kept as the text that string concatenation shows
    for it. *)
Inductive Value : Type :=
| Text (content : string)
| Inherited (shown : string).

Definition nativeFunction (name : string) : string :=
  "function " +:+ name +:+ "() { [native code] }".

Definition objectPrototype : list (string * string) :=
  [("constructor", nativeFunction "Object");
   ("__defineGetter__", nativeFunction "__defineGetter__");
   ("__defineSetter__", nativeFunction "__defineSetter__");
   ("hasOwnProperty", nativeFunction "hasOwnProperty");
   ("__lookupGetter__", nativeFunction "__lookupGetter__");
   ("__lookupSetter__", nativeFunction "__lookupSetter__");
   ("isPrototypeOf", nativeFunction "isPrototypeOf");
   ("propertyIsEnumerable", nativeFunction "propertyIsEnumerable");
   ("toString", nativeFunction "toString");
   ("valueOf", nativeFunction "valueOf");
   ("__proto__", "[object Object]");
   ("toLocaleString", nativeFunction "toLocaleString")].

(** The message with which [Handlebars.compile] refuses such a member. *)
Definition refusal (shown : string) : string :=
  "You must pass a string or Handlebars AST to Handlebars.compile. You passed "
  +:+ shown.

Definition inherited (name : string) : option string :=
  snd <$> List.find (fun member => String.eqb (fst member) name) objectPrototype.

Section Cache.
(** Compiled templates and [Handlebars.compile] on a text, which parses
    lazily and so returns for every text; the entries of the table of
    [getBuiltinTemplate]; the location of the override file of a
    template name. *)
Variable Template : Type.
Variable compile : string -> Template.
Variable builtin : string -> option string.
Variable templatePath : string -> string.

(** What the paths of the template directory name. *)
Definition Disk : Type := string -> option Entry.

(** [templates[templateName]] *)
Definition member (templateName : string) : option Value :=
  match builtin templateName with
  | Some content => Some (Text content)
  | None => Inherited <$> inherited templateName
  end.

Definition getBuiltinTemplate (templateName : string) : result Value :=
  match member templateName with
  | Some (Text content) =>
      if Js.truthy content then Ok (Text content)
      else Error ("Template not found: " +:+ templateName)
  | Some (Inherited shown) => Ok (Inherited shown)
  | None => Error ("Template not found: " +:+ templateName)
  end.

(** [Handlebars.compile(input)], which refuses what is neither a string
    nor a syntax tree. *)
Definition Handlebars_compile (input : Value) : result Template :=
  match input with
  | Text content => Ok (compile content)
  | Inherited shown => Error (refusal shown)
  end.

(** [getTemplate], returning its answer and the cache it leaves. *)
Definition getTemplate (disk : Disk) (templates : gmap string Template)
           (templateName : string)
  : result Template * gmap string Template :=
  match templates !! templateName with
  | Some template => (Ok template, templates)
  | None =>
      let loaded :=
        match disk (templatePath templateName) with
        | Some (File templateContent) => Ok (Text templateContent)
        | Some Directory => Error EISDIR
        | None => getBuiltinTemplate templateName
        end in
      match loaded with
      | Ok templateContent =>
          match Handlebars_compile templateContent with
          | Ok template => (Ok template, <[templateName := template]> templates)
          | Error message => (Error message, templates)
          end
      | Error message => (Error message, templates)
      end
  end.
End Cache.

End TemplateCache.

(** ** Vocabulary of the properties *)

Definition hasKey (k : string) (e : EndpointInfo.t) : bool :=
  String.eqb (endpointKey e) k.

(** Candidate [e] stands at position [i] of the scan, and no earlier
    candidate has its key. *)
Definition firstDiscovery (candidates : list EndpointInfo.t) (i : nat)
           (e : EndpointInfo.t) : Prop :=
  candidates !! i = Some e
  /\ forall j e', j < i -> candidates !! j = Some e' ->
                 endpointKey e' <> endpointKey e.

Definition methodAndPath (e : EndpointInfo.t) : string * string :=
  (EndpointInfo.method e, EndpointInfo.path e).

(** The words of the specification: the non-empty pieces of the path
    between slashes, and a piece without braces and colons. *)
Definition nonEmptySegments (path : string) : list string :=
  List.filter TemplateManager.nonEmpty (Js.split "/" path).

Definition stripped (segment : string) : string :=
  Js.remove_chars TemplateManager.is_brace_or_colon segment.

(** The segments of the path without braces and colons, each with its
    first letter capitalised and the others lowercased, run together. *)
Definition capitalizedStem (path : string) : string :=
  Js.join "" (map Js.capitalize (Js.split "/" (stripped path))).

(** [p] occurs in [s]. *)
Definition Substring (p s : string) : Prop :=
  exists before after, s = before +:+ p +:+ after.

(** [dry] is the dry-run counterpart of [real]: it changes nothing, writes
    nothing, and announces exactly the files that [real] writes, by their
    paths relative to [out], as [real] itself logs them once created. *)
Definition dryOf (path_relative : string -> string -> string) (out : string)
  (dry real : list MCPGenerator.Event) : Prop :=
  MCPGenerator.mutations dry = []
  /\ MCPGenerator.reportedPaths dry = map (path_relative out) (MCPGenerator.writtenPaths real)
  /\ MCPGenerator.createdPaths real = MCPGenerator.reportedPaths dry.

(** The text holds no backslash character. *)
Definition noBackslash (text : string) : Prop :=
  Forall (fun c => Ascii.eqb Js.backslash c = false) (Js.chars text).

Definition yamlError : string :=
  "YAML parsing not implemented. Please convert to JSON format.".

(** The path parameters that the nodejs analyzer reads off a path. *)
Definition pathParamsOf (path : string) : list Param.t :=
  map (fun m =>
         Param.Build
           (Js.substring 1 (String.length (Regex.text m)) (Regex.text m))
           "string" true None (Some InPath))
      (Regex.exec_all NodeJSAnalyzer.re_colon_param path).

(** An optional, string-typed query parameter without description. *)
Definition isQueryParam (p : Param.t) : Prop :=
  Param.in_ p = Some InQuery /\ Param.required p = false
  /\ Param.type p = "string" /\ Param.description p = None.

Definition names (ps : list Param.t) : list string := map Param.name ps.

(** The text holds no character of the class [p]. *)
Definition free (p : ascii -> bool) (text : string) : Prop :=
  Forall (fun c => p c = false) (Js.chars text).

(** The directories a dry run announces, and those a run creates. *)
Definition announcedDirs (evs : list MCPGenerator.Event) : list string :=
  flat_map (fun ev =>
              match ev with
              | MCPGenerator.ConsoleLog (MCPGenerator.WouldCreateDirectory d) => [d]
              | _ => []
              end) evs.

Definition ensuredDirs (evs : list MCPGenerator.Event) : list string :=
  flat_map (fun ev =>
              match ev with MCPGenerator.EnsureDir d => [d] | _ => [] end) evs.

(** The directory skeleton of [createDirectoryStructure]. *)
Definition skeleton (cfg : MCPConfig.t) : list string :=
  ["src"; "src/tools"; "src/types"; "src/utils"; "dist"]
  ++ (if MCPConfig.includeTests cfg then ["tests"; "tests/tools"] else [])
  ++ (if MCPConfig.includeDocumentation cfg then ["docs"] else []).

(** The files of a generated server, in the order of generation, each
    with its content: entry point, manifest and compiler configuration;
    one tool file per endpoint that is not excluded, and the tools index;
    environment example and README; then, when enabled, the test setup
    with one test per endpoint, and the API document. *)
Definition layout (path_join : list string -> string) (cfg : MCPConfig.t)
           (pi : ProjectInfo.t) (out : string)
  : list (string * MCPGenerator.FileContent) :=
  let all := ProjectInfo.endpoints pi in
  let kept := MCPGenerator.filteredEndpoints cfg pi in
  [(path_join [out; "src"; "index.ts"],
    MCPGenerator.Rendered "server.ts"
      (MCPGenerator.Data (Some cfg) (Some pi) (Some all) None));
   (path_join [out; "package.json"],
    MCPGenerator.Rendered "package.json"
      (MCPGenerator.Data (Some cfg) (Some pi) None None))]
  ++ match MCPConfig.outputFormat cfg with
     | typescript =>
         [(path_join [out; "tsconfig.json"],
           MCPGenerator.Rendered "tsconfig.json"
             (MCPGenerator.Data (Some cfg) None None None))]
     | javascript => []
     end
  ++ map (fun e =>
            (path_join [out; "src"; "tools";
                        MCPGenerator.generateToolName e +:+ ".ts"],
             MCPGenerator.Rendered "tool.ts"
               (MCPGenerator.Data (Some cfg) (Some pi) None (Some e))))
         kept
  ++ [(path_join [out; "src"; "tools"; "index.ts"],
       MCPGenerator.Rendered "tools-index.ts"
         (MCPGenerator.Data (Some cfg) None (Some kept) None));
      (path_join [out; ".env.example"],
       MCPGenerator.Literal (MCPGenerator.generateEnvFile pi));
      (path_join [out; "README.md"],
       MCPGenerator.Rendered "README.md"
         (MCPGenerator.Data (Some cfg) (Some pi) (Some all) None))]
  ++ (if MCPConfig.includeTests cfg then
        (path_join [out; "tests"; "setup.ts"],
         MCPGenerator.Rendered "test-setup.ts"
           (MCPGenerator.Data (Some cfg) (Some pi) None None))
        :: map (fun e =>
                  (path_join [out; "tests"; "tools";
                              MCPGenerator.generateToolName e +:+ ".test.ts"],
                   MCPGenerator.Rendered "tool-test.ts"
                     (MCPGenerator.Data (Some cfg) None None (Some e))))
               all
      else [])
  ++ (if MCPConfig.includeDocumentation cfg then
        [(path_join [out; "docs"; "API.md"],
          MCPGenerator.Rendered "docs.md"
            (MCPGenerator.Data (Some cfg) (Some pi) (Some all) None))]
      else []).

(** What a real run does for one file, and what a dry run says of it. *)
Definition writes (path_relative : string -> string -> string)
           (path_dirname : string -> string) (out : string)
           (file : string * MCPGenerator.FileContent) : list MCPGenerator.Event :=
  [MCPGenerator.EnsureDir (path_dirname (fst file));
   MCPGenerator.WriteFile (fst file) (snd file);
   MCPGenerator.ConsoleLog (MCPGenerator.Created (path_relative out (fst file)))].

Definition announces (path_relative : string -> string -> string) (out : string)
           (file : string * MCPGenerator.FileContent) : MCPGenerator.Event :=
  MCPGenerator.ConsoleLog (MCPGenerator.WouldCreateFile (path_relative out (fst file))).

(** The template a content is rendered from, if any. *)
Definition templateOf (c : MCPGenerator.FileContent) : option string :=
  match c with
  | MCPGenerator.Rendered name _ => Some name
  | MCPGenerator.Literal _ => None
  end.

(** The extensions that [extractEndpointsFromFile] dispatches on. *)
Definition knownExtensions : list string :=
  [".js"; ".ts"; ".jsx"; ".tsx"; ".py"; ".java"; ".kt"; ".go"; ".php";
   ".rb"; ".cs"; ".rs"].

(** ** Sample projects and source files *)

(** An endpoint found a second time, in another file. *)
Definition usersAgain : EndpointInfo.t :=
  EndpointInfo.Build "/users" "GET" (Some "Endpoint from app.js") (Some []).

(** A template table with one entry, and templates compiled to their
    own text. *)
Definition oneTemplate (name : string) : option string :=
  if String.eqb name "tool.ts" then Some "// Tool" else None.

Definition noTemplate (name : string) : option string := None.

Definition overridesAt (name : string) : string := "templates/" +:+ name +:+ ".hbs".

Definition emptyDisk : TemplateCache.Disk := fun _ => None.

Definition oneOverride : TemplateCache.Disk :=
  fun path =>
    if String.eqb path "templates/tool.ts.hbs" then Some (File "// Mine") else None.

Definition emptyFileSystem : FileSystem := fun _ => None.


Definition nl : string := String Js.newline "".

Definition pathParam (name : string) (description : option string) : Param.t :=
  Param.Build name "string" true description (Some InPath).

Definition queryParam (name : string) : Param.t :=
  Param.Build name "string" false None (Some InQuery).

(** A Django REST Framework view module. *)
Definition orderViews : string :=
  "from rest_framework import viewsets" +:+ nl +:+
  nl +:+
  "class OrderViewSet(viewsets.ModelViewSet):" +:+ nl +:+
  "    queryset = Order.objects.all()" +:+ nl +:+
  "    serializer_class = OrderSerializer" +:+ nl.

(** A Next.js dynamic API route that answers GET and PUT. *)
Definition orderRoute : string :=
  "// Next.js dynamic API route" +:+ nl +:+
  "export default function handler(req, res) {" +:+ nl +:+
  "  const { id } = req.query;" +:+ nl +:+
  "  if (req.method === 'GET') {" +:+ nl +:+
  "    return res.status(200).json({ order: { id } });" +:+ nl +:+
  "  }" +:+ nl +:+
  "  if (req.method === 'PUT') {" +:+ nl +:+
  "    return res.status(200).json({ updated: id });" +:+ nl +:+
  "  }" +:+ nl +:+
  "  res.status(405).end();" +:+ nl +:+
  "}" +:+ nl.

(** An Express handler that reads two keys of the query object. *)
Definition listUsers : string :=
  "app.get('/users', (req, res) => {" +:+ nl +:+
  "  const page = req.query.page;" +:+ nl +:+
  "  const limit = req.query.limit;" +:+ nl +:+
  "  res.json(users.slice(page * limit));" +:+ nl +:+
  "});" +:+ nl.

(** The text that the query patterns do match: a backslash before each
    dot. *)
Definition escapedQueryAccess : string :=
  "app.get('/users/:page', h) // req" +:+ String Js.backslash ".query"
  +:+ String Js.backslash ".page req" +:+ String Js.backslash ".query"
  +:+ String Js.backslash ".limit".

Definition usersEndpoint : EndpointInfo.t :=
  EndpointInfo.Build "/users" "GET" (Some "Endpoint from routes/users.js") (Some []).

Definition healthEndpoint : EndpointInfo.t :=
  EndpointInfo.Build "/health" "GET" (Some "Endpoint from routes/health.js") (Some []).

Definition shopProject : ProjectInfo.t :=
  ProjectInfo.Build "shop" NodeJs "/srv/shop" [usersEndpoint; healthEndpoint]
    None None None.

(** The default configuration of [ConfigManager], with one exclusion. *)
Definition shopConfig : MCPConfig.t :=
  MCPConfig.Build "agentify-mcp-server" "Auto-generated MCP server via Agentify"
    "1.0.0" typescript true true (Some ["GET:/health"]).

Definition shopRun : list MCPGenerator.Event :=
  MCPGenerator.generate Path.joinAll Path.relative Path.dirname Path.resolve
    shopConfig shopProject "/out" false.

(** An internal endpoint, and a configuration that tries to exclude it
    with a wildcard. *)
Definition internalJobs : EndpointInfo.t :=
  EndpointInfo.Build "/internal/jobs" "POST" (Some "Endpoint from jobs.js") (Some []).

Definition internalProject : ProjectInfo.t :=
  ProjectInfo.Build "shop" NodeJs "/srv/shop" [usersEndpoint; internalJobs]
    None None None.

Definition wildcardConfig : MCPConfig.t :=
  MCPConfig.Build "agentify-mcp-server" "Auto-generated MCP server via Agentify"
    "1.0.0" typescript true true (Some ["POST:/internal/*"]).

(** A project documented by one YAML specification. *)
Definition petstoreListing : Listing :=
  [("docs/openapi.yaml", File "openapi: 3.0.0");
   ("package.json", File "{}");
   ("src/app.js", File "app.get('/pets', list)")].

Definition petstore : FileSystem :=
  fun dir => if String.eqb dir "/srv/petstore" then Some petstoreListing else None.

(** A Node.js project that keeps its notes in a directory named like a
    specification. *)
Definition notesListing : Listing :=
  [("openapi.json/readme.txt", File "notes");
   ("package.json", File "{}")].

(** Two route files of an Express project. *)
Definition routesListing : Listing :=
  [("routes/api.js", File "app.get('/users', h)");
   ("routes/users.js", File "router.post('/users', h)")].

Definition noAnalysis (_ : Listing) (_ : string) : result ProjectInfo.t :=
  Error "not analysed".

Definition petstoreInfo (projectPath : string) (spec : string)
  : result ProjectInfo.t :=
  Ok (ProjectInfo.Build "petstore" OpenApi projectPath [] None None None).

(** * Properties *)

(** ** The matcher *)

Section MatcherProps.
Import Regex.
Context {A : Type}.
Implicit Types (r : regex) (s pre : list ascii) (cs : captures)
         (k : list ascii -> captures -> option A).

Lemma accepts_weaken (f g : ascii -> bool) pre :
  (forall c, f c = true -> g c = true) ->
  Forall (fun c => f c = true) pre -> Forall (fun c => g c = true) pre.
Proof. intros Hfg Hpre. eapply Forall_impl; [exact Hpre | exact Hfg]. Qed.

(** A successful match hands the continuation a suffix of its input, and
    the part it consumed is made of characters that the pattern accepts. *)
Lemma rmatch_consumes r : forall s cs k x,
  rmatch r s cs k = Some x ->
  exists pre s' cs',
    s = pre ++ s' /\ k s' cs' = Some x
    /\ Forall (fun c => accepts r c = true) pre.
Proof.
  induction r as [|p|r1 IH1 r2 IH2|r1 IH1 r2 IH2|r1 IH1|n r1 IH1|];
    intros s cs k x H; cbn [rmatch] in H.
  - exists [], s, cs. by repeat split.
  - destruct s as [|c s]; [done|]. destruct (p c) eqn:Hc; [|done].
    exists [c], s, cs. repeat split; [done|]. by constructor.
  - apply IH1 in H as (pre1 & s1 & cs1 & -> & H & F1).
    apply IH2 in H as (pre2 & s2 & cs2 & -> & H & F2).
    exists (pre1 ++ pre2), s2, cs2. split; [by rewrite app_assoc|].
    split; [done|]. apply Forall_app. split.
    + eapply accepts_weaken; [|exact F1]. cbn. intros c ->. done.
    + eapply accepts_weaken; [|exact F2]. cbn. intros c ->. apply orb_true_r.
  - destruct (rmatch r1 s cs k) as [y|] eqn:E.
    + injection H as ->. apply IH1 in E as (pre & s' & cs' & -> & E & F).
      exists pre, s', cs'. repeat split; [done|].
      eapply accepts_weaken; [|exact F]. cbn. intros c ->. done.
    + apply IH2 in H as (pre & s' & cs' & -> & H & F).
      exists pre, s', cs'. repeat split; [done|].
      eapply accepts_weaken; [|exact F]. cbn. intros c ->. apply orb_true_r.
  - revert H. generalize (S (List.length s)). intros fuel. revert s cs.
    induction fuel as [|fuel IHf]; intros s cs H; cbn [star_loop] in H.
    + exists [], s, cs. by repeat split.
    + destruct (rmatch r1 s cs _) as [y|] eqn:E.
      * injection H as ->. apply IH1 in E as (pre1 & s1 & cs1 & -> & E & F1).
        destruct (_ <? _); [|done].
        apply IHf in E as (pre2 & s2 & cs2 & -> & E & F2).
        exists (pre1 ++ pre2), s2, cs2. split; [by rewrite app_assoc|].
        split; [done|]. apply Forall_app. by split.
      * exists [], s, cs. by repeat split.
  - apply IH1 in H as (pre & s' & cs' & -> & H & F).
    exists pre, s', ((n, firstn (List.length (pre ++ s') - List.length s') (pre ++ s')) :: cs').
    by repeat split.
  - destruct s; [|done]. exists [], [], cs. by repeat split.
Qed.

(** The matcher calls its continuation on inputs no longer than its own,
    so two continuations that agree there give the same result. *)
Lemma rmatch_ext r : forall s cs k1 k2,
  (forall s' cs', List.length s' <= List.length s -> k1 s' cs' = k2 s' cs') ->
  rmatch r s cs k1 = rmatch r s cs k2.
Proof.
  induction r as [|p|r1 IH1 r2 IH2|r1 IH1 r2 IH2|r1 IH1|n r1 IH1|];
    intros s cs k1 k2 Hk; cbn [rmatch].
  - by apply Hk.
  - destruct s as [|c s]; [done|]. destruct (p c); [|done].
    apply Hk. cbn. lia.
  - apply IH1. intros s' cs' Hs'. apply IH2.
    intros s'' cs'' Hs''. apply Hk. lia.
  - by rewrite (IH1 s cs k1 k2), (IH2 s cs k1 k2).
  - generalize (S (List.length s)). intros fuel. revert s cs Hk.
    induction fuel as [|fuel IHf]; intros s cs Hk; cbn [star_loop].
    + by apply Hk.
    + rewrite (Hk s cs) by done.
      erewrite IH1; [reflexivity|].
      intros s' cs' Hs'. cbn beta.
      destruct (List.length s' <? List.length s) eqn:Hlt; [|done].
      apply IHf. intros s'' cs'' Hs''. apply Hk. lia.
  - apply IH1. intros s' cs' Hs'. by apply Hk.
  - destruct s; [|done]. by apply Hk.
Qed.

(** The fuel of a star is adequate: any amount above the length of the
    input gives the same result. *)
Lemma star_loop_fuel r k : forall fuel1 fuel2 s cs,
  List.length s < fuel1 -> List.length s < fuel2 ->
  star_loop (rmatch r) k fuel1 s cs = star_loop (rmatch r) k fuel2 s cs.
Proof.
  induction fuel1 as [|fuel1 IH]; intros fuel2 s cs H1 H2; [lia|].
  destruct fuel2 as [|fuel2]; [lia|]. cbn [star_loop].
  erewrite rmatch_ext; [reflexivity|].
  intros s' cs' Hs'. cbn beta.
  destruct (List.length s' <? List.length s) eqn:Hlt; [|done].
  apply Nat.ltb_lt in Hlt. apply IH; lia.
Qed.

Lemma In_all_ascii c : In c all_ascii.
Proof.
  unfold all_ascii. apply in_map_iff. exists (nat_of_ascii c).
  split; [apply ascii_nat_embedding|].
  apply in_seq. pose proof (nat_ascii_bounded c). lia.
Qed.

(** A match of a pattern that requires [p] contains a character that
    satisfies [p]. *)
Lemma requires_sound p r : forall s cs k x,
  requires p r = true ->
  rmatch r s cs k = Some x ->
  Exists (fun c => p c = true) s.
Proof.
  induction r as [|q|r1 IH1 r2 IH2|r1 IH1 r2 IH2|r1 IH1|n r1 IH1|];
    intros s cs k x Hreq H; cbn [requires] in Hreq; try done;
    cbn [rmatch] in H.
  - destruct s as [|c s]; [done|]. destruct (q c) eqn:Hc; [|done].
    apply Exists_cons_hd.
    rewrite forallb_forall in Hreq. specialize (Hreq c (In_all_ascii c)).
    by rewrite Hc in Hreq.
  - apply orb_true_iff in Hreq as [Hreq | Hreq].
    + by eapply IH1.
    + apply rmatch_consumes in H as (pre & s' & cs' & -> & H & _).
      apply Exists_app. right. by eapply IH2.
  - apply andb_true_iff in Hreq as [Hreq1 Hreq2].
    destruct (rmatch r1 s cs k) as [y|] eqn:E.
    + by eapply IH1.
    + by eapply IH2.
  - by eapply IH1.
Qed.
End MatcherProps.

Section SearchProps.
Import Regex.
Implicit Types (r : regex) (s pre : list ascii).

Lemma match_here_text r s i m :
  match_here r s i = Some m ->
  index m = i /\ s = Js.chars (text m) ++ rest m
  /\ Forall (fun c => accepts r c = true) (Js.chars (text m)).
Proof.
  unfold match_here. intros H.
  apply rmatch_consumes in H as (pre & s' & cs' & -> & H & F).
  injection H as <-. cbn [index text rest].
  rewrite length_app, Nat.add_sub, take_app_length.
  unfold Js.chars, Js.str. rewrite list_ascii_of_string_of_list_ascii.
  by repeat split.
Qed.

Lemma search_text r s i m :
  search r s i = Some m ->
  Forall (fun c => accepts r c = true) (Js.chars (text m))
  /\ exists skipped, s = skipped ++ Js.chars (text m) ++ rest m.
Proof.
  revert i; induction s as [|c s IH]; intros i; cbn [search].
  - destruct (match_here r [] i) as [m'|] eqn:E; [|done].
    intros [= ->]. apply match_here_text in E as (_ & Hs & F).
    split; [done|]. by exists [].
  - destruct (match_here r (c :: s) i) as [m'|] eqn:E.
    + intros [= ->]. apply match_here_text in E as (_ & Hs & F).
      split; [done|]. by exists [].
    + intros H. apply IH in H as (F & skipped & ->).
      split; [done|]. by exists (c :: skipped).
Qed.

(** The fuel of the [exec] loop is adequate as well. *)
Lemma exec_loop_fuel r : forall fuel1 fuel2 s i,
  List.length s < fuel1 -> List.length s < fuel2 ->
  exec_loop fuel1 r s i = exec_loop fuel2 r s i.
Proof.
  induction fuel1 as [|fuel1 IH]; intros fuel2 s i H1 H2; [lia|].
  destruct fuel2 as [|fuel2]; [lia|]. cbn [exec_loop].
  destruct (search r s i) as [m|] eqn:E; [|done].
  apply search_text in E as (_ & skipped & Hs).
  apply (f_equal (@List.length ascii)) in Hs. rewrite !length_app in Hs.
  destruct (text m) as [|c t] eqn:Et; destruct (rest m) as [|d s'] eqn:Er;
    cbn in Hs; try done; f_equal; apply IH; cbn; lia.
Qed.

(** Every text found by the [exec] loop is made of accepted characters. *)
Lemma exec_loop_texts r fuel : forall s i,
  Forall (fun m => Forall (fun c => accepts r c = true) (Js.chars (text m)))
         (exec_loop fuel r s i).
Proof.
  set (P := fun m => Forall (fun c => accepts r c = true) (Js.chars (text m))).
  induction fuel as [|fuel IH]; intros s i; cbn [exec_loop]; [constructor|].
  destruct (search r s i) as [m|] eqn:E; [|constructor].
  assert (Hm : P m) by (by apply search_text in E as [F _]).
  clear E. destruct (text m); destruct (rest m);
    repeat first [exact Hm | apply IH | constructor].
Qed.

(** A pattern that requires [p] finds nothing in a text without [p]. *)
Lemma search_requires p r s i :
  requires p r = true ->
  Forall (fun c => p c = false) s ->
  search r s i = None.
Proof.
  intros Hreq. revert i; induction s as [|c s IH]; intros i Hs; cbn [search].
  - destruct (match_here r [] i) as [m|] eqn:E; [|done].
    unfold match_here in E. eapply requires_sound in E; [|exact Hreq].
    by apply Exists_nil in E.
  - destruct (match_here r (c :: s) i) as [m|] eqn:E.
    + unfold match_here in E. eapply requires_sound in E; [|exact Hreq].
      apply Exists_exists in E as (d & Hd & Hp).
      rewrite Forall_forall in Hs. specialize (Hs d Hd). congruence.
    + apply IH. by inversion Hs.
Qed.

Lemma exec_all_requires p r text_ :
  requires p r = true ->
  Forall (fun c => p c = false) (Js.chars text_) ->
  exec_all r text_ = [].
Proof.
  intros Hreq Hs. unfold exec_all. cbn [exec_loop].
  by rewrite (search_requires p).
Qed.

Lemma exec_first_requires p r text_ :
  requires p r = true ->
  Forall (fun c => p c = false) (Js.chars text_) ->
  exec_first r text_ = None.
Proof. intros Hreq Hs. unfold exec_first. by apply (search_requires p). Qed.
End SearchProps.

(** ** Deduplication *)

Section Dedup.
Implicit Types (seen : gset string) (l : list EndpointInfo.t).

Lemma dedup_from_fresh seen l e :
  In e (dedup_from seen l) -> endpointKey e ∉ seen.
Proof.
  revert seen; induction l as [|a l IH]; intros seen; simpl; [tauto|].
  case_decide as Hin.
  - apply IH.
  - intros [<- | He]; [assumption|].
    apply IH in He. set_solver.
Qed.

Lemma dedup_from_NoDup seen l :
  List.NoDup (map endpointKey (dedup_from seen l)).
Proof.
  revert seen; induction l as [|a l IH]; intros seen; simpl.
  - constructor.
  - case_decide as Hin; [apply IH|].
    simpl; constructor; [|apply IH].
    intros Hdup. apply in_map_iff in Hdup as (e & Hk & He).
    apply dedup_from_fresh in He. rewrite Hk in He. set_solver.
Qed.

Lemma dedup_from_sublist seen l : sublist (dedup_from seen l) l.
Proof.
  revert seen; induction l as [|a l IH]; intros seen; simpl.
  - constructor.
  - case_decide.
    + apply sublist_cons, IH.
    + apply sublist_skip, IH.
Qed.

Lemma dedup_from_find seen l k :
  List.find (hasKey k) (dedup_from seen l) =
  if decide (k ∈ seen) then None else List.find (hasKey k) l.
Proof.
  revert seen; induction l as [|a l IH]; intros seen; simpl.
  - by destruct (decide (k ∈ seen)).
  - assert (Hk : hasKey k a = true <-> endpointKey a = k)
      by apply String.eqb_eq.
    destruct (decide (endpointKey a ∈ seen)) as [Hin | Hin]; simpl; rewrite IH.
    + destruct (decide (k ∈ seen)) as [|Hk']; [done|].
      destruct (hasKey k a); [|done].
      exfalso. apply Hk'. by rewrite <- (proj1 Hk eq_refl).
    + destruct (hasKey k a).
      * rewrite <- (proj1 Hk eq_refl). by destruct (decide (endpointKey a ∈ seen)).
      * assert (endpointKey a <> k) by (intros He; apply Hk in He; done).
        destruct (decide (k ∈ {[endpointKey a]} ∪ seen)) as [H1 | H1];
          destruct (decide (k ∈ seen)) as [H2 | H2];
          [done | exfalso | exfalso | done].
        -- apply elem_of_union in H1 as [H1 | H1]; [|done].
           apply elem_of_singleton in H1. congruence.
        -- apply H1, elem_of_union. by right.
Qed.

Lemma NoDup_map_inv {A B} (f : A -> B) (xs : list A) :
  List.NoDup (map f xs) -> List.NoDup xs.
Proof.
  induction xs as [|x xs IH]; simpl; intros H; [constructor|].
  inversion H as [|? ? Hnot Hrest]; subst.
  constructor; [|by apply IH].
  intros Hx. apply Hnot. by apply in_map.
Qed.

Lemma sorted_map_S (ps : list nat) :
  StronglySorted lt ps -> StronglySorted lt (map S ps).
Proof.
  induction 1 as [|p ps _ IHs Hp]; cbn; constructor; [done|].
  apply List.Forall_forall. intros q Hq.
  apply in_map_iff in Hq as (q' & <- & Hq').
  rewrite List.Forall_forall in Hp. apply Hp in Hq'. lia.
Qed.

(** The survivors are the candidates at the positions, in increasing
    order, whose key is neither in [seen] nor carried by an earlier
    candidate. *)
Lemma dedup_from_positions seen l :
  exists positions : list nat,
    StronglySorted lt positions
    /\ Forall2 (fun i e => l !! i = Some e) positions (dedup_from seen l)
    /\ forall i, In i positions <->
         exists e, l !! i = Some e
           /\ (endpointKey e ∉ seen)
           /\ forall j e', j < i -> l !! j = Some e' ->
                           endpointKey e' <> endpointKey e.
Proof.
  revert seen. induction l as [|a l IH]; intros seen.
  - exists []. split; [constructor|]. split; [constructor|].
    intros i. split; [intros []|]. intros (e & He & _). by destruct i.
  - cbn [dedup_from]. case_decide as Hin.
    + destruct (IH seen) as (ps & Hsorted & Hall & Hmem).
      exists (map S ps). split; [by apply sorted_map_S|split].
      * clear -Hall. induction Hall; cbn; constructor; done.
      * intros i. rewrite in_map_iff. split.
        -- intros (i' & <- & Hi').
           apply Hmem in Hi' as (e & He & Hfresh & Hfirst).
           exists e. split; [done|]. split; [done|].
           intros [|j] e' Hj He'; cbn in He'.
           ++ injection He' as <-. intros Heq. apply Hfresh. by rewrite <- Heq.
           ++ apply (Hfirst j); [lia|done].
        -- intros (e & He & Hfresh & Hfirst). destruct i as [|i'].
           ++ cbn in He. injection He as <-. done.
           ++ exists i'. split; [done|]. apply Hmem. exists e.
              split; [done|]. split; [done|].
              intros j e' Hj He'. apply (Hfirst (S j)); [lia|done].
    + destruct (IH ({[endpointKey a]} ∪ seen)) as (ps & Hsorted & Hall & Hmem).
      exists (0 :: map S ps). split; [|split].
      * constructor; [by apply sorted_map_S|].
        apply List.Forall_forall. intros q Hq.
        apply in_map_iff in Hq as (q' & <- & _). lia.
      * constructor; [done|]. clear -Hall. induction Hall; cbn; constructor; done.
      * intros i. cbn [In]. rewrite in_map_iff. split.
        -- intros [<- | (i' & <- & Hi')].
           ++ exists a. split; [done|]. split; [done|]. intros j e' Hj. lia.
           ++ apply Hmem in Hi' as (e & He & Hfresh & Hfirst).
              exists e. split; [done|]. split.
              ** intros Hk. apply Hfresh, elem_of_union. by right.
              ** intros [|j] e' Hj He'; cbn in He'.
                 --- injection He' as <-. intros Heq. apply Hfresh.
                     apply elem_of_union. left. by apply elem_of_singleton.
                 --- apply (Hfirst j); [lia|done].
        -- intros (e & He & Hfresh & Hfirst). destruct i as [|i']; [by left|right].
           exists i'. split; [done|]. apply Hmem. exists e.
           split; [done|]. split.
           ++ intros Hk. apply elem_of_union in Hk as [Hk | Hk]; [|done].
              apply elem_of_singleton in Hk.
              by apply (Hfirst 0 a); [lia|done|].
           ++ intros j e' Hj He'. apply (Hfirst (S j)); [lia|done].
Qed.

Lemma deduplicateEndpoints_positions l :
  exists positions : list nat,
    StronglySorted lt positions
    /\ Forall2 (firstDiscovery l) positions (deduplicateEndpoints l)
    /\ forall i e, firstDiscovery l i e -> In i positions.
Proof.
  destruct (dedup_from_positions ∅ l) as (ps & Hsorted & Hall & Hmem).
  exists ps. split; [done|]. split.
  - unfold deduplicateEndpoints.
    assert (Hgen : forall qs es,
               Forall2 (fun i e => l !! i = Some e) qs es ->
               (forall i, In i qs -> In i ps) ->
               Forall2 (firstDiscovery l) qs es).
    { intros qs es Hqs.
      induction Hqs as [|i e qs' es' Hie _ IHall]; intros Hin; constructor.
      - split; [done|].
        destruct (proj1 (Hmem i) (Hin i (or_introl eq_refl)))
          as (e0 & He0 & _ & Hfirst).
        rewrite Hie in He0. injection He0 as <-. exact Hfirst.
      - apply IHall. intros j Hj. apply Hin. by right. }
    by apply Hgen.
  - intros i e [Hie Hfirst]. apply Hmem. exists e.
    split; [done|]. split; [apply not_elem_of_empty|done].
Qed.

Lemma Forall2_In_left {A B} (P : A -> B -> Prop) xs ys x :
  Forall2 P xs ys -> In x xs -> exists y, P x y.
Proof.
  induction 1 as [|x' y xs ys Hxy _ IH]; [intros []|].
  intros [<- | Hx]; [by exists y|by apply IH].
Qed.

Lemma sorted_positions_unique (ps qs : list nat) :
  StronglySorted lt ps -> StronglySorted lt qs ->
  (forall i, In i ps <-> In i qs) -> ps = qs.
Proof.
  intros Hps. revert qs. induction Hps as [|p ps Hps IH Hp]; intros qs Hqs Hmem.
  - destruct qs as [|q qs]; [done|]. destruct (proj2 (Hmem q)). by left.
  - destruct Hqs as [|q qs Hqs Hq].
    + destruct (proj1 (Hmem p)). by left.
    + rewrite List.Forall_forall in Hp, Hq.
      assert (p = q) as ->.
      { destruct (proj1 (Hmem p) (or_introl eq_refl)) as [Hpq | Hpq]; [done|].
        destruct (proj2 (Hmem q) (or_introl eq_refl)) as [Hqp | Hqp]; [done|].
        apply Hq in Hpq. apply Hp in Hqp. lia. }
      f_equal. apply IH; [done|]. intros i. split; intros Hi.
      * destruct (proj1 (Hmem i) (or_intror Hi)) as [<- | Hi']; [|done].
        apply Hp in Hi. lia.
      * destruct (proj2 (Hmem i) (or_intror Hi)) as [<- | Hi']; [|done].
        apply Hq in Hi. lia.
Qed.

(** Only one list stands at the first discoveries in increasing order:
    the aggregated list. *)
Lemma first_discovery_order_unique l (positions : list nat) survivors :
  StronglySorted lt positions ->
  Forall2 (firstDiscovery l) positions survivors ->
  (forall i e, firstDiscovery l i e -> In i positions) ->
  survivors = deduplicateEndpoints l.
Proof.
  intros Hsorted Hall Hmem.
  destruct (deduplicateEndpoints_positions l) as (ps & Hsorted' & Hall' & Hmem').
  assert (positions = ps) as ->.
  { apply sorted_positions_unique; [done..|]. intros i. split; intros Hi.
    - destruct (Forall2_In_left _ _ _ _ Hall Hi) as (e & He). by eapply Hmem'.
    - destruct (Forall2_In_left _ _ _ _ Hall' Hi) as (e & He). by eapply Hmem. }
  clear Hsorted Hsorted' Hmem Hmem'. revert survivors Hall.
  induction Hall' as [|j e js es [Hje _] _ IHall]; intros survivors Hall;
    inversion Hall as [|j' e' js' es' [Hje' _] Hrest]; subst; [done|].
  rewrite Hje in Hje'. injection Hje' as <-. f_equal. by apply IHall.
Qed.
End Dedup.

(** C3: the aggregated endpoint list has no two entries with the same
    (method, path) pair, nor with the same METHOD:path key; it is a
    subsequence of the candidate list; for every key the survivor is the
    first candidate with that key (in particular every key that was
    scanned survives once); and the survivors stand in the order of their
    first discovery: they are the candidates at the positions, taken in
    increasing order, at which a key occurs for the first time. *)
Theorem deduplicateEndpoints_first_wins (candidates : list EndpointInfo.t) :
  let aggregated := deduplicateEndpoints candidates in
  List.NoDup (map methodAndPath aggregated)
  /\ List.NoDup (map endpointKey aggregated)
  /\ sublist aggregated candidates
  /\ (forall k, List.find (hasKey k) aggregated = List.find (hasKey k) candidates)
  /\ exists positions : list nat,
       StronglySorted lt positions
       /\ Forall2 (firstDiscovery candidates) positions aggregated
       /\ forall i e, firstDiscovery candidates i e -> In i positions.
Proof.
  cbv zeta.
  assert (Hkeys := dedup_from_NoDup ∅ candidates).
  split; [|split; [exact Hkeys|split; [|split]]].
  - apply (NoDup_map_inv (fun mp => fst mp +:+ ":" +:+ snd mp)).
    by rewrite map_map.
  - apply dedup_from_sublist.
  - intros k. unfold deduplicateEndpoints. rewrite dedup_from_find.
    case_decide; set_solver.
  - apply deduplicateEndpoints_positions.
Qed.

(** ** Identifier derivation *)

Section Identifiers.
Import TemplateManager.

Lemma truthy_nonEmpty part : Js.truthy part = nonEmpty part.
Proof. by destruct part. Qed.

Lemma pathParts_nonEmptySegments path :
  List.filter (fun part => Js.truthy part && nonEmpty part) (Js.split "/" path)
  = nonEmptySegments path.
Proof.
  apply List.filter_ext. intros part.
  rewrite truthy_nonEmpty. by destruct (nonEmpty part).
Qed.

Lemma toLowerCase_empty s : Js.toLowerCase s = "" -> s = "".
Proof. by destruct s. Qed.

Lemma append_empty_l a b : a +:+ b = "" -> a = "".
Proof. by destruct a. Qed.

Lemma append_empty_r a : a +:+ "" = a.
Proof.
  induction a as [|c a IH]; [done|].
  change (String c (a +:+ "") = String c a). by rewrite IH.
Qed.

Lemma safeFileName_nonempty method path : safeFileName method path <> "".
Proof.
  unfold safeFileName.
  destruct method as [|c method]; [done|].
  destruct path as [|d path]; [done|].
  cbn [Js.truthy negb orb]. intros H.
  by apply append_empty_l in H.
Qed.
End Identifiers.

(** C7, at the root path: the tool name of ("GET", "/") is not the bare
    lowercased method. *)
Lemma toolName_root_is_not_bare_method :
  TemplateManager.toolName "GET" "/" <> Js.toLowerCase "GET".
Proof. intros H. vm_compute in H. discriminate H. Qed.

(** C7, as the code has it: the tool name is the lowercased method, an
    underscore, and the non-empty path segments, stripped of braces and
    colons and lowercased, joined by underscores; at the root path it is
    the lowercased method followed by one underscore, while the file-safe
    name there is exactly the lowercased method; the file-safe name falls
    back to unknownTool when the method or the path is empty; and none of
    the derived identifiers is ever the empty string. *)
Theorem identifiers_derivation (method path : string) :
  TemplateManager.toolName method path
    = Js.toLowerCase method +:+ "_" +:+
      Js.join "_" (map (fun seg => Js.toLowerCase (stripped seg))
                       (nonEmptySegments path))
  /\ TemplateManager.toolName method "/" = Js.toLowerCase method +:+ "_"
  /\ (method <> "" ->
      TemplateManager.safeFileName method "/" = Js.toLowerCase method)
  /\ TemplateManager.safeFileName "" path = "unknownTool"
  /\ TemplateManager.safeFileName method "" = "unknownTool"
  /\ TemplateManager.toolName method path <> ""
  /\ TemplateManager.safeFileName method path <> ""
  /\ TemplateManager.methodName method path <> "".
Proof.
  split; [|split; [|split; [|split; [|split; [|split; [|split]]]]]].
  - unfold TemplateManager.toolName. by rewrite pathParts_nonEmptySegments.
  - reflexivity.
  - intros Hm. destruct method as [|c method]; [done|].
    unfold TemplateManager.safeFileName. cbn. by rewrite append_empty_r.
  - reflexivity.
  - by destruct method.
  - unfold TemplateManager.toolName. intros H.
    apply append_empty_l in H as Hm. apply toLowerCase_empty in Hm.
    subst method. discriminate H.
  - apply safeFileName_nonempty.
  - discriminate.
Qed.

Lemma identifiers_derivation_witness :
  TemplateManager.safeFileName "GET" "/" = Js.toLowerCase "GET".
Proof.
  apply (identifiers_derivation "GET" "/api/orders/{id}"). discriminate.
Defined.

(** ** Method inference from the matched text *)

Section MethodFromMatch.
Import RESTAnalyzer.

Lemma startsWith_spec p s :
  Js.startsWith p s = true <-> exists after, s = p +:+ after.
Proof.
  revert s; induction p as [|a p IH]; intros s; simpl.
  - split; [intros _; by exists s | done].
  - destruct s as [|b s].
    + split; [done | intros [after H]; discriminate H].
    + destruct (Ascii.eqb_spec a b) as [-> | Hne].
      * rewrite IH. split; intros [after H]; exists after.
        -- by rewrite H.
        -- by injection H.
      * split; [done | intros [after H]; injection H; congruence].
Qed.

Lemma includes_spec p s : Js.includes p s = true <-> Substring p s.
Proof.
  unfold Substring. induction s as [|c s IH].
  - simpl. rewrite orb_false_r, startsWith_spec. split.
    + intros [after H]. by exists "", after.
    + intros (before & after & H). destruct before; [by exists after|].
      discriminate H.
  - cbn [Js.includes]. rewrite orb_true_iff, startsWith_spec, IH. split.
    + intros [[after H] | (before & after & H)].
      * by exists "", after.
      * exists (String c before), after. by rewrite H.
    + intros (before & after & H). destruct before as [|d before].
      * left. by exists after.
      * right. exists before, after. by injection H.
Qed.

Lemma find_first {A} (f : A -> bool) (l : list A) :
  match List.find f l with
  | Some x => exists before after,
      l = before ++ x :: after /\ f x = true
      /\ Forall (fun y => f y = false) before
  | None => Forall (fun y => f y = false) l
  end.
Proof.
  induction l as [|a l IH]; simpl; [constructor|].
  destruct (f a) eqn:Ha.
  - exists [], l. by repeat split.
  - destruct (List.find f l) as [x|].
    + destruct IH as (before & after & -> & Hx & Hb).
      exists (a :: before), after. repeat split; [done|].
      by constructor.
    + by constructor.
Qed.

Lemma extractMethodFromMatch_truthy matchStr :
  Js.truthy (extractMethodFromMatch matchStr) = true.
Proof.
  unfold extractMethodFromMatch.
  destruct (List.find _ http_methods) as [m|] eqn:Hfind; [|done].
  apply find_some in Hfind as [Hin _].
  repeat (destruct Hin as [<- | Hin]; [done|]). destruct Hin.
Qed.

Lemma extractByMatchedText_methods r label content filename :
  map EndpointInfo.method (extractByMatchedText r label content filename)
  = map (fun m => extractMethodFromMatch (Regex.text m))
        (Regex.exec_all r content).
Proof.
  unfold extractByMatchedText. rewrite map_map. apply map_ext.
  intros m. unfold mkEndpoint. cbn [EndpointInfo.method].
  by rewrite extractMethodFromMatch_truthy.
Qed.
End MethodFromMatch.

(** C9: the method that the JS (Express and NestJS patterns), Go, PHP and
    Ruby extractors record for a match is computed from the whole matched
    text, path literal included: it is the first of GET, POST, PUT, PATCH,
    DELETE, OPTIONS, HEAD that occurs in the uppercased text, and GET when
    none does.  So a route registered with the delete keyword on the path
    /budgets is recorded as GET by each of the four extractors. *)
Theorem method_is_read_off_the_matched_text :
  (forall matchStr,
     let method := RESTAnalyzer.extractMethodFromMatch matchStr in
     let upperMatch := Js.toUpperCase matchStr in
     (exists earlier later,
        http_methods = earlier ++ method :: later
        /\ Substring method upperMatch
        /\ Forall (fun m => ~ Substring m upperMatch) earlier)
     \/ (method = "GET" /\ Forall (fun m => ~ Substring m upperMatch) http_methods))
  /\ (forall content filename,
        firstn (List.length (Regex.exec_all RESTAnalyzer.re_js_express content
                             ++ Regex.exec_all RESTAnalyzer.re_js_nest content))
               (map EndpointInfo.method
                    (RESTAnalyzer.extractJavaScriptEndpoints content filename))
        = map (fun m => RESTAnalyzer.extractMethodFromMatch (Regex.text m))
              (Regex.exec_all RESTAnalyzer.re_js_express content
               ++ Regex.exec_all RESTAnalyzer.re_js_nest content)
        /\ map EndpointInfo.method (RESTAnalyzer.extractGoEndpoints content filename)
           = map (fun m => RESTAnalyzer.extractMethodFromMatch (Regex.text m))
                 (Regex.exec_all RESTAnalyzer.re_go content)
        /\ map EndpointInfo.method (RESTAnalyzer.extractPHPEndpoints content filename)
           = map (fun m => RESTAnalyzer.extractMethodFromMatch (Regex.text m))
                 (Regex.exec_all RESTAnalyzer.re_php content)
        /\ map EndpointInfo.method (RESTAnalyzer.extractRubyEndpoints content filename)
           = map (fun m => RESTAnalyzer.extractMethodFromMatch (Regex.text m))
                 (Regex.exec_all RESTAnalyzer.re_ruby content))
  /\ map methodAndPath
         (RESTAnalyzer.extractJavaScriptEndpoints "app.delete('/budgets', h)" "routes.js")
     = [("GET", "/budgets")]
  /\ map methodAndPath
         (RESTAnalyzer.extractGoEndpoints "r.DELETE('/budgets', h)" "main.go")
     = [("GET", "/budgets")]
  /\ map methodAndPath
         (RESTAnalyzer.extractPHPEndpoints "Route::delete('/budgets', 'B@destroy');" "routes.php")
     = [("GET", "/budgets")]
  /\ map methodAndPath
         (RESTAnalyzer.extractRubyEndpoints "delete '/budgets', to: 'budgets#destroy'" "routes.rb")
     = [("GET", "/budgets")].
Proof.
  split; [|split; [|repeat split; vm_compute; reflexivity]].
  - intros matchStr method upperMatch.
    subst method. unfold RESTAnalyzer.extractMethodFromMatch.
    fold upperMatch.
    pose proof (find_first (fun m => Js.includes m upperMatch) http_methods) as H.
    destruct (List.find _ http_methods) as [m|].
    + left. destruct H as (earlier & later & Heq & Hm & Hb).
      exists earlier, later. split; [exact Heq|]. split.
      * by apply includes_spec.
      * eapply Forall_impl; [exact Hb|]. cbn. intros m' Hf Hs.
        apply includes_spec in Hs. congruence.
    + right. split; [done|].
      eapply Forall_impl; [exact H|]. cbn. intros m' Hf Hs.
      apply includes_spec in Hs. congruence.
  - intros content filename. split; [|repeat split; apply extractByMatchedText_methods].
    unfold RESTAnalyzer.extractJavaScriptEndpoints.
    set (generic := fun m : Regex.rmatch_result => _).
    assert (Hgen : forall ms,
               map EndpointInfo.method (flat_map generic ms)
               = map (fun m => RESTAnalyzer.extractMethodFromMatch (Regex.text m)) ms).
    { induction ms as [|m ms IH]; [done|].
      cbn [flat_map]. rewrite map_app, IH. subst generic.
      unfold RESTAnalyzer.mkEndpoint. cbn [map app EndpointInfo.method].
      by rewrite extractMethodFromMatch_truthy. }
    rewrite app_assoc, <- flat_map_app.
    set (ms := Regex.exec_all RESTAnalyzer.re_js_express content ++ _).
    rewrite map_app, Hgen, firstn_app, length_map.
    rewrite Nat.sub_diag, firstn_O, app_nil_r.
    rewrite <- (length_map (fun m => RESTAnalyzer.extractMethodFromMatch (Regex.text m))).
    apply firstn_all.
Qed.

(** ** Concrete extraction cases *)

(** C8: a class declaration named OrderViewSet yields, from its single
    match, exactly the six CRUD endpoints: GET and POST at /order/, and
    GET, PUT, PATCH, DELETE at /order/{id}/; the base path is the class
    name without its ViewSet suffix, lowercased.  Every class match
    contributes six endpoints, whatever the class name. *)
Theorem viewset_expands_to_six_endpoints :
  (forall viewName, List.length (RESTAnalyzer.drfEndpoints viewName) = 6)
  /\ (forall content filename,
        exists others,
          RESTAnalyzer.extractPythonEndpoints content filename
          = others ++
            flat_map (fun m => RESTAnalyzer.drfEndpoints (default "" (Regex.group 1 m)))
                     (Regex.exec_all RESTAnalyzer.re_py_drf content))
  /\ map methodAndPath (RESTAnalyzer.drfEndpoints "OrderViewSet")
     = [("GET", "/order/"); ("POST", "/order/");
        ("GET", "/order/{id}/"); ("PUT", "/order/{id}/");
        ("PATCH", "/order/{id}/"); ("DELETE", "/order/{id}/")]
  /\ RESTAnalyzer.extractPythonEndpoints orderViews "orders/views.py"
     = RESTAnalyzer.drfEndpoints "OrderViewSet"
  /\ RESTAnalyzer.extractPythonEndpoints "class OrderViewSet():" "views.py"
     = RESTAnalyzer.drfEndpoints "OrderViewSet"
  /\ RESTAnalyzer.extractPythonEndpoints
       "class OrderViewSet(mixins.ListModelMixin, GenericViewSet):" "views.py"
     = RESTAnalyzer.drfEndpoints "OrderViewSet"
  /\ RESTAnalyzer.drfEndpoints "OrderViewSet"
     = [EndpointInfo.Build "/order/" "GET"
          (Some "DRF OrderViewSet - List") (Some []);
        EndpointInfo.Build "/order/" "POST"
          (Some "DRF OrderViewSet - Create") (Some []);
        EndpointInfo.Build "/order/{id}/" "GET"
          (Some "DRF OrderViewSet - Retrieve")
          (Some [pathParam "id" (Some "Path parameter: id")]);
        EndpointInfo.Build "/order/{id}/" "PUT"
          (Some "DRF OrderViewSet - Update")
          (Some [pathParam "id" (Some "Path parameter: id")]);
        EndpointInfo.Build "/order/{id}/" "PATCH"
          (Some "DRF OrderViewSet - Partial Update")
          (Some [pathParam "id" (Some "Path parameter: id")]);
        EndpointInfo.Build "/order/{id}/" "DELETE"
          (Some "DRF OrderViewSet - Delete")
          (Some [pathParam "id" (Some "Path parameter: id")])].
Proof.
  split; [intros viewName; reflexivity|].
  split.
  { intros content filename. unfold RESTAnalyzer.extractPythonEndpoints.
    eexists. rewrite !app_assoc. reflexivity. }
  repeat split; vm_compute; reflexivity.
Qed.

(** C4: the same Express registration analysed by both modes.  The nodejs
    analyzer stores the path with the colon segment rewritten to braces;
    the rest-api analyzer stores the path as it was registered, colon
    included, and only derives the parameter from it. *)
Theorem express_route_in_both_modes :
  NodeJSAnalyzer.parseEndpointsFromFile "app.get('/users/:id', h)" "app.js"
  = [EndpointInfo.Build "/users/{id}" "GET" (Some "Endpoint from app.js")
       (Some [pathParam "id" None])]
  /\ RESTAnalyzer.extractJavaScriptEndpoints "app.get('/users/:id', h)" "app.js"
     = [EndpointInfo.Build "/users/:id" "GET" (Some "Endpoint from app.js")
          (Some [pathParam "id" (Some "Path parameter: id")])].
Proof. split; vm_compute; reflexivity. Qed.

Section BackslashPatterns.
Import Regex.

Lemma substring_noBackslash a n text_ :
  noBackslash text_ -> noBackslash (String.substring a n text_).
Proof.
  unfold noBackslash, Js.chars.
  revert a n; induction text_ as [|c t IH]; intros a n H.
  - by destruct a, n.
  - inversion H as [|? ? Hc Ht]; subst.
    destruct a as [|a]; destruct n as [|n]; cbn; try constructor; try done;
      by apply IH.
Qed.

Lemma method_check_has_no_backslash c :
  accepts RESTAnalyzer.re_method_check c = true -> Ascii.eqb Js.backslash c = false.
Proof.
  intros H. destruct (Ascii.eqb_spec Js.backslash c) as [<- | Hne]; [|done].
  vm_compute in H. discriminate H.
Qed.

(** Whatever the handler, no method is read out of its comparisons. *)
Lemma extractMethodsFromNextJsHandler_constant functionBody :
  RESTAnalyzer.extractMethodsFromNextJsHandler functionBody = ["GET"; "POST"].
Proof.
  unfold RESTAnalyzer.extractMethodsFromNextJsHandler.
  set (read := fun check : rmatch_result => _).
  assert (Hnone : flat_map read (exec_all RESTAnalyzer.re_method_check functionBody) = []);
    [|by rewrite Hnone].
  unfold exec_all.
  pose proof (exec_loop_texts RESTAnalyzer.re_method_check
                (S (String.length functionBody)) (Js.chars functionBody) 0) as Htexts.
  induction Htexts as [|check checks Hcheck _ IH]; [done|].
  cbn [flat_map]. rewrite IH, app_nil_r. subst read. cbn beta.
  rewrite (exec_first_requires (Ascii.eqb Js.backslash)); [done | by vm_compute |].
  eapply Forall_impl; [exact Hcheck|]. apply method_check_has_no_backslash.
Qed.

(** In a text without backslashes, only path parameters are inferred. *)
Lemma extractParameters_only_path path content position :
  noBackslash content ->
  NodeJSAnalyzer.extractParameters path content position
  = map (fun m =>
           Param.Build (Js.substring 1 (String.length (text m)) (text m))
             "string" true None (Some InPath))
        (exec_all NodeJSAnalyzer.re_colon_param path).
Proof.
  intros Hno. unfold NodeJSAnalyzer.extractParameters.
  cbn [NodeJSAnalyzer.queryPatterns fold_left].
  assert (Hctx : noBackslash
            (Js.substring (Nat.max 0 (position - 500))
               (Nat.min (String.length content) (position + 500)) content))
    by apply substring_noBackslash, Hno.
  rewrite (exec_all_requires (Ascii.eqb Js.backslash) NodeJSAnalyzer.re_req_query);
    [|by vm_compute | exact Hctx].
  rewrite (exec_all_requires (Ascii.eqb Js.backslash) NodeJSAnalyzer.re_query);
    [|by vm_compute | exact Hctx].
  reflexivity.
Qed.
End BackslashPatterns.

(** C5: for the route file pages/api/orders/[id].js the path is derived
    from the file name, with the bracket segment rewritten to braces; the
    two method comparisons of the handler are found, but no method name is
    read out of them, so the extractor falls back to GET and POST: the
    endpoints are GET and POST at /api/orders/{id}, and PUT is absent.
    The fallback is taken for every handler text. *)
Theorem nextjs_route_methods_fall_back :
  RESTAnalyzer.inferNextJsApiPath "pages/api/orders/[id].js" = "/api/orders/{id}"
  /\ map Regex.text (Regex.exec_all RESTAnalyzer.re_method_check orderRoute)
     = ["req.method === 'GET'"; "req.method === 'PUT'"]
  /\ RESTAnalyzer.extractMethodsFromNextJsHandler orderRoute = ["GET"; "POST"]
  /\ map methodAndPath
         (RESTAnalyzer.extractJavaScriptEndpoints orderRoute "pages/api/orders/[id].js")
     = [("GET", "/api/orders/{id}"); ("POST", "/api/orders/{id}")]
  /\ (forall functionBody,
        RESTAnalyzer.extractMethodsFromNextJsHandler functionBody = ["GET"; "POST"]).
Proof.
  split; [vm_compute; reflexivity|].
  split; [vm_compute; reflexivity|].
  split; [vm_compute; reflexivity|].
  split; [vm_compute; reflexivity|].
  apply extractMethodsFromNextJsHandler_constant.
Qed.

(** C6: the handler of listUsers dereferences req.query.page and
    req.query.limit right after the route match, yet the nodejs analyzer
    infers no query parameter for it: in a file without backslashes the
    inferred parameters are the path parameters alone.  The two query
    patterns only match where a backslash precedes the dot; on such text
    the keys are added once each, in first-seen order, and a key that is
    already a path parameter is not added again. *)
Theorem query_parameters_are_not_inferred :
  (forall path content position,
     noBackslash content ->
     Forall (fun p => Param.in_ p = Some InPath)
            (NodeJSAnalyzer.extractParameters path content position))
  /\ NodeJSAnalyzer.parseEndpointsFromFile listUsers "routes/users.js"
     = [EndpointInfo.Build "/users" "GET" (Some "Endpoint from routes/users.js")
          (Some [])]
  /\ NodeJSAnalyzer.extractParameters "/users" listUsers 0 = []
  /\ NodeJSAnalyzer.extractParameters "/users/:page" escapedQueryAccess 0
     = [pathParam "page" None; queryParam "limit"].
Proof.
  split; [|repeat split; vm_compute; reflexivity].
  intros path content position Hno.
  rewrite extractParameters_only_path by exact Hno.
  apply List.Forall_forall. intros p Hp.
  apply in_map_iff in Hp as (m & <- & _). reflexivity.
Qed.

Lemma query_parameters_are_not_inferred_witness :
  Forall (fun p => Param.in_ p = Some InPath)
         (NodeJSAnalyzer.extractParameters "/users/:id" listUsers 0).
Proof.
  apply (proj1 query_parameters_are_not_inferred "/users/:id" listUsers 0).
  unfold noBackslash. vm_compute. repeat constructor.
Defined.

(** ** The generation pipeline *)

Section GeneratorProps.
Import MCPGenerator.

Variable path_join : list string -> string.
Variable path_relative : string -> string -> string.
Variable path_dirname : string -> string.
Variable path_resolve : string -> string.
Variable cfg : MCPConfig.t.

Lemma mutations_app (a b : list Event) :
  mutations (a ++ b) = mutations a ++ mutations b.
Proof. apply List.filter_app. Qed.

Lemma dryOf_nil out : dryOf path_relative out [] [].
Proof. by repeat split. Qed.

Lemma dryOf_app out d1 r1 d2 r2 :
  dryOf path_relative out d1 r1 -> dryOf path_relative out d2 r2 -> dryOf path_relative out (d1 ++ d2) (r1 ++ r2).
Proof.
  intros (Hm1 & Hr1 & Hc1) (Hm2 & Hr2 & Hc2).
  unfold dryOf, reportedPaths, writtenPaths, createdPaths in *.
  rewrite mutations_app, !flat_map_app, map_app, Hm1, Hm2.
  repeat split; congruence.
Qed.

Lemma dryOf_writeFile out filePath content :
  dryOf path_relative out
    (writeFile path_relative path_dirname filePath content (Options true out))
    (writeFile path_relative path_dirname filePath content (Options false out)).
Proof. by repeat split. Qed.

Lemma dryOf_flat_map {A} out (f g : A -> list Event) (xs : list A) :
  (forall x, dryOf path_relative out (f x) (g x)) ->
  dryOf path_relative out (flat_map f xs) (flat_map g xs).
Proof.
  intros H. induction xs as [|x xs IH]; [apply dryOf_nil|].
  cbn [flat_map]. by apply dryOf_app.
Qed.

Lemma dryOf_createDirectoryStructure out :
  dryOf path_relative out
    (createDirectoryStructure path_join cfg (Options true out))
    (createDirectoryStructure path_join cfg (Options false out)).
Proof.
  unfold createDirectoryStructure. cbn [dryRun negb outputPath].
  induction (_ ++ _ ++ _) as [|dir dirs IH]; [apply dryOf_nil|].
  cbn [map]. apply (dryOf_app out [_] [_]); [by repeat split | exact IH].
Qed.

Lemma replay_no_mutation FS ensureDir writeFile_ (evs : list Event) (fs : FS) :
  mutations evs = [] -> replay FS ensureDir writeFile_ fs evs = fs.
Proof.
  unfold replay, mutations.
  revert fs; induction evs as [|ev evs IH]; intros fs; [done|].
  cbn [List.filter fold_left].
  destruct ev; cbn [isMutation applyEvent]; [discriminate | discriminate | apply IH].
Qed.

Ltac dry_run_steps :=
  repeat first
    [ apply dryOf_writeFile
    | apply dryOf_nil
    | apply dryOf_app
    | apply dryOf_flat_map; intros ? ].

Lemma dryOf_generateServerFiles out pi :
  dryOf path_relative out
    (generateServerFiles path_join path_relative path_dirname cfg pi (Options true out))
    (generateServerFiles path_join path_relative path_dirname cfg pi (Options false out)).
Proof.
  unfold generateServerFiles. cbn [outputPath].
  destruct (MCPConfig.outputFormat cfg); dry_run_steps.
Qed.

Lemma dryOf_generateToolFiles out pi :
  dryOf path_relative out
    (generateToolFiles path_join path_relative path_dirname cfg pi (Options true out))
    (generateToolFiles path_join path_relative path_dirname cfg pi (Options false out)).
Proof. unfold generateToolFiles. cbn [outputPath]. dry_run_steps. Qed.

Lemma dryOf_generateConfigFiles out pi :
  dryOf path_relative out
    (generateConfigFiles path_join path_relative path_dirname cfg pi (Options true out))
    (generateConfigFiles path_join path_relative path_dirname cfg pi (Options false out)).
Proof. unfold generateConfigFiles. cbn [outputPath]. dry_run_steps. Qed.

Lemma dryOf_generateTestFiles out pi :
  dryOf path_relative out
    (generateTestFiles path_join path_relative path_dirname cfg pi (Options true out))
    (generateTestFiles path_join path_relative path_dirname cfg pi (Options false out)).
Proof. unfold generateTestFiles. cbn [outputPath]. dry_run_steps. Qed.

Lemma dryOf_generateDocumentation out pi :
  dryOf path_relative out
    (generateDocumentation path_join path_relative path_dirname cfg pi (Options true out))
    (generateDocumentation path_join path_relative path_dirname cfg pi (Options false out)).
Proof. unfold generateDocumentation. cbn [outputPath]. dry_run_steps. Qed.

Lemma dryOf_generate pi outputPath_ :
  dryOf path_relative (path_resolve outputPath_)
    (generate path_join path_relative path_dirname path_resolve cfg pi outputPath_ true)
    (generate path_join path_relative path_dirname path_resolve cfg pi outputPath_ false).
Proof.
  unfold generate. cbn [negb].
  apply dryOf_app; [by repeat split|].
  apply dryOf_app; [by repeat split|].
  apply dryOf_app; [apply dryOf_createDirectoryStructure|].
  apply dryOf_app; [apply dryOf_generateServerFiles|].
  apply dryOf_app; [apply dryOf_generateToolFiles|].
  apply dryOf_app; [apply dryOf_generateConfigFiles|].
  apply dryOf_app;
    [destruct (MCPConfig.includeTests cfg);
     [apply dryOf_generateTestFiles | apply dryOf_nil]|].
  apply dryOf_app;
    [destruct (MCPConfig.includeDocumentation cfg);
     [apply dryOf_generateDocumentation | apply dryOf_nil]|].
  by repeat split.
Qed.
End GeneratorProps.

Lemma writtenPaths_no_mutation (evs : list MCPGenerator.Event) :
  MCPGenerator.mutations evs = [] -> MCPGenerator.writtenPaths evs = [].
Proof.
  unfold MCPGenerator.mutations, MCPGenerator.writtenPaths.
  induction evs as [|ev evs IH]; [done|].
  cbn [List.filter flat_map].
  destruct ev; cbn [MCPGenerator.isMutation]; [discriminate | discriminate | apply IH].
Qed.

(** C2: whatever the project, the configuration and the output path, a
    dry run contains no file-system operation, so replaying it leaves any
    file system as it was, whatever ensureDir and writeFile do; and the
    file paths it announces are, in order (hence as a set), the paths of
    the files that the real run writes, given relative to the resolved
    output directory, which are also the paths the real run logs as
    created. *)
Theorem dry_run_changes_nothing_and_reports_every_write
  (path_join : list string -> string)
  (path_relative : string -> string -> string)
  (path_dirname path_resolve : string -> string)
  (cfg : MCPConfig.t) (pi : ProjectInfo.t) (outputPath : string) :
  let run := MCPGenerator.generate path_join path_relative path_dirname
               path_resolve cfg pi outputPath in
  MCPGenerator.mutations (run true) = []
  /\ MCPGenerator.writtenPaths (run true) = []
  /\ (forall (FS : Type) ensureDir writeFile (fs : FS),
        MCPGenerator.replay FS ensureDir writeFile fs (run true) = fs)
  /\ MCPGenerator.reportedPaths (run true)
     = map (path_relative (path_resolve outputPath))
           (MCPGenerator.writtenPaths (run false))
  /\ MCPGenerator.createdPaths (run false) = MCPGenerator.reportedPaths (run true).
Proof.
  intros run.
  destruct (dryOf_generate path_join path_relative path_dirname path_resolve
              cfg pi outputPath) as (Hmut & Hrep & Hcre).
  fold run in Hmut, Hrep, Hcre.
  split; [exact Hmut|].
  split; [by apply writtenPaths_no_mutation|].
  split; [intros FS ensureDir writeFile fs; by apply replay_no_mutation|].
  split; assumption.
Qed.

(** *** Exclusion *)

(** Tool files and the tools index are made from endpoints that are not
    excluded. *)
Lemma filteredEndpoints_kept cfg pi e :
  In e (MCPGenerator.filteredEndpoints cfg pi) ->
  In e (ProjectInfo.endpoints pi) /\ MCPGenerator.notExcluded cfg e = true.
Proof. unfold MCPGenerator.filteredEndpoints. apply filter_In. Qed.

(** With tests enabled, a real run writes a test file for every endpoint
    of the project, excluded or not. *)
Lemma test_file_for_every_endpoint
  (path_join : list string -> string)
  (path_relative : string -> string -> string)
  (path_dirname path_resolve : string -> string)
  (cfg : MCPConfig.t) (pi : ProjectInfo.t) (outputPath : string)
  (e : EndpointInfo.t) :
  MCPConfig.includeTests cfg = true ->
  In e (ProjectInfo.endpoints pi) ->
  In (path_join [path_resolve outputPath; "tests"; "tools";
                 MCPGenerator.generateToolName e +:+ ".test.ts"],
      MCPGenerator.Rendered "tool-test.ts"
        (MCPGenerator.Data (Some cfg) None None (Some e)))
     (MCPGenerator.writtenFiles
        (MCPGenerator.generate path_join path_relative path_dirname path_resolve
           cfg pi outputPath false)).
Proof.
  intros Htests He. unfold MCPGenerator.writtenFiles.
  apply in_flat_map. eexists (MCPGenerator.WriteFile _ _).
  split; [|left; reflexivity].
  unfold MCPGenerator.generate. rewrite Htests.
  do 6 (apply in_or_app; right). apply in_or_app; left.
  unfold MCPGenerator.generateTestFiles. apply in_or_app; right.
  apply in_flat_map. exists e. split; [exact He|].
  right. left. reflexivity.
Qed.

(** C1: with GET:/health excluded, the run writes no tool file for the
    health endpoint and leaves it out of the tools index; but the server
    entry point, the README and the API document are rendered from the
    unfiltered endpoint list, and a test file is written for the excluded
    endpoint as well. *)
Theorem excluded_endpoint_is_still_generated :
  MCPGenerator.writtenPaths shopRun
  = ["/out/src/index.ts"; "/out/package.json"; "/out/tsconfig.json";
     "/out/src/tools/getUsers.ts"; "/out/src/tools/index.ts";
     "/out/.env.example"; "/out/README.md";
     "/out/tests/setup.ts"; "/out/tests/tools/getUsers.test.ts";
     "/out/tests/tools/getHealth.test.ts"; "/out/docs/API.md"]
  /\ MCPGenerator.filteredEndpoints shopConfig shopProject = [usersEndpoint]
  /\ In ("/out/src/tools/index.ts",
         MCPGenerator.Rendered "tools-index.ts"
           (MCPGenerator.Data (Some shopConfig) None (Some [usersEndpoint]) None))
        (MCPGenerator.writtenFiles shopRun)
  /\ In ("/out/tests/tools/getHealth.test.ts",
         MCPGenerator.Rendered "tool-test.ts"
           (MCPGenerator.Data (Some shopConfig) None None (Some healthEndpoint)))
        (MCPGenerator.writtenFiles shopRun)
  /\ Forall (fun file =>
               exists content,
                 In (file, content) (MCPGenerator.writtenFiles shopRun)
                 /\ MCPGenerator.mentions healthEndpoint content)
            ["/out/src/index.ts"; "/out/README.md";
             "/out/tests/tools/getHealth.test.ts"; "/out/docs/API.md"].
Proof.
  split; [vm_compute; reflexivity|].
  split; [vm_compute; reflexivity|].
  split; [vm_compute; tauto|].
  split; [vm_compute; tauto|].
  repeat constructor.
  - eexists. split; [vm_compute; left; reflexivity|].
    right. eexists. split; [reflexivity|]. cbn. tauto.
  - eexists. split; [vm_compute; do 6 right; left; reflexivity|].
    right. eexists. split; [reflexivity|]. cbn. tauto.
  - eexists. split; [vm_compute; do 9 right; left; reflexivity|].
    left. reflexivity.
  - eexists. split; [vm_compute; do 10 right; left; reflexivity|].
    right. eexists. split; [reflexivity|]. cbn. tauto.
Qed.

(** ** OpenAPI specifications in YAML *)

Lemma split_nonempty sep s : Js.split sep s <> [].
Proof.
  destruct s as [|c s]; cbn; [done|].
  destruct (Ascii.eqb c sep); [done|]. by destruct (Js.split sep s).
Qed.

Lemma split_after_separator sep a b :
  exists init, init <> [] /\
    Js.split sep (a +:+ String sep b) = init ++ Js.split sep b.
Proof.
  induction a as [|c a (init & Hne & IH)].
  - exists [""]. split; [done|].
    change ("" +:+ String sep b) with (String sep b).
    cbn [Js.split]. by rewrite Ascii.eqb_refl.
  - change (String c a +:+ String sep b) with (String c (a +:+ String sep b)).
    cbn [Js.split]. rewrite IH.
    destruct (Ascii.eqb c sep).
    + by exists ("" :: init).
    + destruct init as [|i init]; [done|]. by exists (String c i :: init).
Qed.

Lemma last_app_nonempty {A} (l1 l2 : list A) d :
  l2 <> [] -> List.last (l1 ++ l2) d = List.last l2 d.
Proof.
  intros Hne. induction l1 as [|x l1 IH]; [done|].
  cbn [app]. rewrite <- IH. cbn.
  destruct (l1 ++ l2) eqn:E; [|done].
  apply app_eq_nil in E as [_ E]. done.
Qed.

Lemma withoutTrailingSlashes_app a b :
  Path.withoutTrailingSlashes b <> "" ->
  Path.withoutTrailingSlashes (a +:+ b) = a +:+ Path.withoutTrailingSlashes b.
Proof.
  intros Hb. induction a as [|c a IH]; [done|].
  change (String c a +:+ b) with (String c (a +:+ b)).
  cbn [Path.withoutTrailingSlashes]. rewrite IH.
  change (String c a +:+ Path.withoutTrailingSlashes b)
    with (String c (a +:+ Path.withoutTrailingSlashes b)).
  destruct (a +:+ Path.withoutTrailingSlashes b) eqn:E; [|done].
  destruct a; [|done]. by destruct Hb.
Qed.

Lemma basename_join dir rel :
  Path.withoutTrailingSlashes rel <> "" ->
  Path.basename (Path.join dir rel) = Path.basename rel.
Proof.
  intros Hrel. unfold Path.basename, Path.join.
  change ("/" +:+ rel) with (String "/" rel).
  assert (Hslash : Path.withoutTrailingSlashes (String "/" rel)
                   = String "/" (Path.withoutTrailingSlashes rel)).
  { cbn [Path.withoutTrailingSlashes].
    by destruct (Path.withoutTrailingSlashes rel). }
  rewrite withoutTrailingSlashes_app by (by rewrite Hslash).
  rewrite Hslash.
  destruct (split_after_separator "/" dir (Path.withoutTrailingSlashes rel))
    as (init & _ & ->).
  by rewrite last_app_nonempty by apply split_nonempty.
Qed.

(** The extension of a file below a directory is that of its relative
    name, as soon as this name has a character other than a slash. *)
Lemma extname_join dir rel :
  Path.withoutTrailingSlashes rel <> "" ->
  Path.extname (Path.join dir rel) = Path.extname rel.
Proof. intros Hrel. unfold Path.extname. by rewrite basename_join. Qed.

Lemma extname_named rel :
  Path.extname rel <> "" -> Path.withoutTrailingSlashes rel <> "".
Proof.
  intros Hext Hrel. apply Hext. unfold Path.extname, Path.basename.
  by rewrite Hrel.
Qed.

Lemma split_singleton_empty sep s : Js.split sep s = [""] -> s = "".
Proof.
  destruct s as [|c s]; [done|]. cbn [Js.split].
  destruct (Ascii.eqb c sep).
  - intros [= H]. by destruct (split_nonempty sep s).
  - by destruct (Js.split sep s).
Qed.

(** A path that does not end in a slash is taken as it is. *)
Lemma withoutTrailingSlashes_id rel :
  List.last (Js.split "/" rel) "" <> "" -> Path.withoutTrailingSlashes rel = rel.
Proof.
  induction rel as [|c rel IH]; [done|].
  cbn [Js.split Path.withoutTrailingSlashes].
  destruct (Ascii.eqb c "/") eqn:Hc.
  - pose proof (split_nonempty "/" rel) as Hne.
    destruct (Js.split "/" rel) as [|p ps] eqn:Hsplit; [done|].
    change (List.last ("" :: p :: ps) "") with (List.last (p :: ps) "").
    intros Hlast. rewrite IH by done.
    destruct rel; [|done]. cbn in Hsplit. injection Hsplit as <- <-. done.
  - destruct (Js.split "/" rel) as [|p ps] eqn:Hsplit.
    + by destruct (split_nonempty "/" rel).
    + destruct ps as [|p' ps].
      * cbn [List.last]. intros _.
        destruct rel as [|c' rel']; [done|].
        rewrite IH; [done|].
        cbn [List.last]. intros ->. by apply split_singleton_empty in Hsplit.
      * change (List.last (String c p :: p' :: ps) "")
          with (List.last (p :: p' :: ps) "").
        intros Hlast. rewrite IH by done.
        destruct rel; [|done]. by cbn in Hsplit.
Qed.

Lemma basename_lastSegment rel :
  Glob.lastSegment rel <> "" -> Path.basename rel = Glob.lastSegment rel.
Proof.
  intros Hlast. unfold Path.basename.
  by rewrite withoutTrailingSlashes_id.
Qed.

Lemma array_includes_In x xs : Js.array_includes x xs = true <-> In x xs.
Proof.
  unfold Js.array_includes. rewrite existsb_exists. split.
  - intros (y & Hy & Heq). apply String.eqb_eq in Heq. by subst.
  - intros Hx. exists x. split; [done | apply String.eqb_refl].
Qed.

Lemma array_includes_not_In x xs : ~ In x xs -> Js.array_includes x xs = false.
Proof.
  intros Hnot. destruct (Js.array_includes x xs) eqn:E; [|done].
  by apply array_includes_In in E.
Qed.

Lemma distinct_In seen paths p : In p (Glob.distinct seen paths) -> In p paths.
Proof.
  revert seen. induction paths as [|q paths IH]; intros seen; cbn; [done|].
  destruct (Js.array_includes q seen).
  - intros Hp. right. by eapply IH.
  - intros [<- | Hp]; [by left | right; by eapply IH].
Qed.

(** What [glob] returns matches the pattern and exists. *)
Lemma glob_In pattern listing rel :
  In rel (Glob.glob pattern listing) ->
  pattern rel = true /\ exists entry, Glob.stat listing rel = Some entry.
Proof.
  unfold Glob.glob. intros Hin. apply distinct_In, filter_In in Hin as [Hin Hpat].
  split; [done|]. unfold Glob.stat.
  apply in_map_iff in Hin as (entry & <- & Hin).
  destruct (List.find (fun e => String.eqb (fst e) (fst entry))
                      (Glob.entries listing)) as [found|] eqn:Hfind.
  - by exists (snd found).
  - apply (find_none _ _ Hfind) in Hin. by rewrite String.eqb_refl in Hin.
Qed.

(** What the specification pattern matches has one of the three
    extensions, also below the project directory. *)
Lemma openApiPattern_extname dir rel :
  Glob.openApiPattern rel = true ->
  Path.extname (Path.join dir rel) = Path.extname rel
  /\ (Path.extname rel = ".json"
      \/ Path.extname rel = ".yaml" \/ Path.extname rel = ".yml").
Proof.
  unfold Glob.openApiPattern. intros Hpat.
  apply andb_true_iff in Hpat as [_ Hname].
  apply array_includes_In in Hname.
  assert (Hlast : Glob.lastSegment rel <> "")
    by (intros E; rewrite E in Hname; cbn in Hname;
        repeat (destruct Hname as [Hname | Hname]; [discriminate Hname|]);
        exact Hname).
  assert (Hext : Path.extname rel = ".json"
                 \/ Path.extname rel = ".yaml" \/ Path.extname rel = ".yml").
  { unfold Path.extname. rewrite basename_lastSegment by done.
    repeat (destruct Hname as [<- | Hname]; [cbn; tauto|]). destruct Hname. }
  split; [|done]. apply extname_join, extname_named.
  by destruct Hext as [-> | [-> | ->]].
Qed.

Section OpenApiProps.
Import ProjectAnalyzer.

Variable json : Type.
Variable JSON_parse : string -> result json.
Variable projectInfoOfSpec : string -> json -> result ProjectInfo.t.
Variable path_resolve : string -> string.
Variable nodeAnalyze : Listing -> string -> result ProjectInfo.t.
Variable restAnalyze : Listing -> string -> result ProjectInfo.t.

Lemma parseOpenAPISpec_yaml content dir specFile :
  Path.extname specFile = ".yaml" \/ Path.extname specFile = ".yml" ->
  parseOpenAPISpec json JSON_parse (Ok content) (Path.join dir specFile)
  = Error yamlError.
Proof.
  intros Hext. unfold parseOpenAPISpec.
  rewrite extname_join
    by (apply extname_named; by destruct Hext as [-> | ->]).
  by destruct Hext as [-> | ->].
Qed.

Lemma parseOpenAPISpec_ok read filePath spec :
  parseOpenAPISpec json JSON_parse read filePath = Ok spec ->
  (exists content, read = Ok content)
  /\ Js.toLowerCase (Path.extname filePath) = ".json".
Proof.
  unfold parseOpenAPISpec. destruct read as [content|message]; [|done].
  destruct (String.eqb_spec (Js.toLowerCase (Path.extname filePath)) ".json");
    [by eauto|].
  by destruct (_ || _).
Qed.

Lemma readFile_file listing dir rel content :
  Glob.stat listing rel = Some (File content) ->
  readFile listing dir rel = Ok content.
Proof. unfold readFile. by intros ->. Qed.

Lemma readFile_ok listing dir rel content :
  readFile listing dir rel = Ok content ->
  Glob.stat listing rel = Some (File content).
Proof.
  unfold readFile. by destruct (Glob.stat listing rel) as [[c|]|]; intros [= <-].
Qed.

Lemma openApiAnalyze_yaml listing dir specFile more content :
  Glob.glob Glob.openApiPattern listing = specFile :: more ->
  Glob.stat listing specFile = Some (File content) ->
  Path.extname specFile = ".yaml" \/ Path.extname specFile = ".yml" ->
  openApiAnalyze json JSON_parse projectInfoOfSpec listing dir = Error yamlError.
Proof.
  intros Hglob Hfile Hext. unfold openApiAnalyze. rewrite Hglob.
  by rewrite (readFile_file _ _ _ _ Hfile), parseOpenAPISpec_yaml.
Qed.
End OpenApiProps.

(** C10: in a project whose only OpenAPI or Swagger file, a regular file,
    ends in .yaml or .yml, detection answers openapi, and the analysis,
    automatic or asked for as openapi, fails with the message that YAML
    parsing is not implemented.  An openapi analysis that returns a
    project description read its specification from a regular file whose
    extension is .json. *)
Theorem yaml_spec_is_detected_but_not_analyzed
  (json : Type) (JSON_parse : string -> result json)
  (projectInfoOfSpec : string -> json -> result ProjectInfo.t)
  (path_resolve : string -> string)
  (nodeAnalyze restAnalyze : Listing -> string -> result ProjectInfo.t)
  (fs : FileSystem) (projectPath : string) (listing : Listing) :
  let analyze :=
    ProjectAnalyzer.analyze json JSON_parse projectInfoOfSpec path_resolve
      nodeAnalyze restAnalyze fs projectPath in
  fs (path_resolve projectPath) = Some listing ->
  (forall specFile content,
     Glob.glob Glob.openApiPattern listing = [specFile] ->
     Glob.stat listing specFile = Some (File content) ->
     Path.extname specFile = ".yaml" \/ Path.extname specFile = ".yml" ->
     ProjectAnalyzer.detectProjectType listing = "openapi"
     /\ analyze "auto" = Error yamlError
     /\ analyze "openapi" = Error yamlError)
  /\ (forall pi,
        analyze "openapi" = Ok pi ->
        exists specFile more content,
          Glob.glob Glob.openApiPattern listing = specFile :: more
          /\ Glob.stat listing specFile = Some (File content)
          /\ Js.toLowerCase (Path.extname specFile) = ".json").
Proof.
  intros analyze Hfs. subst analyze. unfold ProjectAnalyzer.analyze.
  rewrite Hfs. split.
  - intros specFile content Hglob Hfile Hext.
    assert (Hdetect : ProjectAnalyzer.detectProjectType listing = "openapi")
      by (unfold ProjectAnalyzer.detectProjectType; by rewrite Hglob).
    rewrite Hdetect. cbn [String.eqb Ascii.eqb Bool.eqb].
    split; [done | split]; by eapply openApiAnalyze_yaml.
  - intros pi. cbn [String.eqb Ascii.eqb Bool.eqb].
    unfold ProjectAnalyzer.openApiAnalyze.
    destruct (Glob.glob Glob.openApiPattern listing) as [|specFile more] eqn:Hglob;
      [done|].
    destruct (ProjectAnalyzer.parseOpenAPISpec _ _ _ _) as [spec|msg] eqn:Hparse;
      [|done].
    intros _. apply parseOpenAPISpec_ok in Hparse as [[content Hread] Hext].
    exists specFile, more, content. split; [done|].
    split; [by eapply readFile_ok|].
    assert (Hin : In specFile (Glob.glob Glob.openApiPattern listing))
      by (rewrite Hglob; by left).
    apply glob_In in Hin as [Hpat _].
    by rewrite (proj1 (openApiPattern_extname _ _ Hpat)) in Hext.
Qed.

Lemma yaml_spec_is_detected_but_not_analyzed_witness :
  ProjectAnalyzer.analyze string Ok petstoreInfo Path.resolve noAnalysis noAnalysis
    petstore "/srv/petstore" "auto"
  = Error yamlError.
Proof.
  apply (yaml_spec_is_detected_but_not_analyzed string Ok petstoreInfo
           Path.resolve noAnalysis noAnalysis petstore "/srv/petstore"
           petstoreListing eq_refl)
    with (specFile := "docs/openapi.yaml") (content := "openapi: 3.0.0").
  - reflexivity.
  - reflexivity.
  - left. reflexivity.
Defined.


(** * Further properties of the analyzers and of the generator *)

(** ** Aggregation *)

Section DedupMore.
Implicit Types (seen : gset string) (l xs ys : list EndpointInfo.t).

Lemma dedup_from_In seen l e : In e (dedup_from seen l) -> In e l.
Proof.
  revert seen; induction l as [|a l IH]; intros seen; simpl; [done|].
  destruct (decide (endpointKey a ∈ seen)) as [_ | _].
  - intros He. right. by eapply IH.
  - intros [<- | He]; [by left | right; by eapply IH].
Qed.

Lemma dedup_from_id seen l :
  List.NoDup (map endpointKey l) ->
  (forall e, In e l -> endpointKey e ∉ seen) ->
  dedup_from seen l = l.
Proof.
  revert seen; induction l as [|a l IH]; intros seen Hnd Hfresh; simpl; [done|].
  inversion Hnd as [|? ? Hnotin Hnd']; subst.
  destruct (decide (endpointKey a ∈ seen)) as [Hin | _].
  - exfalso. apply (Hfresh a); [by left | exact Hin].
  - f_equal. apply IH; [exact Hnd'|].
    intros e He Hin. apply elem_of_union in Hin as [Hin | Hin].
    + apply elem_of_singleton in Hin. apply Hnotin.
      rewrite <- Hin. by apply in_map.
    + apply (Hfresh e); [by right | exact Hin].
Qed.

Lemma dedup_from_all_seen seen l :
  (forall e, In e l -> endpointKey e ∈ seen) -> dedup_from seen l = [].
Proof.
  induction l as [|a l IH]; intros Hseen; simpl; [done|].
  destruct (decide (endpointKey a ∈ seen)) as [_ | Hnot].
  - apply IH. intros e He. apply Hseen. by right.
  - exfalso. apply Hnot, Hseen. by left.
Qed.

Lemma dedup_from_app seen xs ys :
  dedup_from seen (xs ++ ys)
  = dedup_from seen xs
    ++ dedup_from (seen ∪ list_to_set (map endpointKey xs)) ys.
Proof.
  revert seen; induction xs as [|a xs IH]; intros seen; simpl.
  - f_equal. set_solver.
  - destruct (decide (endpointKey a ∈ seen)) as [Hin | Hnot].
    + rewrite IH. do 2 f_equal. set_solver.
    + simpl. rewrite IH. do 3 f_equal. set_solver.
Qed.
End DedupMore.

(** X1: aggregating an already aggregated list changes nothing, and the
    aggregated list is never longer than the candidate list. *)
Theorem deduplicateEndpoints_idempotent (candidates : list EndpointInfo.t) :
  deduplicateEndpoints (deduplicateEndpoints candidates)
  = deduplicateEndpoints candidates
  /\ List.length (deduplicateEndpoints candidates) <= List.length candidates.
Proof.
  unfold deduplicateEndpoints. split.
  - apply dedup_from_id; [apply dedup_from_NoDup|]. intros e _. set_solver.
  - apply sublist_length, dedup_from_sublist.
Qed.

Lemma dedup_absorbs (candidates later : list EndpointInfo.t) :
  (forall e, In e later -> In (endpointKey e) (map endpointKey candidates)) ->
  deduplicateEndpoints (candidates ++ later) = deduplicateEndpoints candidates.
Proof.
  intros Hknown. unfold deduplicateEndpoints.
  rewrite dedup_from_app, (dedup_from_all_seen _ later); [apply app_nil_r|].
  intros e He. apply elem_of_union. right.
  apply elem_of_list_to_set, list_elem_of_In. by apply Hknown.
Qed.

(** X2: candidates whose keys were all met before add nothing: appending
    them to the candidate list leaves the aggregated list as it was. *)
Theorem deduplicateEndpoints_absorbs_known_keys
  (candidates later : list EndpointInfo.t) :
  (forall e, In e later -> In (endpointKey e) (map endpointKey candidates)) ->
  deduplicateEndpoints (candidates ++ later) = deduplicateEndpoints candidates.
Proof. apply dedup_absorbs. Qed.

Lemma deduplicateEndpoints_absorbs_known_keys_witness :
  deduplicateEndpoints ([usersEndpoint; healthEndpoint] ++ [usersAgain])
  = deduplicateEndpoints [usersEndpoint; healthEndpoint].
Proof.
  apply (deduplicateEndpoints_absorbs_known_keys
           [usersEndpoint; healthEndpoint] [usersAgain]).
  intros e [<- | []]. left. reflexivity.
Defined.

(** ** The scan of the rest-api analyzer *)

(** X3: a file whose extension is none of the twelve known ones, compared
    case-sensitively, yields no endpoint, whatever its content. *)
Theorem unknown_extension_yields_nothing (content filename : string) :
  ~ In (Path.extname filename) knownExtensions ->
  RESTScan.extractEndpointsFromFile content filename = [].
Proof.
  intros Hext. unfold RESTScan.extractEndpointsFromFile.
  assert (Hne : forall ext, In ext knownExtensions ->
                            String.eqb (Path.extname filename) ext = false).
  { intros ext Hin. apply String.eqb_neq. intros Heq. apply Hext. by rewrite Heq. }
  rewrite !array_includes_not_In;
    [| intros Hin; apply Hext; cbn in *; tauto
     | intros Hin; apply Hext; cbn in *; tauto].
  rewrite !Hne; [done | cbn; tauto ..].
Qed.

Lemma unknown_extension_yields_nothing_witness :
  RESTScan.extractEndpointsFromFile "app.get('/users', h)" "src/App.JS" = [].
Proof.
  apply (unknown_extension_yields_nothing "app.get('/users', h)" "src/App.JS").
  vm_compute. intros H. repeat (destruct H as [H | H]; [discriminate H|]). exact H.
Defined.

(** The extension is that of the last component, whatever slashes follow
    it. *)
Lemma extname_skips_trailing_slashes :
  Path.extname "x.js/" = ".js"
  /\ map methodAndPath
       (RESTScan.extractEndpointsFromFile "app.get('/users', h)" "x.js/")
     = [("GET", "/users")].
Proof. split; reflexivity. Qed.

Lemma candidates_app files more :
  RESTScan.candidates (files ++ more)
  = RESTScan.candidates files ++ RESTScan.candidates more.
Proof. apply flat_map_app. Qed.

Lemma candidates_incl files more e :
  incl more files -> In e (RESTScan.candidates more) ->
  In e (RESTScan.candidates files).
Proof.
  unfold RESTScan.candidates. intros Hincl He.
  apply in_flat_map in He as (f & Hf & He).
  apply in_flat_map. exists f. split; [by apply Hincl | exact He].
Qed.

(** Candidates whose keys were met before can be dropped wherever they
    stand. *)
Lemma dedup_skips_known (known repeated rest : list EndpointInfo.t) :
  (forall e, In e repeated -> In (endpointKey e) (map endpointKey known)) ->
  deduplicateEndpoints (known ++ repeated ++ rest)
  = deduplicateEndpoints (known ++ rest).
Proof.
  intros Hknown. unfold deduplicateEndpoints.
  rewrite !dedup_from_app, (dedup_from_all_seen _ repeated).
  - cbn [app]. do 2 f_equal. apply set_eq. intros k.
    rewrite !elem_of_union, !elem_of_list_to_set, !list_elem_of_In.
    split; [|tauto]. intros [Hk | Hk]; [done|]. right.
    apply in_map_iff in Hk as (e & <- & He). by apply Hknown.
  - intros e He. apply elem_of_union. right.
    apply elem_of_list_to_set, list_elem_of_In. by apply Hknown.
Qed.

Lemma scanFiles_skips_repeat before file after :
  In file before ->
  RESTScan.scanFiles (before ++ file :: after) = RESTScan.scanFiles (before ++ after).
Proof.
  intros Hin. unfold RESTScan.scanFiles.
  change (file :: after) with ([file] ++ after).
  rewrite !candidates_app. apply dedup_skips_known.
  intros e He. apply in_map. eapply candidates_incl; [|exact He].
  intros f [<- | []]. exact Hin.
Qed.

Section ScanProps.
Variable listing : Listing.
Variable projectPath : string.

Lemma readAll_app xs ys :
  RESTScan.readAll listing projectPath (xs ++ ys)
  = match RESTScan.readAll listing projectPath xs with
    | Error message => Error message
    | Ok read =>
        match RESTScan.readAll listing projectPath ys with
        | Error message => Error message
        | Ok more => Ok (read ++ more)
        end
    end.
Proof.
  induction xs as [|x xs IH]; cbn [app RESTScan.readAll].
  - by destruct (RESTScan.readAll listing projectPath ys).
  - destruct (readFile listing projectPath x); [|done]. rewrite IH.
    destruct (RESTScan.readAll listing projectPath xs); [|done].
    by destruct (RESTScan.readAll listing projectPath ys).
Qed.

Lemma readAll_In xs read x :
  RESTScan.readAll listing projectPath xs = Ok read -> In x xs ->
  exists content, readFile listing projectPath x = Ok content /\ In (x, content) read.
Proof.
  revert read. induction xs as [|y xs IH]; intros read; cbn [RESTScan.readAll];
    [by intros _ []|].
  destruct (readFile listing projectPath y) as [c|] eqn:Hy; [|done].
  destruct (RESTScan.readAll listing projectPath xs) as [others|]; [|done].
  intros [= <-] [<- | Hx].
  - exists c. split; [done | by left].
  - destruct (IH others eq_refl Hx) as (content & Hread & Hin).
    exists content. split; [done | by right].
Qed.

Lemma scanPaths_skips_repeat before file after :
  In file before ->
  RESTScan.scanPaths listing projectPath (before ++ file :: after)
  = RESTScan.scanPaths listing projectPath (before ++ after).
Proof.
  intros Hin. unfold RESTScan.scanPaths. rewrite !readAll_app.
  destruct (RESTScan.readAll listing projectPath before) as [read|] eqn:Hbefore;
    [|done].
  destruct (readAll_In _ _ _ Hbefore Hin) as (content & Hfile & Hread).
  cbn [RESTScan.readAll]. rewrite Hfile.
  destruct (RESTScan.readAll listing projectPath after) as [more|]; [|done].
  f_equal. by apply scanFiles_skips_repeat.
Qed.

Lemma scanPaths_distinct_from seen visited paths :
  (forall p, In p seen <-> In p visited) ->
  RESTScan.scanPaths listing projectPath (visited ++ paths)
  = RESTScan.scanPaths listing projectPath (visited ++ Glob.distinct seen paths).
Proof.
  revert seen visited. induction paths as [|p paths IH]; intros seen visited Hseen;
    [done|].
  cbn [Glob.distinct].
  destruct (Js.array_includes p seen) eqn:Hp.
  - apply array_includes_In, Hseen in Hp.
    rewrite scanPaths_skips_repeat by done. by apply IH.
  - change (p :: paths) with ([p] ++ paths).
    change (p :: Glob.distinct (p :: seen) paths)
      with ([p] ++ Glob.distinct (p :: seen) paths).
    rewrite !app_assoc. apply IH. intros q. rewrite in_app_iff. cbn [In].
    rewrite Hseen. tauto.
Qed.

Lemma scanPaths_distinct paths :
  RESTScan.scanPaths listing projectPath paths
  = RESTScan.scanPaths listing projectPath (Glob.distinct [] paths).
Proof. by apply (scanPaths_distinct_from [] []). Qed.
End ScanProps.

(** X4: paths that were visited already and are met again, under the same
    or a later glob pattern, change nothing in the outcome of the scan,
    wherever they stand among the visited paths: the scan of the visited
    paths is the scan of the distinct paths in the order of their first
    visit, so two enumerations that agree on these give the same
    endpoints, or the same failure. *)
Theorem rescanned_files_add_nothing (listing : Listing) (projectPath : string) :
  (forall before file after,
     In file before ->
     RESTScan.scanPaths listing projectPath (before ++ file :: after)
     = RESTScan.scanPaths listing projectPath (before ++ after))
  /\ (forall paths,
        RESTScan.scanPaths listing projectPath paths
        = RESTScan.scanPaths listing projectPath (Glob.distinct [] paths))
  /\ (forall glob glob',
        Glob.distinct [] (RESTScan.visited glob listing)
        = Glob.distinct [] (RESTScan.visited glob' listing) ->
        RESTScan.scanForEndpoints glob listing projectPath
        = RESTScan.scanForEndpoints glob' listing projectPath).
Proof.
  split; [|split].
  - intros before file after. apply scanPaths_skips_repeat.
  - apply scanPaths_distinct.
  - intros glob glob' Hsame. unfold RESTScan.scanForEndpoints.
    by rewrite (scanPaths_distinct _ _ (RESTScan.visited glob listing)),
               (scanPaths_distinct _ _ (RESTScan.visited glob' listing)), Hsame.
Qed.

Lemma rescanned_files_add_nothing_witness :
  RESTScan.scanPaths routesListing "/srv/shop"
    ["routes/api.js"; "routes/api.js"; "routes/users.js"]
  = RESTScan.scanPaths routesListing "/srv/shop"
      ["routes/api.js"; "routes/users.js"].
Proof.
  apply (proj1 (rescanned_files_add_nothing routesListing "/srv/shop")
           ["routes/api.js"] "routes/api.js" ["routes/users.js"]).
  left. reflexivity.
Defined.

(** ** Methods recorded by the extractors *)

Lemma extractMethodFromMatch_canonical matchStr :
  In (RESTAnalyzer.extractMethodFromMatch matchStr) http_methods.
Proof.
  unfold RESTAnalyzer.extractMethodFromMatch.
  destruct (List.find _ http_methods) as [m|] eqn:Hfind.
  - by apply find_some in Hfind as [Hin _].
  - by left.
Qed.

Lemma extractMethodFromAnnotation_canonical annotation :
  In (RESTAnalyzer.extractMethodFromAnnotation annotation)
     ["GET"; "POST"; "PUT"; "PATCH"; "DELETE"].
Proof.
  unfold RESTAnalyzer.extractMethodFromAnnotation.
  destruct (List.find _ RESTAnalyzer.annotationMapping) as [[ann m]|] eqn:Hfind.
  - apply find_some in Hfind as [Hin _]. cbn in *.
    repeat (destruct Hin as [[= <- <-] | Hin]; [tauto|]). destruct Hin.
  - by left.
Qed.

Lemma upper_of_lower_char c : Js.upper_char (Js.lower_char c) = Js.upper_char c.
Proof. destruct c as [[] [] [] [] [] [] [] []]; reflexivity. Qed.

Lemma toUpperCase_toLowerCase s :
  Js.toUpperCase (Js.toLowerCase s) = Js.toUpperCase s.
Proof.
  induction s as [|c s IH]; [done|].
  cbn [Js.toLowerCase Js.toUpperCase]. by rewrite upper_of_lower_char, IH.
Qed.

(** X5: the Go, PHP, Ruby and Java extractors only ever record one of the
    seven canonical methods, and the Java extractor none but GET, POST,
    PUT, PATCH and DELETE, whatever the file holds. *)
Theorem text_based_extractors_record_canonical_methods (content filename : string) :
  Forall (fun e => In (EndpointInfo.method e) http_methods)
         (RESTAnalyzer.extractGoEndpoints content filename
          ++ RESTAnalyzer.extractPHPEndpoints content filename
          ++ RESTAnalyzer.extractRubyEndpoints content filename)
  /\ Forall (fun e => In (EndpointInfo.method e)
                        ["GET"; "POST"; "PUT"; "PATCH"; "DELETE"])
            (RESTAnalyzer.extractJavaEndpoints content filename).
Proof.
  assert (Hby : forall r label,
             Forall (fun e => In (EndpointInfo.method e) http_methods)
                    (RESTAnalyzer.extractByMatchedText r label content filename)).
  { intros r label. apply List.Forall_forall. intros e He.
    apply (in_map EndpointInfo.method) in He.
    rewrite extractByMatchedText_methods in He.
    apply in_map_iff in He as (m & <- & _).
    apply extractMethodFromMatch_canonical. }
  split.
  - repeat (apply Forall_app; split); apply Hby.
  - apply List.Forall_forall. intros e He.
    unfold RESTAnalyzer.extractJavaEndpoints in He.
    apply in_map_iff in He as (m & <- & _).
    unfold RESTAnalyzer.mkEndpoint. cbn [EndpointInfo.method].
    pose proof (extractMethodFromAnnotation_canonical (Regex.text m)) as Hm.
    destruct (Js.truthy _); [exact Hm | by left].
Qed.

(** X6: the nodejs analyzer only ever records one of the seven canonical
    methods, per file and after aggregation: a match whose first group is
    not an HTTP verb is dropped by the guard. *)
Theorem nodejs_analyzer_records_canonical_methods
  (content filename : string) (routeFiles appFiles : list (string * string)) :
  Forall (fun e => In (EndpointInfo.method e) http_methods)
         (NodeJSAnalyzer.parseEndpointsFromFile content filename)
  /\ Forall (fun e => In (EndpointInfo.method e) http_methods)
            (NodeJSAnalyzer.extractEndpoints routeFiles appFiles).
Proof.
  assert (Hfile : forall content filename,
             Forall (fun e => In (EndpointInfo.method e) http_methods)
                    (NodeJSAnalyzer.parseEndpointsFromFile content filename)).
  { clear. intros content filename. apply List.Forall_forall. intros e He.
    unfold NodeJSAnalyzer.parseEndpointsFromFile in He.
    apply in_flat_map in He as (pattern & _ & He).
    apply in_flat_map in He as (m & _ & He).
    destruct (Js.array_includes _ http_verbs) eqn:Hverb; [|destruct He].
    destruct He as [<- | []]. cbn [EndpointInfo.method].
    apply array_includes_In in Hverb.
    rewrite <- toUpperCase_toLowerCase.
    cbn in Hverb.
    repeat (destruct Hverb as [<- | Hverb]; [cbn; tauto|]). destruct Hverb. }
  split; [apply Hfile|].
  apply List.Forall_forall. intros e He.
  unfold NodeJSAnalyzer.extractEndpoints, deduplicateEndpoints in He.
  apply dedup_from_In, in_flat_map in He as (f & _ & He).
  pose proof (Hfile (snd f) (fst f)) as H.
  rewrite List.Forall_forall in H. by apply H.
Qed.

(** ** Parameters and paths *)

Lemma remove_chars_free p s : free p (Js.remove_chars p s).
Proof.
  unfold free, Js.chars. induction s as [|c s IH]; cbn; [constructor|].
  destruct (p c) eqn:Hc; [exact IH|]. cbn. by constructor.
Qed.

Lemma substring_all s : String.substring 0 (String.length s) s = s.
Proof. induction s as [|c s IH]; [done|]. cbn. by rewrite IH. Qed.

Lemma replace_all_no_match r f s :
  Regex.exec_all r s = [] -> Regex.replace_all r f s = s.
Proof.
  intros H. unfold Regex.replace_all. rewrite H. cbn.
  rewrite Nat.sub_0_r. apply substring_all.
Qed.

(** X7: every parameter that the rest-api analyzer reads off a path is a
    required path parameter of type string, described by its name, and
    its name holds no brace and no colon. *)
Theorem rest_path_parameters_are_sanitized (path : string) :
  Forall (fun p =>
            Param.in_ p = Some InPath /\ Param.required p = true
            /\ Param.type p = "string"
            /\ Param.description p = Some ("Path parameter: " +:+ Param.name p)
            /\ free RESTAnalyzer.is_brace_or_colon (Param.name p))
         (RESTAnalyzer.extractParametersFromPath path).
Proof.
  unfold RESTAnalyzer.extractParametersFromPath.
  apply List.Forall_forall. intros p Hp.
  apply in_map_iff in Hp as (m & <- & _). cbn.
  repeat split. apply remove_chars_free.
Qed.

(** X8: the path inferred for a Next.js route file always starts with
    /api, and a file name without any directory separator is given the
    path /api/unknown. *)
Theorem nextjs_path_is_under_api (filename : string) :
  Js.startsWith "/api" (RESTAnalyzer.inferNextJsApiPath filename) = true
  /\ (free (Ascii.eqb "/") filename ->
      RESTAnalyzer.inferNextJsApiPath filename = "/api/unknown").
Proof.
  unfold RESTAnalyzer.inferNextJsApiPath. split.
  - destruct (Regex.exec_first _ filename) as [m|]; [|done].
    by destruct (String.eqb _ "/api/").
  - intros Hfree.
    by rewrite (exec_first_requires (Ascii.eqb "/")).
Qed.

Lemma nextjs_path_is_under_api_witness :
  RESTAnalyzer.inferNextJsApiPath "handler.js" = "/api/unknown".
Proof.
  apply (nextjs_path_is_under_api "handler.js").
  unfold free. vm_compute. repeat constructor.
Defined.

(** X9: a path without a colon is stored unchanged by the nodejs analyzer
    and has no path parameter. *)
Theorem colon_free_path_is_kept (path : string) :
  free (Ascii.eqb ":") path ->
  NodeJSAnalyzer.normalizePath path = path /\ pathParamsOf path = [].
Proof.
  intros Hfree.
  assert (Hnone : Regex.exec_all NodeJSAnalyzer.re_colon_param path = [])
    by (by apply (exec_all_requires (Ascii.eqb ":"))).
  split.
  - by apply replace_all_no_match.
  - unfold pathParamsOf. by rewrite Hnone.
Qed.

Lemma colon_free_path_is_kept_witness :
  NodeJSAnalyzer.normalizePath "/api/users" = "/api/users"
  /\ pathParamsOf "/api/users" = [].
Proof.
  apply (colon_free_path_is_kept "/api/users").
  unfold free. vm_compute. repeat constructor.
Defined.

Section QueryInference.
Import NodeJSAnalyzer.

Lemma pushQuery_spec parameters m :
  exists added,
    pushQuery parameters m = parameters ++ added
    /\ Forall isQueryParam added
    /\ (List.NoDup (names parameters) ->
        List.NoDup (names (parameters ++ added))).
Proof.
  unfold pushQuery.
  destruct (existsb _ parameters) eqn:Hseen.
  - exists []. rewrite app_nil_r. by repeat split.
  - eexists [_]. split; [reflexivity|]. split; [by repeat constructor|].
    intros Hnd. unfold names. rewrite map_app. cbn.
    apply List.NoDup_app; [exact Hnd | repeat constructor; intros [] |].
    intros k Hk [<- | []].
    apply in_map_iff in Hk as (p & Hp & Hin).
    assert (Hex : existsb
               (fun p => String.eqb (Param.name p)
                           (default "" (Regex.group 1 m))) parameters = true).
    { apply existsb_exists. exists p. split; [exact Hin|].
      by apply String.eqb_eq. }
    congruence.
Qed.

Lemma fold_pushQuery_spec ms : forall parameters,
  exists added,
    fold_left pushQuery ms parameters = parameters ++ added
    /\ Forall isQueryParam added
    /\ (List.NoDup (names parameters) ->
        List.NoDup (names (parameters ++ added))).
Proof.
  induction ms as [|m ms IH]; intros parameters; cbn [fold_left].
  - exists []. rewrite app_nil_r. by repeat split.
  - destruct (pushQuery_spec parameters m) as (a1 & -> & F1 & N1).
    destruct (IH (parameters ++ a1)) as (a2 & -> & F2 & N2).
    exists (a1 ++ a2). rewrite app_assoc. split; [done|].
    split; [by apply Forall_app|]. intros Hnd. by apply N2, N1.
Qed.
End QueryInference.

(** X10: the parameters inferred by the nodejs analyzer are the path
    parameters, in path order, followed by optional string-typed query
    parameters; and the inference of query parameters never introduces a
    repeated name: when the path parameters have distinct names, so has
    the whole list. *)
Theorem nodejs_parameters_path_first_then_query (path content : string) (position : nat) :
  exists queries,
    NodeJSAnalyzer.extractParameters path content position
    = pathParamsOf path ++ queries
    /\ Forall isQueryParam queries
    /\ (List.NoDup (names (pathParamsOf path)) ->
        List.NoDup (names (NodeJSAnalyzer.extractParameters path content position))).
Proof.
  unfold NodeJSAnalyzer.extractParameters. fold (pathParamsOf path).
  cbn [NodeJSAnalyzer.queryPatterns fold_left].
  destruct (fold_pushQuery_spec
              (Regex.exec_all NodeJSAnalyzer.re_req_query
                 (Js.substring (Nat.max 0 (position - 500))
                    (Nat.min (String.length content) (position + 500)) content))
              (pathParamsOf path)) as (a1 & E1 & F1 & N1).
  rewrite E1.
  destruct (fold_pushQuery_spec
              (Regex.exec_all NodeJSAnalyzer.re_query
                 (Js.substring (Nat.max 0 (position - 500))
                    (Nat.min (String.length content) (position + 500)) content))
              (pathParamsOf path ++ a1)) as (a2 & E2 & F2 & N2).
  rewrite E2. exists (a1 ++ a2). rewrite app_assoc.
  split; [done|]. split; [by apply Forall_app|].
  intros Hnd. by apply N2, N1.
Qed.

Lemma nodejs_parameters_path_first_then_query_witness :
  List.NoDup (names (NodeJSAnalyzer.extractParameters
                       "/users/:page" escapedQueryAccess 0)).
Proof.
  destruct (nodejs_parameters_path_first_then_query
              "/users/:page" escapedQueryAccess 0) as (queries & _ & _ & Hnd).
  apply Hnd. vm_compute. repeat constructor; intros [].
Defined.


(** ** The trace of a generation run *)

Section RunTrace.
Import MCPGenerator.

Variable path_join : list string -> string.
Variable path_relative : string -> string -> string.
Variable path_dirname : string -> string.
Variable path_resolve : string -> string.
Variable cfg : MCPConfig.t.

Lemma flat_map_map {X Y Z} (g : X -> Y) (f : Y -> list Z) (xs : list X) :
  flat_map f (map g xs) = flat_map (fun x => f (g x)) xs.
Proof. induction xs as [|x xs IH]; [done|]. cbn. by rewrite IH. Qed.

Lemma flat_map_singleton {X Y} (f : X -> Y) (xs : list X) :
  flat_map (fun x => [f x]) xs = map f xs.
Proof. induction xs as [|x xs IH]; [done|]. cbn. by rewrite IH. Qed.

(** The real run: the skeleton directories, then each file of the layout
    in turn, between the opening and the closing messages. *)
Lemma real_run_trace pi outputPath_ :
  generate path_join path_relative path_dirname path_resolve cfg pi outputPath_ false
  = [ConsoleLog (Generating (ProjectInfo.name pi))]
    ++ map (fun dir => EnsureDir (path_join [path_resolve outputPath_; dir]))
           (skeleton cfg)
    ++ flat_map (writes path_relative path_dirname (path_resolve outputPath_))
                (layout path_join cfg pi (path_resolve outputPath_))
    ++ [ConsoleLog (GeneratedAt outputPath_);
        ConsoleLog NextSteps;
        ConsoleLog (Step ("  1. cd " +:+ outputPath_));
        ConsoleLog (Step "  2. npm install");
        ConsoleLog (Step "  3. npm run build");
        ConsoleLog (Step "  4. npm start")].
Proof.
  unfold generate, layout, createDirectoryStructure, generateServerFiles,
    generateToolFiles, generateConfigFiles, generateTestFiles,
    generateDocumentation, writeFile, skeleton.
  cbn [dryRun outputPath negb].
  rewrite !flat_map_app, !flat_map_map.
  destruct (MCPConfig.outputFormat cfg), (MCPConfig.includeTests cfg),
    (MCPConfig.includeDocumentation cfg);
    cbn [flat_map app map fst snd];
    rewrite ?flat_map_map, ?app_nil_r, <- ?app_assoc; reflexivity.
Qed.

(** The dry run: one message per skeleton directory and one per file. *)
Lemma dry_run_trace pi outputPath_ :
  generate path_join path_relative path_dirname path_resolve cfg pi outputPath_ true
  = [ConsoleLog (Generating (ProjectInfo.name pi)); ConsoleLog DryRunMode]
    ++ map (fun dir =>
              ConsoleLog (WouldCreateDirectory
                            (path_join [path_resolve outputPath_; dir])))
           (skeleton cfg)
    ++ map (announces path_relative (path_resolve outputPath_))
           (layout path_join cfg pi (path_resolve outputPath_)).
Proof.
  unfold generate, layout, createDirectoryStructure, generateServerFiles,
    generateToolFiles, generateConfigFiles, generateTestFiles,
    generateDocumentation, writeFile, skeleton.
  cbn [dryRun outputPath negb].
  rewrite !map_app, !map_map, !flat_map_singleton.
  destruct (MCPConfig.outputFormat cfg), (MCPConfig.includeTests cfg),
    (MCPConfig.includeDocumentation cfg);
    cbn [flat_map app map fst snd];
    rewrite ?flat_map_singleton, ?map_map, ?app_nil_r, <- ?app_assoc; reflexivity.
Qed.
End RunTrace.

Section RunProps.
Import MCPGenerator.

Variable path_join : list string -> string.
Variable path_relative : string -> string -> string.
Variable path_dirname : string -> string.
Variable path_resolve : string -> string.
Variable cfg : MCPConfig.t.

Lemma writtenFiles_writes out files :
  writtenFiles (flat_map (writes path_relative path_dirname out) files) = files.
Proof.
  induction files as [|[p c] files IH]; [done|].
  cbn [flat_map writes fst snd app]. unfold writtenFiles in *. cbn. by rewrite IH.
Qed.

Lemma writtenFiles_ensureDirs (dirs : list string) (g : string -> string) :
  writtenFiles (map (fun dir => EnsureDir (g dir)) dirs) = [].
Proof. induction dirs as [|d dirs IH]; [done|]. exact IH. Qed.

Lemma ensuredDirs_writes out files :
  ensuredDirs (flat_map (writes path_relative path_dirname out) files)
  = map (fun f => path_dirname (fst f)) files.
Proof.
  induction files as [|[p c] files IH]; [done|].
  cbn [flat_map writes fst snd app map]. unfold ensuredDirs in *. cbn.
  by rewrite IH.
Qed.

Lemma ensuredDirs_ensureDirs (dirs : list string) (g : string -> string) :
  ensuredDirs (map (fun dir => EnsureDir (g dir)) dirs) = map g dirs.
Proof.
  induction dirs as [|d dirs IH]; [done|].
  unfold ensuredDirs in *. cbn. by rewrite IH.
Qed.

Lemma announcedDirs_would (dirs : list string) (g : string -> string) :
  announcedDirs (map (fun dir => ConsoleLog (WouldCreateDirectory (g dir))) dirs)
  = map g dirs.
Proof.
  induction dirs as [|d dirs IH]; [done|].
  unfold announcedDirs in *. cbn. by rewrite IH.
Qed.

Lemma announcedDirs_announces out files :
  announcedDirs (map (announces path_relative out) files) = [].
Proof. induction files as [|f files IH]; [done|]. exact IH. Qed.

Lemma written_files_are_the_layout pi outputPath_ :
  writtenFiles
    (generate path_join path_relative path_dirname path_resolve cfg pi outputPath_ false)
  = layout path_join cfg pi (path_resolve outputPath_).
Proof.
  rewrite real_run_trace. unfold writtenFiles. rewrite !flat_map_app.
  fold (writtenFiles
          (map (fun dir => EnsureDir (path_join [path_resolve outputPath_; dir]))
               (skeleton cfg))).
  fold (writtenFiles
          (flat_map (writes path_relative path_dirname (path_resolve outputPath_))
                    (layout path_join cfg pi (path_resolve outputPath_)))).
  rewrite writtenFiles_ensureDirs, writtenFiles_writes.
  cbn [flat_map app]. apply app_nil_r.
Qed.

Lemma layout_templates pi out :
  Forall (fun file =>
            match templateOf (snd file) with
            | Some name => In name TemplateManager.builtinTemplates
            | None => True
            end)
         (layout path_join cfg pi out).
Proof.
  unfold layout.
  repeat (apply Forall_app; split);
    try (destruct (MCPConfig.outputFormat cfg));
    try (destruct (MCPConfig.includeTests cfg));
    try (destruct (MCPConfig.includeDocumentation cfg));
    repeat first
      [ apply List.Forall_nil
      | apply List.Forall_cons; [cbn; tauto|]
      | apply List.Forall_forall; intros file Hf;
        apply in_map_iff in Hf as (e & <- & _); cbn; tauto ].
Qed.
End RunProps.

(** X11: a real run writes exactly the files of the layout, in its order
    and with its contents: the entry point, the manifest, the compiler
    configuration for TypeScript only, one tool file per endpoint that is
    not excluded, the tools index, the environment example and the README;
    with tests enabled, the test setup and one test per endpoint; with
    documentation enabled, the API document; and nothing else. *)
Theorem real_run_writes_the_layout
  (path_join : list string -> string)
  (path_relative : string -> string -> string)
  (path_dirname path_resolve : string -> string)
  (cfg : MCPConfig.t) (pi : ProjectInfo.t) (outputPath : string) :
  MCPGenerator.writtenFiles
    (MCPGenerator.generate path_join path_relative path_dirname path_resolve
       cfg pi outputPath false)
  = layout path_join cfg pi (path_resolve outputPath).
Proof. apply written_files_are_the_layout. Qed.

(** X12: every template that a run renders a file from is one of the nine
    built-in templates, so a run without override files never asks for a
    template that the table of built-in templates lacks. *)
Theorem run_uses_builtin_templates_only
  (path_join : list string -> string)
  (path_relative : string -> string -> string)
  (path_dirname path_resolve : string -> string)
  (cfg : MCPConfig.t) (pi : ProjectInfo.t) (outputPath : string) :
  Forall (fun file =>
            match templateOf (snd file) with
            | Some name => In name TemplateManager.builtinTemplates
            | None => True
            end)
         (MCPGenerator.writtenFiles
            (MCPGenerator.generate path_join path_relative path_dirname
               path_resolve cfg pi outputPath false)).
Proof. rewrite written_files_are_the_layout. apply layout_templates; assumption. Qed.

(** X13: in a real run every file write comes right after the creation
    of the directory that is to hold the file. *)
Theorem every_write_follows_its_directory
  (path_join : list string -> string)
  (path_relative : string -> string -> string)
  (path_dirname path_resolve : string -> string)
  (cfg : MCPConfig.t) (pi : ProjectInfo.t) (outputPath filePath : string)
  (content : MCPGenerator.FileContent) :
  let run := MCPGenerator.generate path_join path_relative path_dirname
               path_resolve cfg pi outputPath false in
  In (MCPGenerator.WriteFile filePath content) run ->
  exists before after,
    run = before
          ++ MCPGenerator.EnsureDir (path_dirname filePath)
             :: MCPGenerator.WriteFile filePath content :: after.
Proof.
  intros run Hin. subst run. rewrite real_run_trace in *.
  set (out := path_resolve outputPath) in *.
  set (files := layout path_join cfg pi out) in *.
  apply in_app_or in Hin as [Hin | Hin];
    [destruct Hin as [Hin | []]; discriminate Hin|].
  apply in_app_or in Hin as [Hin | Hin];
    [apply in_map_iff in Hin as (d & Hd & _); discriminate Hd|].
  apply in_app_or in Hin as [Hin | Hin];
    [|repeat (destruct Hin as [Hin | Hin]; [discriminate Hin|]); destruct Hin].
  apply in_flat_map in Hin as ([p c] & Hfile & Hin).
  cbn in Hin. destruct Hin as [Hin | [Hin | [Hin | []]]]; try discriminate Hin.
  injection Hin as -> ->.
  apply in_split in Hfile as (l1 & l2 & ->).
  rewrite flat_map_app. cbn [flat_map writes fst snd app].
  exists ([MCPGenerator.ConsoleLog (MCPGenerator.Generating (ProjectInfo.name pi))]
          ++ map (fun dir => MCPGenerator.EnsureDir (path_join [out; dir]))
                 (skeleton cfg)
          ++ flat_map (writes path_relative path_dirname out) l1).
  exists (MCPGenerator.ConsoleLog (MCPGenerator.Created (path_relative out filePath))
          :: flat_map (writes path_relative path_dirname out) l2
          ++ [MCPGenerator.ConsoleLog (MCPGenerator.GeneratedAt outputPath);
              MCPGenerator.ConsoleLog MCPGenerator.NextSteps;
              MCPGenerator.ConsoleLog (MCPGenerator.Step ("  1. cd " +:+ outputPath));
              MCPGenerator.ConsoleLog (MCPGenerator.Step "  2. npm install");
              MCPGenerator.ConsoleLog (MCPGenerator.Step "  3. npm run build");
              MCPGenerator.ConsoleLog (MCPGenerator.Step "  4. npm start")]).
  rewrite <- !app_assoc. cbn [app]. reflexivity.
Qed.

Lemma every_write_follows_its_directory_witness :
  exists before after,
    shopRun = before
              ++ MCPGenerator.EnsureDir "/out/src/tools"
                 :: MCPGenerator.WriteFile "/out/src/tools/getUsers.ts"
                      (MCPGenerator.Rendered "tool.ts"
                         (MCPGenerator.Data (Some shopConfig) (Some shopProject)
                            None (Some usersEndpoint)))
                 :: after.
Proof.
  apply (every_write_follows_its_directory Path.joinAll Path.relative
           Path.dirname Path.resolve shopConfig shopProject "/out"
           "/out/src/tools/getUsers.ts").
  vm_compute. tauto.
Defined.

(** X14: a dry run announces exactly the directories of the skeleton,
    under the output directory; a real run creates these first and then,
    before each file, the directory of that file, and no other. *)
Theorem directories_of_a_run
  (path_join : list string -> string)
  (path_relative : string -> string -> string)
  (path_dirname path_resolve : string -> string)
  (cfg : MCPConfig.t) (pi : ProjectInfo.t) (outputPath : string) :
  let run := MCPGenerator.generate path_join path_relative path_dirname
               path_resolve cfg pi outputPath in
  let under := fun dir => path_join [path_resolve outputPath; dir] in
  announcedDirs (run true) = map under (skeleton cfg)
  /\ ensuredDirs (run false)
     = map under (skeleton cfg)
       ++ map path_dirname (MCPGenerator.writtenPaths (run false)).
Proof.
  intros run under. subst run. split.
  - rewrite dry_run_trace. unfold announcedDirs. rewrite !flat_map_app.
    fold (announcedDirs
            (map (fun dir => MCPGenerator.ConsoleLog
                    (MCPGenerator.WouldCreateDirectory (under dir))) (skeleton cfg))).
    fold (announcedDirs
            (map (announces path_relative (path_resolve outputPath))
                 (layout path_join cfg pi (path_resolve outputPath)))).
    rewrite announcedDirs_would, announcedDirs_announces.
    cbn [flat_map app]. apply app_nil_r.
  - assert (Hpaths : forall evs,
               MCPGenerator.writtenPaths evs = map fst (MCPGenerator.writtenFiles evs)).
    { clear. induction evs as [|[d|p c|l] evs IH]; [done| | |];
        unfold MCPGenerator.writtenPaths, MCPGenerator.writtenFiles in *;
        cbn; by rewrite IH. }
    rewrite Hpaths, written_files_are_the_layout, map_map.
    rewrite real_run_trace. unfold ensuredDirs. rewrite !flat_map_app.
    fold (ensuredDirs
            (map (fun dir => MCPGenerator.EnsureDir (under dir)) (skeleton cfg))).
    fold (ensuredDirs
            (flat_map (writes path_relative path_dirname (path_resolve outputPath))
                      (layout path_join cfg pi (path_resolve outputPath)))).
    rewrite ensuredDirs_ensureDirs, ensuredDirs_writes.
    cbn [flat_map app]. by rewrite app_nil_r.
Qed.

(** ** The environment example *)

Lemma chars_append a b : Js.chars (a +:+ b) = Js.chars a ++ Js.chars b.
Proof.
  unfold Js.chars. induction a as [|c a IH]; [done|].
  change (String c a +:+ b) with (String c (a +:+ b)). cbn. by rewrite IH.
Qed.

Lemma free_append p a b : free p a -> free p b -> free p (a +:+ b).
Proof. unfold free. rewrite chars_append. intros. by apply Forall_app. Qed.

(** X15: the environment example is a single line: unless the base URL
    of the project itself holds a line break, the generated text holds
    none (each of its entries ends with a backslash and the letter n). *)
Theorem env_file_is_a_single_line (pi : ProjectInfo.t) :
  (forall baseUrl, ProjectInfo.baseUrl pi = Some baseUrl ->
                   free Js.is_line_terminator baseUrl) ->
  free Js.is_line_terminator (MCPGenerator.generateEnvFile pi).
Proof.
  intros Hurl. unfold MCPGenerator.generateEnvFile.
  assert (Hlit : forall s, Forall (fun c => Js.is_line_terminator c = false)
                             (Js.chars s) -> free Js.is_line_terminator s)
    by done.
  repeat apply free_append; try (apply Hlit; vm_compute; by repeat constructor).
  destruct (ProjectInfo.baseUrl pi) as [baseUrl|] eqn:E.
  - destruct (Js.truthy baseUrl).
    + repeat apply free_append;
        try (apply Hlit; vm_compute; by repeat constructor).
      by apply Hurl.
    + repeat apply free_append; apply Hlit; vm_compute; by repeat constructor.
  - repeat apply free_append; apply Hlit; vm_compute; by repeat constructor.
Qed.

Lemma env_file_is_a_single_line_witness :
  free Js.is_line_terminator (MCPGenerator.generateEnvFile shopProject).
Proof.
  apply (env_file_is_a_single_line shopProject). intros baseUrl H. discriminate H.
Defined.

(** ** The template cache *)

Section CacheProps.
Import TemplateCache.

Variable Template : Type.
Variable compile : string -> Template.
Variable builtin : string -> option string.
Variable templatePath : string -> string.

Lemma getBuiltinTemplate_error name message :
  getBuiltinTemplate builtin name = Error message ->
  message = "Template not found: " +:+ name
  /\ (builtin name = Some "" \/ (builtin name = None /\ inherited name = None)).
Proof.
  unfold getBuiltinTemplate, member. destruct (builtin name) as [content|].
  - destruct content; cbn [Js.truthy]; [|done].
    intros [= <-]. split; [done | by left].
  - destruct (inherited name); cbn; [done|]. intros [= <-].
    split; [done | by right].
Qed.

Lemma getBuiltinTemplate_inherited name shown :
  getBuiltinTemplate builtin name = Ok (Inherited shown) ->
  builtin name = None /\ inherited name = Some shown.
Proof.
  unfold getBuiltinTemplate, member. destruct (builtin name) as [content|].
  - by destruct (Js.truthy content).
  - destruct (inherited name); cbn; [|done]. by intros [= <-].
Qed.
End CacheProps.

(** X16: once a template has been obtained it is served from the cache:
    asking again gives the same compiled template and leaves the cache as
    it is, whatever the disk holds by then; and obtaining a template does
    not touch the cache entries of other names. *)
Theorem cached_template_is_stable
  (Template : Type) (compile : string -> Template)
  (builtin : string -> option string) (templatePath : string -> string)
  (disk : TemplateCache.Disk) (templates templates' : gmap string Template)
  (name : string) (template : Template) :
  TemplateCache.getTemplate Template compile builtin templatePath disk templates name
  = (Ok template, templates') ->
  (forall disk',
     TemplateCache.getTemplate Template compile builtin templatePath disk'
       templates' name
     = (Ok template, templates'))
  /\ (forall other, other <> name -> templates' !! other = templates !! other).
Proof.
  unfold TemplateCache.getTemplate.
  destruct (templates !! name) as [cached|] eqn:Hlookup.
  - intros [= <- <-]. split; [|done]. intros disk'. by rewrite Hlookup.
  - destruct (match disk (templatePath name) with
              | Some (File c) => Ok (TemplateCache.Text c)
              | Some Directory => Error EISDIR
              | None => TemplateCache.getBuiltinTemplate builtin name
              end) as [content|message]; [|done].
    destruct (TemplateCache.Handlebars_compile Template compile content)
      as [compiled|message]; [|done].
    intros [= <- <-]. split.
    + intros disk'. by rewrite lookup_insert_eq.
    + intros other Hne. by rewrite lookup_insert_ne.
Qed.

Lemma cached_template_is_stable_witness :
  TemplateCache.getTemplate string id oneTemplate overridesAt oneOverride
    (<["tool.ts" := "// Tool"]> ∅) "tool.ts"
  = (Ok "// Tool", <["tool.ts" := "// Tool"]> ∅).
Proof.
  apply (cached_template_is_stable string id oneTemplate overridesAt emptyDisk
           ∅ (<["tool.ts" := "// Tool"]> ∅) "tool.ts" "// Tool").
  reflexivity.
Defined.

(** X17: a request that fails caches nothing: the cache is left as it
    was, and a later request finds an override file that has appeared in
    the meantime.  A request fails in three ways only: the override path
    is a directory, which cannot be read; or there is no override and the
    name is neither an entry of the table nor a member that the table
    inherits as a plain object, which is reported as a template not
    found; or there is no override and the name is such an inherited
    member (constructor, toString and the like), which passes the table
    and is refused by the template compiler. *)
Theorem missing_template_is_not_cached
  (Template : Type) (compile : string -> Template)
  (builtin : string -> option string) (templatePath : string -> string)
  (disk : TemplateCache.Disk) (templates templates' : gmap string Template)
  (name message : string) :
  TemplateCache.getTemplate Template compile builtin templatePath disk templates name
  = (Error message, templates') ->
  templates' = templates
  /\ templates !! name = None
  /\ ((disk (templatePath name) = Some Directory /\ message = EISDIR)
      \/ (disk (templatePath name) = None
          /\ message = "Template not found: " +:+ name
          /\ (builtin name = Some ""
              \/ (builtin name = None /\ TemplateCache.inherited name = None)))
      \/ (exists shown,
            disk (templatePath name) = None
            /\ builtin name = None
            /\ TemplateCache.inherited name = Some shown
            /\ message = TemplateCache.refusal shown))
  /\ (forall disk' content,
        disk' (templatePath name) = Some (File content) ->
        TemplateCache.getTemplate Template compile builtin templatePath disk'
          templates' name
        = (Ok (compile content), <[name := compile content]> templates)).
Proof.
  unfold TemplateCache.getTemplate.
  destruct (templates !! name) as [cached|] eqn:Hlookup; [done|].
  assert (Hlater : forall disk' content,
             disk' (templatePath name) = Some (File content) ->
             match templates !! name with
             | Some template => (Ok template, templates)
             | None =>
                 match
                   match disk' (templatePath name) with
                   | Some (File c) => Ok (TemplateCache.Text c)
                   | Some Directory => Error EISDIR
                   | None => TemplateCache.getBuiltinTemplate builtin name
                   end
                 with
                 | Ok v =>
                     match TemplateCache.Handlebars_compile Template compile v with
                     | Ok template => (Ok template, <[name := template]> templates)
                     | Error m => (Error m, templates)
                     end
                 | Error m => (Error m, templates)
                 end
             end
             = (Ok (compile content), <[name := compile content]> templates))
    by (intros disk' content Hdisk; by rewrite Hlookup, Hdisk).
  destruct (disk (templatePath name)) as [[content|]|] eqn:Hdisk.
  - done.
  - intros [= <- <-]. split; [done|]. split; [done|]. split; [by left | done].
  - destruct (TemplateCache.getBuiltinTemplate builtin name) as [value|msg] eqn:Hb.
    + destruct value as [content|shown]; [done|]. cbn.
      intros [= <- <-]. apply getBuiltinTemplate_inherited in Hb as [Hown Hmember].
      split; [done|]. split; [done|]. split; [|done].
      right. right. by exists shown.
    + intros [= <- <-]. apply getBuiltinTemplate_error in Hb as [-> Hb].
      split; [done|]. split; [done|]. split; [|done].
      right. left. done.
Qed.

Lemma missing_template_is_not_cached_witness :
  TemplateCache.getTemplate string id noTemplate overridesAt
    (fun path =>
       if String.eqb path "templates/constructor.hbs" then Some (File "// Mine")
       else None)
    ∅ "constructor"
  = (Ok "// Mine", <["constructor" := "// Mine"]> ∅).
Proof.
  assert (H : TemplateCache.getTemplate string id noTemplate overridesAt
                emptyDisk ∅ "constructor"
              = (Error (TemplateCache.refusal
                          (TemplateCache.nativeFunction "Object")), ∅))
    by reflexivity.
  apply (missing_template_is_not_cached string id noTemplate overridesAt
           emptyDisk ∅ ∅ "constructor"
           (TemplateCache.refusal (TemplateCache.nativeFunction "Object"))) in H
    as (_ & _ & _ & H).
  apply (H (fun path =>
              if String.eqb path "templates/constructor.hbs"
              then Some (File "// Mine") else None) "// Mine").
  reflexivity.
Defined.

(** ** Project type detection and the entry point *)

Lemma distinct_nil paths : Glob.distinct [] paths = [] <-> paths = [].
Proof. destruct paths; cbn; [done|]. split; discriminate. Qed.

Lemma glob_nonempty pattern listing :
  Glob.glob pattern listing <> []
  <-> exists entry, In entry (Glob.entries listing) /\ pattern (fst entry) = true.
Proof.
  unfold Glob.glob. rewrite distinct_nil. split.
  - destruct (List.filter pattern (map fst (Glob.entries listing)))
      as [|rel rels] eqn:Hfilter; [done|]. intros _.
    assert (Hin : In rel (List.filter pattern (map fst (Glob.entries listing))))
      by (rewrite Hfilter; by left).
    apply filter_In in Hin as [Hin Hpat].
    apply in_map_iff in Hin as (entry & <- & Hin). by exists entry.
  - intros (entry & Hin & Hpat) Hnone.
    assert (Hrel : In (fst entry)
                      (List.filter pattern (map fst (Glob.entries listing))))
      by (apply filter_In; split; [by apply in_map | done]).
    by rewrite Hnone in Hrel.
Qed.

(** X18: detection always answers one of the three supported project
    types, and it answers openapi exactly when the search for an OpenAPI
    or Swagger specification returns something, that is when something
    below the root, a file or a directory, bears one of the six names
    outside node_modules and outside hidden directories; when the search
    returns nothing, a package manifest at the root makes it answer
    nodejs. *)
Theorem detection_answers_a_supported_type (listing : Listing) :
  In (ProjectAnalyzer.detectProjectType listing) ["openapi"; "nodejs"; "rest-api"]
  /\ (ProjectAnalyzer.detectProjectType listing = "openapi"
      <-> Glob.glob Glob.openApiPattern listing <> [])
  /\ (Glob.glob Glob.openApiPattern listing <> []
      <-> exists entry, In entry (Glob.entries listing)
                        /\ Glob.openApiPattern (fst entry) = true)
  /\ (Glob.glob Glob.openApiPattern listing = [] ->
      pathExists listing "package.json" = true ->
      ProjectAnalyzer.detectProjectType listing = "nodejs").
Proof.
  split; [|split; [|split; [apply glob_nonempty|]]];
    unfold ProjectAnalyzer.detectProjectType;
    destruct (Glob.glob Glob.openApiPattern listing) as [|spec specs].
  - destruct (pathExists listing "package.json"); [cbn; tauto|].
    destruct (Glob.glob Glob.apiPattern listing);
      [destruct (Glob.glob Glob.codePattern listing)|]; cbn; tauto.
  - cbn; tauto.
  - split; [|intros H; by destruct H].
    destruct (pathExists listing "package.json"); [discriminate|].
    destruct (Glob.glob Glob.apiPattern listing);
      [destruct (Glob.glob Glob.codePattern listing)|]; discriminate.
  - split; [discriminate | done].
  - by intros _ ->.
  - done.
Qed.

Lemma detection_answers_a_supported_type_witness :
  ProjectAnalyzer.detectProjectType notesListing = "openapi".
Proof.
  apply (detection_answers_a_supported_type notesListing).
  vm_compute. discriminate.
Defined.

(** X19: the analysis of a path that does not exist fails with the
    resolved path in its message, whatever type is asked for; for a path
    that exists, a type other than auto, openapi, nodejs and rest-api is
    refused by name. *)
Theorem analyze_rejects_bad_input
  (json : Type) (JSON_parse : string -> result json)
  (projectInfoOfSpec : string -> json -> result ProjectInfo.t)
  (path_resolve : string -> string)
  (nodeAnalyze restAnalyze : Listing -> string -> result ProjectInfo.t)
  (fs : FileSystem) (projectPath type : string) :
  let analyze :=
    ProjectAnalyzer.analyze json JSON_parse projectInfoOfSpec path_resolve
      nodeAnalyze restAnalyze fs projectPath type in
  (fs (path_resolve projectPath) = None ->
   analyze = Error ("Project path does not exist: " +:+ path_resolve projectPath))
  /\ (fs (path_resolve projectPath) <> None ->
      ~ In type ["auto"; "openapi"; "nodejs"; "rest-api"] ->
      analyze = Error ("Unsupported project type: " +:+ type)).
Proof.
  intros analyze. subst analyze. unfold ProjectAnalyzer.analyze. split.
  - by intros ->.
  - intros Hfs Htype.
    destruct (fs (path_resolve projectPath)) as [listing|]; [|done].
    assert (Hne : forall t, In t ["auto"; "openapi"; "nodejs"; "rest-api"] ->
                            String.eqb type t = false).
    { intros t Hin. apply String.eqb_neq. intros ->. by apply Htype. }
    rewrite !Hne; [done | cbn; tauto ..].
Qed.

Lemma analyze_rejects_bad_input_witness :
  ProjectAnalyzer.analyze string Ok petstoreInfo Path.resolve noAnalysis noAnalysis
    emptyFileSystem "/srv/nowhere" "graphql"
  = Error "Project path does not exist: /srv/nowhere".
Proof.
  apply (analyze_rejects_bad_input string Ok petstoreInfo Path.resolve
           noAnalysis noAnalysis emptyFileSystem "/srv/nowhere" "graphql").
  reflexivity.
Defined.

(** X20: the first path that the search returns decides the analysis of
    an OpenAPI project.  Without any the analysis fails for want of a
    specification.  A directory of a matching name cannot be read, and
    the analysis fails with the error of the read.  A .json file is
    parsed, and the analysis is the parser's error or else whatever the
    construction of the project description gives, a description or its
    own failure.  A .yaml or .yml file gives the YAML error.  There is no
    other case: what the search returns exists and has one of the three
    extensions, so the branch for an unsupported format is never taken. *)
Theorem openapi_analysis_outcomes
  (json : Type) (JSON_parse : string -> result json)
  (projectInfoOfSpec : string -> json -> result ProjectInfo.t)
  (listing : Listing) (projectPath : string) :
  let analysis :=
    ProjectAnalyzer.openApiAnalyze json JSON_parse projectInfoOfSpec listing
      projectPath in
  match Glob.glob Glob.openApiPattern listing with
  | [] => analysis = Error "No OpenAPI/Swagger files found"
  | specFile :: _ =>
      match Glob.stat listing specFile with
      | None => False
      | Some Directory => analysis = Error EISDIR
      | Some (File content) =>
          (Path.extname specFile = ".json"
           /\ analysis
              = match JSON_parse content with
                | Ok spec => projectInfoOfSpec projectPath spec
                | Error message => Error message
                end)
          \/ ((Path.extname specFile = ".yaml" \/ Path.extname specFile = ".yml")
              /\ analysis = Error yamlError)
      end
  end.
Proof.
  intros analysis. subst analysis. unfold ProjectAnalyzer.openApiAnalyze.
  destruct (Glob.glob Glob.openApiPattern listing) as [|specFile more] eqn:Hglob;
    [done|].
  assert (Hin : In specFile (Glob.glob Glob.openApiPattern listing))
    by (rewrite Hglob; by left).
  apply glob_In in Hin as [Hpat [entry Hstat]].
  unfold readFile. rewrite Hstat.
  destruct entry as [content|]; [|done].
  unfold ProjectAnalyzer.parseOpenAPISpec.
  destruct (openApiPattern_extname projectPath specFile Hpat) as [-> Hext].
  destruct Hext as [E | [E | E]]; rewrite E.
  - left. split; [done|]. cbn. by destruct (JSON_parse content).
  - right. split; [by left | done].
  - right. split; [by right | done].
Qed.

(** ** Identifiers *)

Section IdentifierProps.
Import TemplateManager.







Lemma join_empty_cons part parts :
  Js.join "" (part :: parts) = part +:+ Js.join "" parts.
Proof.
  destruct parts as [|next parts]; [|done].
  cbn. by rewrite append_empty_r.
Qed.

Lemma join_empty_map_filter (f : string -> string) parts :
  f "" = "" ->
  Js.join "" (map f (List.filter nonEmpty parts)) = Js.join "" (map f parts).
Proof.
  intros Hf. induction parts as [|part parts IH]; [done|].
  cbn [List.filter map]. rewrite join_empty_cons.
  destruct part as [|c part]; cbn [nonEmpty String.eqb negb].
  - by rewrite Hf, IH.
  - cbn [map]. by rewrite join_empty_cons, IH.
Qed.


Lemma split_remove_chars p sep s :
  p sep = false ->
  Js.split sep (Js.remove_chars p s) = map (Js.remove_chars p) (Js.split sep s).
Proof.
  intros Hsep. induction s as [|c s IH]; [done|].
  cbn [Js.remove_chars Js.split].
  destruct (Ascii.eqb_spec c sep) as [-> | Hne].
  - rewrite Hsep. cbn [Js.split]. rewrite Ascii.eqb_refl, IH. done.
  - pose proof (split_nonempty sep s) as Hnonempty.
    destruct (p c) eqn:Hc.
    + rewrite IH. destruct (Js.split sep s) as [|part parts]; [done|].
      cbn [map Js.remove_chars]. by rewrite Hc.
    + cbn [Js.split]. destruct (Ascii.eqb_spec c sep) as [|_]; [done|].
      rewrite IH. destruct (Js.split sep s) as [|part parts]; [done|].
      cbn [map Js.remove_chars]. by rewrite Hc.
Qed.

Lemma generateToolName_stem e :
  MCPGenerator.generateToolName e
  = Js.toLowerCase (EndpointInfo.method e) +:+ capitalizedStem (EndpointInfo.path e).
Proof.
  unfold MCPGenerator.generateToolName, capitalizedStem, stripped.
  rewrite pathParts_nonEmptySegments. unfold nonEmptySegments.
  rewrite (join_empty_map_filter
             (fun part => Js.capitalize (Js.remove_chars is_brace_or_colon part)))
    by done.
  by rewrite split_remove_chars, map_map.
Qed.

Lemma methodName_stem method path :
  methodName method path
  = "handle" +:+ Js.capitalize method +:+ capitalizedStem path.
Proof.
  unfold methodName, capitalizedStem, stripped.
  rewrite pathParts_nonEmptySegments. unfold nonEmptySegments.
  rewrite (join_empty_map_filter
             (fun part => Js.capitalize (Js.remove_chars is_brace_or_colon part)))
    by done.
  by rewrite split_remove_chars, map_map.
Qed.

End IdentifierProps.







(** The Flask route of the sample project: the file is written under one
    name and imported under another. *)
Lemma flask_route_is_imported_under_another_name :
  MCPGenerator.generateToolName
    (EndpointInfo.Build "/api/products/<int:id>" "GET" None None)
  = "getApiProducts<intid>"
  /\ TemplateManager.escapeExpression
       (TemplateManager.safeFileName "GET" "/api/products/<int:id>")
     = "getApiProducts&lt;intid&gt;".
Proof. split; reflexivity. Qed.

(** X22: the file stem and the handler name of an endpoint depend on its
    path only through the path without braces and colons: two paths that
    differ in these characters alone, such as an Express-style and a
    braces-style spelling of the same route, get the same file stem and
    the same handler name for a given method. *)
Theorem identifiers_ignore_braces_and_colons
  (method path1 path2 : string) (d1 d2 : option string)
  (ps1 ps2 : option (list Param.t)) :
  stripped path1 = stripped path2 ->
  MCPGenerator.generateToolName (EndpointInfo.Build path1 method d1 ps1)
  = MCPGenerator.generateToolName (EndpointInfo.Build path2 method d2 ps2)
  /\ TemplateManager.methodName method path1
     = TemplateManager.methodName method path2.
Proof.
  intros Hs. rewrite !generateToolName_stem, !methodName_stem.
  unfold capitalizedStem. cbn [EndpointInfo.path EndpointInfo.method].
  by rewrite Hs.
Qed.

Lemma identifiers_ignore_braces_and_colons_witness :
  MCPGenerator.generateToolName (EndpointInfo.Build "/users/:id" "GET" None None)
  = MCPGenerator.generateToolName (EndpointInfo.Build "/users/{id}" "GET" None None)
  /\ TemplateManager.methodName "GET" "/users/:id"
     = TemplateManager.methodName "GET" "/users/{id}".
Proof.
  apply (identifiers_ignore_braces_and_colons "GET" "/users/:id" "/users/{id}").
  reflexivity.
Defined.

Lemma lower_char_not_upper c : Js.is_upper (Js.lower_char c) = false.
Proof. destruct c as [[] [] [] [] [] [] [] []]; reflexivity. Qed.

(** X23: the kebab-case helper leaves no capital letter in its result,
    and it returns a text without capital letters unchanged. *)
Theorem kebabCase_has_no_capitals (str : string) :
  free Js.is_upper (TemplateManager.kebabCase str)
  /\ (free Js.is_upper str -> TemplateManager.kebabCase str = str).
Proof.
  unfold free, Js.chars. split.
  - induction str as [|c str IH]; [constructor|].
    cbn [TemplateManager.kebabCase]. destruct (Js.is_upper c) eqn:Hc; cbn.
    + constructor; [done|]. constructor; [apply lower_char_not_upper | exact IH].
    + by constructor.
  - induction str as [|c str IH]; [done|]. cbn.
    intros H. inversion H as [|? ? Hc Hs]; subst.
    by rewrite Hc, IH.
Qed.

Lemma kebabCase_has_no_capitals_witness :
  TemplateManager.kebabCase "get-api-orders" = "get-api-orders".
Proof.
  apply (kebabCase_has_no_capitals "get-api-orders").
  unfold free. vm_compute. repeat constructor.
Defined.


(** ** Exclusion by exact key *)

(** X24: exclusion compares whole keys: when no endpoint of the project
    has a key that is literally in the exclusion list (in particular when
    the list is absent or empty, or holds only patterns such as a path
    ending in a star), every endpoint is kept and gets its tool file. *)
Theorem exclusion_needs_the_exact_key (cfg : MCPConfig.t) (pi : ProjectInfo.t) :
  (forall e excluded,
     In e (ProjectInfo.endpoints pi) ->
     MCPConfig.excludeEndpoints cfg = Some excluded ->
     ~ In (endpointKey e) excluded) ->
  MCPGenerator.filteredEndpoints cfg pi = ProjectInfo.endpoints pi.
Proof.
  intros Hkeys. unfold MCPGenerator.filteredEndpoints.
  induction (ProjectInfo.endpoints pi) as [|e es IH]; [done|].
  cbn [List.filter].
  assert (Hkept : MCPGenerator.notExcluded cfg e = true).
  { unfold MCPGenerator.notExcluded.
    destruct (MCPConfig.excludeEndpoints cfg) as [excluded|] eqn:E; [|done].
    rewrite array_includes_not_In; [done|].
    apply (Hkeys e excluded); [by left | done]. }
  rewrite Hkept. f_equal. apply IH.
  intros e' excluded He'. apply Hkeys. by right.
Qed.

Lemma exclusion_needs_the_exact_key_witness :
  MCPGenerator.filteredEndpoints wildcardConfig internalProject
  = [usersEndpoint; internalJobs].
Proof.
  apply (exclusion_needs_the_exact_key wildcardConfig internalProject).
  intros e excluded He [= <-] Hin.
  destruct Hin as [Hin | []].
  destruct He as [<- | [<- | []]]; discriminate Hin.
Defined.
